(** * merge_340b: a shallow embedding of the 340B spreadsheet merger

    The development follows [merge_340b.py]: text helpers ([normalize]),
    the column matcher ([best_match_column]), the header locator
    ([find_header_row], [read_with_auto_header]), the root-id extraction
    ([ROOT_ID_REGEX], [extract_root_id]), the date coercion
    ([coerce_datetime]) and the pipeline ([process_folder]).

    Python values are modelled as follows.
    - [str] is [string]; text is taken over 7-bit ASCII, so the case maps
      touch the letters a-z / A-Z only and leave every other character alone.
    - A spreadsheet cell is a [cell]: blank (NaN / NaT / None), a string, an
      integer or a timestamp.
    - A pandas [DataFrame] is an ordered list of column labels together with
      a list of rows; a row maps a label to its cell and an absent label
      reads as blank.
    - The spreadsheet codec and the date conversions (of one value, of a
      whole column) belong to pandas; they are parameters of the development
      (section variables). *)

From Stdlib Require Import ZArith NArith Ascii String DecimalString List.
From Stdlib Require Import Sorted Permutation Lia Bool.
From stdpp Require Import gmap strings list fin_maps sorting.

Local Open Scope string_scope.
Local Open Scope list_scope.
Local Open Scope Z_scope.

(* ===================================================================== *)
(** ** Python [str] primitives *)
(* ===================================================================== *)

Module PyStr.

Definition code (c : ascii) : N := N_of_ascii c.

Definition in_range (lo hi : N) (c : ascii) : bool :=
  ((lo <=? code c) && (code c <=? hi))%N.

(** [str.isspace] on one character: TAB, LF, VT, FF, CR, the four
    separators FS..US and the blank. The same class is what [\s] matches
    in a [str] pattern. *)
Definition is_space (c : ascii) : bool :=
  in_range 9 13 c || in_range 28 32 c.

(** [\d] restricted to ASCII. *)
Definition is_digit (c : ascii) : bool := in_range 48 57 c.

Definition to_lower (c : ascii) : ascii :=
  if in_range 65 90 c then ascii_of_N (code c + 32) else c.

Definition to_upper (c : ascii) : ascii :=
  if in_range 97 122 c then ascii_of_N (code c - 32) else c.

Fixpoint map_chars (f : ascii -> ascii) (s : string) : string :=
  match s with
  | EmptyString => EmptyString
  | String c s' => String (f c) (map_chars f s')
  end.

Definition lower : string -> string := map_chars to_lower.
Definition upper : string -> string := map_chars to_upper.

Fixpoint lstrip (s : string) : string :=
  match s with
  | EmptyString => EmptyString
  | String c s' => if is_space c then lstrip s' else s
  end.

Fixpoint rstrip (s : string) : string :=
  match s with
  | EmptyString => EmptyString
  | String c s' =>
      match rstrip s' with
      | EmptyString => if is_space c then EmptyString else String c EmptyString
      | r => String c r
      end
  end.

Definition strip (s : string) : string := rstrip (lstrip s).

(** [re.sub(r"\s+", " ", s)]: every maximal run of white space becomes one
    blank. [in_run] records that the previous character was white space. *)
Fixpoint sub_ws_from (in_run : bool) (s : string) : string :=
  match s with
  | EmptyString => EmptyString
  | String c s' =>
      if is_space c
      then (if in_run then sub_ws_from true s'
            else String " " (sub_ws_from true s'))
      else String c (sub_ws_from false s')
  end.

Definition sub_ws : string -> string := sub_ws_from false.

Definition startswith (p s : string) : bool := String.prefix p s.

(** [needle in hay]. *)
Fixpoint contains (needle hay : string) : bool :=
  startswith needle hay ||
  match hay with
  | EmptyString => false
  | String _ hay' => contains needle hay'
  end.

Fixpoint rev_onto (acc s : string) : string :=
  match s with
  | EmptyString => acc
  | String c s' => rev_onto (String c acc) s'
  end.

Definition reversed : string -> string := rev_onto EmptyString.

Definition endswith (suffix s : string) : bool :=
  startswith (reversed suffix) (reversed s).

(** Slices [s[:n]] and [s[n:]], and the longest prefix / the rest with
    respect to a character class. *)
Fixpoint first_n (n : nat) (s : string) : string :=
  match n, s with
  | S n', String c s' => String c (first_n n' s')
  | _, _ => EmptyString
  end.

Fixpoint skip_n (n : nat) (s : string) : string :=
  match n, s with
  | S n', String _ s' => skip_n n' s'
  | _, _ => s
  end.

Fixpoint take_while (f : ascii -> bool) (s : string) : string :=
  match s with
  | String c s' => if f c then String c (take_while f s') else EmptyString
  | EmptyString => EmptyString
  end.

Fixpoint drop_while (f : ascii -> bool) (s : string) : string :=
  match s with
  | String c s' => if f c then drop_while f s' else s
  | EmptyString => EmptyString
  end.

(** The truth value of a [str]: only the empty string is falsy. *)
Definition truthy (s : string) : bool :=
  match s with EmptyString => false | _ => true end.

End PyStr.

Import PyStr.

(** [normalize]: [re.sub(r"\s+", " ", str(s).strip()).lower()]. *)
Definition normalize (s : string) : string := lower (sub_ws (strip s)).

(* ===================================================================== *)
(** ** A backtracking matcher for the fragment of [re] the program uses *)
(* ===================================================================== *)

Module Re.

Inductive atom : Type :=
| Lit (c : ascii)      (* a literal character *)
| Digit.               (* \d *)

Inductive regex : Type :=
| Atom (a : atom)
| Cat (r1 r2 : regex)
| Alt (r1 r2 : regex)  (* r1|r2, left alternative first *)
| Plus (a : atom).     (* a+, greedy *)

Record pattern : Type := { body : regex; ignorecase : bool }.

Definition atom_ok (ic : bool) (a : atom) (c : ascii) : bool :=
  match a with
  | Lit l => if ic then Ascii.eqb (to_lower c) (to_lower l) else Ascii.eqb c l
  | Digit => is_digit c
  end.

(** Greedy repetition: take one more character when possible and fall
    back to the continuation when the longer attempt fails. *)
Fixpoint star (ic : bool) (a : atom) (s : string)
    (k : string -> option string) : option string :=
  match s with
  | String c s' =>
      if atom_ok ic a c
      then match star ic a s' k with
           | Some rest => Some rest
           | None => k s
           end
      else k s
  | EmptyString => k s
  end.

(** [run ic r s k] matches [r] at the front of [s] and hands what is left
    to [k]; the result is the text left after the whole match. *)
Fixpoint run (ic : bool) (r : regex) (s : string)
    (k : string -> option string) : option string :=
  match r with
  | Atom a =>
      match s with
      | String c s' => if atom_ok ic a c then k s' else None
      | EmptyString => None
      end
  | Cat r1 r2 => run ic r1 s (fun s' => run ic r2 s' k)
  | Alt r1 r2 =>
      match run ic r1 s k with
      | Some rest => Some rest
      | None => run ic r2 s k
      end
  | Plus a =>
      match s with
      | String c s' => if atom_ok ic a c then star ic a s' k else None
      | EmptyString => None
      end
  end.

(** [Pattern.match(s)] followed by [.group(0)]: the match is anchored at
    the start of [s] (a leading [^] adds nothing) and group 0 is the text
    it consumed. *)
Definition match_group0 (p : pattern) (s : string) : option string :=
  match run (ignorecase p) (body p) s Some with
  | Some rest => Some (first_n (String.length s - String.length rest) s)
  | None => None
  end.

(** The regex of a non-empty literal word. *)
Fixpoint word (c : ascii) (s : string) : regex :=
  match s with
  | EmptyString => Atom (Lit c)
  | String c' s' => Cat (Atom (Lit c)) (word c' s')
  end.

End Re.

(** [ROOT_ID_REGEX = re.compile(r"^(DSH|PED)\d+", re.IGNORECASE)] *)
Definition ROOT_ID_REGEX : Re.pattern :=
  {| Re.body := Re.Cat (Re.Alt (Re.word "D" "SH") (Re.word "P" "ED"))
                       (Re.Plus Re.Digit);
     Re.ignorecase := true |}.

(* ===================================================================== *)
(** ** Cells, rows and data frames *)
(* ===================================================================== *)

(** A pandas [Timestamp]: the wall-clock instant in nanoseconds since the
    epoch and, when the value is time-zone aware, its UTC offset. *)
Record timestamp : Type := { wall : Z; tz : option Z }.

Definition naive (w : Z) : timestamp := {| wall := w; tz := None |}.

Definition DAY_NS : Z := 86400000000000.

Inductive cell : Type :=
| CNull                   (* NaN / NaT / None *)
| CStr (s : string)
| CInt (n : Z)
| CTs (t : timestamp).

Global Instance timestamp_eq_dec : EqDecision timestamp.
Proof. solve_decision. Defined.

Global Instance cell_eq_dec : EqDecision cell.
Proof. solve_decision. Defined.

Definition notna (v : cell) : bool :=
  match v with CNull => false | _ => true end.

Definition isna (v : cell) : bool := negb (notna v).

Abbreviation row := (gmap string cell).

(** Reading a label of a row; a label the row does not carry is blank. *)
Definition rget (r : row) (c : string) : cell := default CNull (r !! c).

Record DataFrame : Type := { columns : list string; rows : list row }.

(** [df[c]] as a Series, and [df[c] = series] (aligned by position): the
    label keeps its place when the frame has it and is appended otherwise. *)
Definition column (df : DataFrame) (c : string) : list cell :=
  map (fun r => rget r c) (rows df).

Definition with_label (c : string) (cols : list string) : list string :=
  if bool_decide (c ∈ cols) then cols else cols ++ [c].

Definition set_column (c : string) (series : list cell) (df : DataFrame)
  : DataFrame :=
  {| columns := with_label c (columns df);
     rows := zip_with (fun r v => <[c := v]> r) (rows df) series |}.

(** [df[c] = scalar] broadcasts the scalar over the rows. *)
Definition set_scalar (c : string) (v : cell) (df : DataFrame) : DataFrame :=
  set_column c (replicate (length (rows df)) v) df.

(** [df[mask]]: the rows whose mask entry is true. *)
Fixpoint select_rows (mask : list bool) (rs : list row) : list row :=
  match mask, rs with
  | b :: mask', r :: rs' =>
      if b then r :: select_rows mask' rs' else select_rows mask' rs'
  | _, _ => []
  end.

Definition boolean_index (mask : list bool) (df : DataFrame) : DataFrame :=
  {| columns := columns df; rows := select_rows mask (rows df) |}.

(** A row cut down to the labels of [cols]. *)
Definition project (cols : list string) (r : row) : row :=
  filter (fun kv => kv.1 ∈ cols) r.

(** [df[cols]] for a list of labels. *)
Definition select_columns (cols : list string) (df : DataFrame) : DataFrame :=
  {| columns := cols; rows := map (project cols) (rows df) |}.

(** [df.dropna(axis=1, how="all")]: a column goes when none of its cells is
    filled (so every column of a frame without rows goes). *)
Definition dropna_columns (df : DataFrame) : DataFrame :=
  select_columns
    (filter (fun c => existsb notna (column df c) = true) (columns df)) df.

(** [df.dropna(axis=0, how="all")] *)
Definition dropna_rows (df : DataFrame) : DataFrame :=
  {| columns := columns df;
     rows := filter (fun r => existsb (fun c => notna (rget r c)) (columns df) = true)
                    (rows df) |}.

(** [pd.concat(frames, ignore_index=True)]: the labels of all frames in
    first-seen order, the rows of the frames one after the other. *)
Definition concat_columns (frames : list DataFrame) : list string :=
  fold_left
    (fun acc df => acc ++ filter (fun c => c ∉ acc) (columns df))
    frames [].

Definition pd_concat (frames : list DataFrame) : DataFrame :=
  {| columns := concat_columns frames;
     rows := flat_map (fun df => map (project (columns df)) (rows df)) frames |}.

(* ===================================================================== *)
(** ** Configuration *)
(* ===================================================================== *)

Definition POSSIBLE_COLS : list (string * list string) :=
  [ ("id", ["340B ID"; "340BID"; "ID"]);
    ("entity", ["Entity Name"; "Covered Entity Name"; "Covered Entity"; "Entity"]);
    ("pharmacy", ["Pharmacy Name"; "Pharmacy"; "Doing Business As"; "DBA"]);
    ("begin", ["Contract Begin Date"; "Begin Date"; "Contract Start Date";
               "Start Date"]);
    ("term", ["Contract Term Date"; "Termination Date"; "Contract End Date";
              "End Date"; "Term Date"]);
    ("city", ["City"]);
    ("state", ["State"]);
    ("zip", ["Zip"; "ZIP"; "Zip Code"; "Postal Code"]) ].

(** [POSSIBLE_COLS[key]] for the keys the program uses. *)
Definition possible (key : string) : list string :=
  default [] ((list_to_map POSSIBLE_COLS : gmap string (list string)) !! key).

(* ===================================================================== *)
(** ** Column matcher *)
(* ===================================================================== *)

(** [{normalize(c): c for c in existing_cols}] *)
Definition norm_map_of (existing_cols : list string) : gmap string string :=
  fold_left (fun m c => <[normalize c := c]> m) existing_cols ∅.

Fixpoint first_exact (norm_map : gmap string string) (candidates : list string)
  : option string :=
  match candidates with
  | [] => None
  | cand :: rest =>
      match norm_map !! normalize cand with
      | Some c => Some c
      | None => first_exact norm_map rest
      end
  end.

Definition loose_hit (candidates : list string) (col : string) : bool :=
  existsb (fun cand => contains (normalize cand) (normalize col)) candidates.

Definition best_match_column (existing_cols candidates : list string)
  : option string :=
  match first_exact (norm_map_of existing_cols) candidates with
  | Some c => Some c
  | None => List.find (loose_hit candidates) existing_cols
  end.

(* ===================================================================== *)
(** ** The column matcher in the words of the specification *)
(* ===================================================================== *)

(** The matcher as the specification words it: the exact pass looks, for
    each candidate in order, for the observed labels with the candidate's
    normal form and answers the last of them; the loose pass answers the
    first observed label that contains the normal form of some candidate. *)
Definition last_with_norm (key : string) (observed : list string)
  : option string :=
  List.find (fun c => String.eqb (normalize c) key) (rev observed).

Fixpoint spec_exact_pass (observed candidates : list string) : option string :=
  match candidates with
  | [] => None
  | cand :: rest =>
      match last_with_norm (normalize cand) observed with
      | Some c => Some c
      | None => spec_exact_pass observed rest
      end
  end.

Definition spec_loose_pass (observed candidates : list string) : option string :=
  List.find
    (fun col => existsb (fun cand => contains (normalize cand) (normalize col))
                        candidates)
    observed.

Definition spec_match (observed candidates : list string) : option string :=
  match spec_exact_pass observed candidates with
  | Some c => Some c
  | None => spec_loose_pass observed candidates
  end.

(* ===================================================================== *)
(** ** The root id in the words of the specification *)
(* ===================================================================== *)

(** Upper-case and trim the id; match it against "one of the prefix tokens,
    whatever the case, directly followed by one or more decimal digits, at
    the start of the text"; the root id is the matched text in upper case. *)
Definition ci_startswith (token s : string) : bool :=
  startswith (lower token) (lower s).

Definition starts_with_digit (s : string) : bool :=
  match s with String c _ => is_digit c | EmptyString => false end.

Definition token_matches (s token : string) : bool :=
  (ci_startswith token s && starts_with_digit (skip_n (String.length token) s))%bool.

Definition spec_pattern_match (tokens : list string) (s : string)
  : option string :=
  match List.find (token_matches s) tokens with
  | Some token =>
      Some (first_n (String.length token) s
            +:+ take_while is_digit (skip_n (String.length token) s))
  | None => None
  end.

Definition spec_root_id (tokens : list string) (id : string) : option string :=
  upper <$> spec_pattern_match tokens (strip (upper id)).

(* ===================================================================== *)
(** ** The program, over the pandas and OS primitives it calls *)
(* ===================================================================== *)

(** What the run prints and how it can end. *)
Inductive warning : Type :=
| WarnReadFailed (path : string)
| WarnMissingColumns (base : string) (col_id col_begin col_term : option string).

Inductive exn : Type :=
| SystemExit (msg : string)
| ValueError
| TypeError.

(** What a pandas call raises is an [Exception], never [SystemExit]. *)
Inductive pandas_error : Type :=
| PdValueError
| PdTypeError.

Definition raised (e : pandas_error) : exn :=
  match e with
  | PdValueError => ValueError
  | PdTypeError => TypeError
  end.

(** [os.path.join] and [os.path.basename] on POSIX paths. *)
Definition path_join (dir f : string) : string :=
  if startswith "/" f then f
  else if (negb (truthy dir) || endswith "/" dir)%bool then dir +:+ f
  else dir +:+ "/" +:+ f.

Fixpoint path_basename (p : string) : string :=
  match p with
  | EmptyString => EmptyString
  | String c p' =>
      if contains "/" p' then path_basename p'
      else if Ascii.eqb c "/" then p' else p
  end.

(** [Timestamp.normalize()]: back to midnight. *)
Definition normalize_ts (t : timestamp) : timestamp :=
  {| wall := wall t - wall t mod DAY_NS; tz := tz t |}.

(** [.dt.tz_localize(None)]: the zone goes, the wall clock stays. *)
Definition tz_localize_none (t : timestamp) : timestamp :=
  {| wall := wall t; tz := None |}.

(** Order of Python strings (by code point). *)
Definition str_le (a b : string) : bool :=
  match String.compare a b with Gt => false | _ => true end.

Section Program.

(** [str(Timestamp)] *)
Variable str_of_timestamp : timestamp -> string.
(** [pd.to_datetime(x)] of one value, [None] when it raises because the
    value is not a date. *)
Variable parse_datetime : cell -> option timestamp.
(** [pd.to_datetime(series, errors="coerce")] of a whole column: the
    exception it raises, or the datetime column it answers, given by its
    value at every position of [series] ([None] is NaT). pandas reads the
    column as a whole: how one value is read can depend on the others (the
    format is guessed from the first filled value), and some columns are an
    error even under "coerce" (UTC offsets that do not agree). *)
Variable to_datetime : list cell -> pandas_error + (nat -> option timestamp).
(** [pd.read_excel(path, header=h, nrows=n)] on the first sheet, [None]
    when it raises. With [header=None] the labels are positions. *)
Variable read_excel : string -> option nat -> option nat -> option DataFrame.
(** [os.listdir] *)
Variable listdir : string -> list string.
(** [pd.Timestamp(date.today())] is midnight of day [date_today]. *)
Variable date_today : Z.

(** [str(x)] of a cell value. *)
Definition py_str (v : cell) : string :=
  match v with
  | CNull => "nan"
  | CStr s => s
  | CInt n => NilZero.string_of_int (Z.to_int n)
  | CTs t => str_of_timestamp t
  end.

(* ------------------------------------------------------------------- *)
(** *** Header locator *)

Definition is_id_header_row (cols : list string) (r : row) : bool :=
  let row_vals := map py_str (map (rget r) cols) in
  existsb (fun v => String.eqb (normalize v) "340b id") row_vals.

(** The body of the [for i in range(...)] loop, from index [i] on. *)
Fixpoint scan_rows (cols : list string) (i : nat) (rs : list row)
  : option nat :=
  match rs with
  | [] => None
  | r :: rs' =>
      if is_id_header_row cols r then Some i else scan_rows cols (S i) rs'
  end.

Definition find_header_row (df_like : DataFrame) : option nat :=
  scan_rows (columns df_like) 0%nat
    (take (Nat.min 15 (length (rows df_like))) (rows df_like)).

(** The header index [read_with_auto_header] settles on. *)
Definition header_index (preview : DataFrame) : nat :=
  match find_header_row preview with
  | Some hdr_idx => hdr_idx
  | None => 3%nat
  end.

Definition read_with_auto_header (path : string) : option DataFrame :=
  match read_excel path None (Some 20%nat) with
  | None => None
  | Some preview =>
      match read_excel path (Some (header_index preview)) None with
      | None => None
      | Some df => Some (dropna_rows (dropna_columns df))
      end
  end.

(* ------------------------------------------------------------------- *)
(** *** Root id *)

Definition extract_root_id (id_val : cell) : option string :=
  let id_val :=
    match id_val with
    | CStr s => s
    | v => if notna v then py_str v else ""
    end in
  match Re.match_group0 ROOT_ID_REGEX (strip id_val) with
  | Some m => Some (upper m)
  | None => None
  end.

Definition cell_of_option (o : option string) : cell :=
  match o with Some s => CStr s | None => CNull end.

(** [series.astype(str).str.upper().str.strip().apply(extract_root_id)] *)
Definition root_id_series (ids : list cell) : list cell :=
  map cell_of_option
    (map extract_root_id
       (map CStr (map strip (map upper (map py_str ids))))).

(* ------------------------------------------------------------------- *)
(** *** Dates *)

(** One value of a datetime column after [.dt.tz_localize(None)]; NaT
    stays NaT. *)
Definition naive_cell (v : option timestamp) : cell :=
  match v with
  | Some t => CTs (tz_localize_none t)
  | None => CNull
  end.

(** [pd.to_datetime(series, errors="coerce").dt.tz_localize(None)] *)
Definition coerce_datetime (series : list cell) : exn + list cell :=
  match to_datetime series with
  | inl e => inl (raised e)
  | inr parsed =>
      inr (map (fun i => naive_cell (parsed i)) (seq 0 (length series)))
  end.

(* ------------------------------------------------------------------- *)
(** *** Record loader (the body of the loop over the files) *)

(** [if c: ...] on an optional label. *)
Definition resolved (c : option string) : bool :=
  match c with Some s => truthy s | None => false end.

Definition add_alias (alias : string) (src : option string) (df : DataFrame)
  : DataFrame :=
  match src with
  | Some c => if truthy c then set_column alias (column df c) df else df
  | None => df
  end.

Definition load_file (f : string) : DataFrame + warning :=
  match read_with_auto_header f with
  | None => inr (WarnReadFailed f)
  | Some df =>
      let cols := columns df in
      let col_id := best_match_column cols (possible "id") in
      let col_begin := best_match_column cols (possible "begin") in
      let col_term := best_match_column cols (possible "term") in
      let col_entity := best_match_column cols (possible "entity") in
      let col_pharm := best_match_column cols (possible "pharmacy") in
      if (negb (resolved col_id) || negb (resolved col_begin)
          || negb (resolved col_term))%bool
      then inr (WarnMissingColumns (path_basename f) col_id col_begin col_term)
      else
        let df := add_alias "ID" col_id df in
        let df := add_alias "BeginDate" col_begin df in
        let df := add_alias "TermDate" col_term df in
        let df := add_alias "EntityName" col_entity df in
        let df := add_alias "PharmacyName" col_pharm df in
        let df := set_scalar "source_file" (CStr (path_basename f)) df in
        inl df
  end.

(** The loop: [frames] and the printed warnings grow at their ends. *)
Fixpoint load_loop (files : list string)
    (frames : list DataFrame) (log : list warning)
  : list DataFrame * list warning :=
  match files with
  | [] => (frames, log)
  | f :: files' =>
      match load_file f with
      | inl df => load_loop files' (frames ++ [df]) log
      | inr w => load_loop files' frames (log ++ [w])
      end
  end.

(* ------------------------------------------------------------------- *)
(** *** Filters *)

(** [s.startswith(prefixes)] on one cell of a string column; a blank cell
    gives NaN, which [&] with the [notna] mask turns into False. *)
Definition startswith_any (prefixes : list string) (v : cell) : bool :=
  match v with
  | CStr s => existsb (fun p => startswith p s) prefixes
  | _ => false
  end.

Definition keep_mask (prefixes : list string) (root_ids : list cell)
  : list bool :=
  zip_with andb (map notna root_ids) (map (startswith_any prefixes) root_ids).

(** One entry of [series >= today] on a naive datetime column. *)
Definition ts_ge (today : Z) (v : cell) : bool :=
  match v with
  | CTs t => today <=? wall t
  | _ => false
  end.

Definition active_mask (today : Z) (term_dates : list cell) : list bool :=
  zip_with orb (map isna term_dates) (map (ts_ge today) term_dates).

(** The reference date: [pd.to_datetime(today_override).normalize()] when
    an override is given, midnight of the current day otherwise. *)
Definition reference_date (today_override : option string) : exn + timestamp :=
  match today_override with
  | Some s =>
      if truthy s
      then match parse_datetime (CStr s) with
           | Some t => inr (normalize_ts t)
           | None => inl ValueError
           end
      else inr (naive (date_today * DAY_NS))
  | None => inr (naive (date_today * DAY_NS))
  end.

(* ------------------------------------------------------------------- *)
(** *** Sorting and deduplication *)

Definition root_key (r : row) : option string :=
  match rget r "RootID" with CStr s => Some s | _ => None end.

Definition begin_key (r : row) : option Z :=
  match rget r "BeginDate" with CTs t => Some (wall t) | _ => None end.

(** Blank keys go last, whatever the direction ([na_position="last"]). *)
Definition cmp_na_last {A} (cmp : A -> A -> comparison) (a b : option A)
  : comparison :=
  match a, b with
  | Some x, Some y => cmp x y
  | Some _, None => Lt
  | None, Some _ => Gt
  | None, None => Eq
  end.

(** [by=["RootID", "BeginDate"], ascending=[True, False]] *)
Definition key_cmp (a b : row) : comparison :=
  match cmp_na_last String.compare (root_key a) (root_key b) with
  | Eq => cmp_na_last (fun x y => Z.compare y x) (begin_key a) (begin_key b)
  | c => c
  end.

Definition row_le (a b : row) : bool :=
  match key_cmp a b with Gt => false | _ => true end.

(** pandas sorts several keys with a stable sort; a stable insertion sort
    gives the same order. *)
Fixpoint insert_row (r : row) (sorted : list row) : list row :=
  match sorted with
  | [] => [r]
  | x :: rest => if row_le r x then r :: sorted else x :: insert_row r rest
  end.

Fixpoint sort_rows (rs : list row) : list row :=
  match rs with
  | [] => []
  | r :: rs' => insert_row r (sort_rows rs')
  end.

Definition sort_values (df : DataFrame) : DataFrame :=
  {| columns := columns df; rows := sort_rows (rows df) |}.

(** [drop_duplicates(subset=["RootID"], keep="first")] *)
Fixpoint drop_dups_from (seen : list cell) (rs : list row) : list row :=
  match rs with
  | [] => []
  | r :: rs' =>
      if bool_decide (rget r "RootID" ∈ seen) then drop_dups_from seen rs'
      else r :: drop_dups_from (rget r "RootID" :: seen) rs'
  end.

Definition drop_duplicates (df : DataFrame) : DataFrame :=
  {| columns := columns df; rows := drop_dups_from [] (rows df) |}.

Definition dedupe (dedupe_strategy : string) (merged : DataFrame) : DataFrame :=
  let merged :=
    if String.eqb dedupe_strategy "latest-begin" then sort_values merged
    else merged in
  drop_duplicates merged.

(* ------------------------------------------------------------------- *)
(** *** The pipeline *)

Definition is_input_file (f : string) : bool :=
  (endswith ".xlsx" (lower f) && negb (startswith "~$" f))%bool.

Definition input_files (input_dir : string) : list string :=
  map (path_join input_dir) (List.filter is_input_file (listdir input_dir)).

Definition KEY_FIRST : list string :=
  ["RootID"; "ID"; "EntityName"; "PharmacyName"; "BeginDate"; "TermDate"].

Definition output (keep_all_columns : bool) (deduped : DataFrame) : DataFrame :=
  let key_first := filter (fun c => c ∈ columns deduped) KEY_FIRST in
  if keep_all_columns
  then
    let rest := filter (fun c => c ∉ key_first) (columns deduped) in
    select_columns (key_first ++ rest) deduped
  else select_columns key_first deduped.

(** The two date columns coerced, BeginDate first; an exception of either
    coercion ends the run. *)
Definition coerce_dates (merged : DataFrame) : exn + DataFrame :=
  match coerce_datetime (column merged "BeginDate") with
  | inl e => inl e
  | inr begin_dates =>
      let merged := set_column "BeginDate" begin_dates merged in
      match coerce_datetime (column merged "TermDate") with
      | inl e => inl e
      | inr term_dates => inr (set_column "TermDate" term_dates merged)
      end
  end.

(** Root id attached. *)
Definition prepare (merged : DataFrame) : DataFrame :=
  set_column "RootID" (root_id_series (column merged "ID")) merged.

Definition filter_prefixes (prefixes : list string) (merged : DataFrame)
  : DataFrame :=
  let prefixes := map upper prefixes in
  boolean_index (keep_mask prefixes (column merged "RootID")) merged.

Definition filter_active (today : Z) (merged : DataFrame) : DataFrame :=
  boolean_index (active_mask today (column merged "TermDate")) merged.

Definition NO_FILES : string := "No .xlsx files found in: ".
Definition NO_FRAMES : string :=
  "No usable data frames were produced from the input files.".

(** [merged] as it stands when deduplication starts: the frames
    concatenated, the dates coerced, the root id attached, the two filters
    applied. *)
Definition merge_frames (frames : list DataFrame) (prefixes : list string)
    (today_override : option string) : exn + DataFrame :=
  let merged := pd_concat frames in
  match coerce_dates merged with
  | inl e => inl e
  | inr merged =>
      let merged := prepare merged in
      let merged := filter_prefixes prefixes merged in
      match reference_date today_override with
      | inl e => inl e
      | inr today =>
          match tz today with
          | Some _ => inl TypeError   (* naive column against an aware date *)
          | None => inr (filter_active (wall today) merged)
          end
      end
  end.

Definition process_frames (frames : list DataFrame) (prefixes : list string)
    (dedupe_strategy : string) (today_override : option string)
    (keep_all_columns : bool) : exn + DataFrame :=
  match merge_frames frames prefixes today_override with
  | inl e => inl e
  | inr merged =>
      let deduped := dedupe dedupe_strategy merged in
      inr (output keep_all_columns deduped)
  end.

Definition process_folder (input_dir : string) (prefixes : list string)
    (dedupe_strategy : string) (today_override : option string)
    (keep_all_columns : bool) : list warning * (exn + DataFrame) :=
  let files := input_files input_dir in
  match files with
  | [] => ([], inl (SystemExit (NO_FILES +:+ input_dir)))
  | _ =>
      let '(frames, log) := load_loop files [] [] in
      match frames with
      | [] => (log, inl (SystemExit NO_FRAMES))
      | _ => (log, process_frames frames prefixes dedupe_strategy
                     today_override keep_all_columns)
      end
  end.

(* ------------------------------------------------------------------- *)
(** *** Definitions the statements below are written with *)

(** What [prepare] does to one row. *)
Definition root_cell (id : cell) : cell :=
  cell_of_option (extract_root_id (CStr (strip (upper (py_str id))))).

Definition prepare_row (r : row) : row :=
  <["RootID" := root_cell (rget r "ID")]> r.

(** The two masks, read row by row. *)
Definition keep_row (prefixes : list string) (r : row) : bool :=
  (notna (rget r "RootID") && startswith_any prefixes (rget r "RootID"))%bool.

Definition active_row (today : Z) (r : row) : bool :=
  (isna (rget r "TermDate") || ts_ge today (rget r "TermDate"))%bool.

(** A three-way comparison that is a total order: [Eq] is equality, the
    comparison is antisymmetric and [Lt] is transitive. *)
Class CmpOrder {A : Type} (cmp : A -> A -> comparison) : Prop := {
  cmp_eq_iff : forall x y, cmp x y = Eq <-> x = y;
  cmp_antisym : forall x y, cmp y x = CompOpp (cmp x y);
  cmp_lt_trans : forall x y z, cmp x y = Lt -> cmp y z = Lt -> cmp x z = Lt
}.

(** Comparison of pairs, first component first, and the "not greater"
    test of a comparison. *)
Definition lex_cmp {A B} (c1 : A -> A -> comparison) (c2 : B -> B -> comparison)
    (x y : A * B) : comparison :=
  match c1 (fst x) (fst y) with
  | Eq => c2 (snd x) (snd y)
  | c => c
  end.

Definition cmp_le {A} (cmp : A -> A -> comparison) (x y : A) : bool :=
  match cmp x y with Gt => false | _ => true end.

(** The sort key of a row and the order [sort_values] sorts by. *)
Definition sort_key (r : row) : option string * option Z :=
  (root_key r, begin_key r).

Definition sort_key_cmp : option string * option Z -> option string * option Z
    -> comparison :=
  lex_cmp (cmp_na_last String.compare)
          (cmp_na_last (fun x y : Z => Z.compare y x)).

(** The labels [output] selects. *)
Definition output_columns (keep_all_columns : bool) (deduped : DataFrame)
  : list string :=
  let key_first := filter (fun c => c ∈ columns deduped) KEY_FIRST in
  if keep_all_columns
  then key_first ++ filter (fun c => c ∉ key_first) (columns deduped)
  else key_first.

(** What one file contributes to the loop. *)
Definition frame_of (f : string) : option DataFrame :=
  match load_file f with inl df => Some df | inr _ => None end.

Definition warning_of (f : string) : option warning :=
  match load_file f with inl _ => None | inr w => Some w end.

(** The labels the loader writes. *)
Definition ALIASES : list string :=
  ["ID"; "BeginDate"; "TermDate"; "EntityName"; "PharmacyName"; "source_file"].

(** [keeps d d']: every label of [d] is a label of [d'], the columns whose
    label is not an alias label are the same, and so is the number of rows. *)
Definition keeps (d d' : DataFrame) : Prop :=
  (forall c, c ∈ columns d -> c ∈ columns d') /\
  (forall c, c ∉ ALIASES -> column d' c = column d c) /\
  length (rows d') = length (rows d).

(** Text that does not start, respectively end, with white space. *)
Definition starts_clean (s : string) : bool :=
  match s with String c _ => negb (is_space c) | EmptyString => true end.

Fixpoint ends_clean (s : string) : bool :=
  match s with
  | EmptyString => true
  | String c s' =>
      match s' with
      | EmptyString => negb (is_space c)
      | _ => ends_clean s'
      end
  end.

(** Text made of decimal digits only. *)
Fixpoint all_digits (s : string) : bool :=
  match s with
  | EmptyString => true
  | String c s' => (is_digit c && all_digits s')%bool
  end.

(* =================================================================== *)
(** ** Column matcher: the two passes *)
(* =================================================================== *)

Example normalize_ex1 :
  normalize "  Contract   Begin  Date " = "contract begin date".
Proof. reflexivity. Qed.

Example normalize_ex2 : normalize "340B ID" = "340b id".
Proof. reflexivity. Qed.

Example endswith_ex : endswith ".xlsx" (lower "Report.XLSX") = true.
Proof. reflexivity. Qed.

Example best_match_ex1 :
  best_match_column ["Contract Begin Date"] ["Begin Date"; "Contract Start Date"]
  = Some "Contract Begin Date".
Proof. vm_compute. reflexivity. Qed.

Example best_match_ex2 : best_match_column ["foo"] ["bar"] = None.
Proof. vm_compute. reflexivity. Qed.

Lemma find_snoc {A} (p : A -> bool) (l : list A) (x : A) :
  List.find p (l ++ [x]) =
  match List.find p l with
  | Some y => Some y
  | None => if p x then Some x else None
  end.
Proof.
  induction l as [|a l IH]; simpl; [reflexivity|].
  destruct (p a); [reflexivity | exact IH].
Qed.

(** Filling the dictionary left to right means the last label with a given
    normal form is the one a lookup finds. *)
Lemma norm_map_fold (cols : list string) (m : gmap string string) (key : string) :
  fold_left (fun m c => <[normalize c := c]> m) cols m !! key =
  match last_with_norm key cols with
  | Some c => Some c
  | None => m !! key
  end.
Proof.
  unfold last_with_norm. revert m.
  induction cols as [|c cols IH]; intros m; simpl; [reflexivity|].
  rewrite IH, find_snoc.
  destruct (List.find _ (rev cols)); [reflexivity|].
  destruct (String.eqb_spec (normalize c) key) as [->|Hne].
  - apply lookup_insert_eq.
  - by apply lookup_insert_ne.
Qed.

Lemma norm_map_lookup (cols : list string) (key : string) :
  norm_map_of cols !! key = last_with_norm key cols.
Proof.
  unfold norm_map_of. rewrite norm_map_fold.
  destruct (last_with_norm key cols); [reflexivity | apply lookup_empty].
Qed.

Lemma first_exact_spec (cols cands : list string) :
  first_exact (norm_map_of cols) cands = spec_exact_pass cols cands.
Proof.
  induction cands as [|cand rest IH]; simpl; [reflexivity|].
  rewrite norm_map_lookup, IH. reflexivity.
Qed.

(** The label [last_with_norm] answers is the last one with that normal
    form, and it answers whenever there is one. *)
Lemma last_with_norm_Some (key : string) (cols : list string) (c : string) :
  last_with_norm key cols = Some c <->
  exists before after,
    cols = before ++ c :: after /\ normalize c = key /\
    Forall (fun c' => normalize c' <> key) after.
Proof.
  unfold last_with_norm. induction cols as [|x cols IH] using rev_ind.
  - simpl. split; [discriminate|].
    intros (b & a & H & _). by destruct b.
  - rewrite rev_unit. simpl.
    destruct (String.eqb_spec (normalize x) key) as [Hx|Hx].
    + split.
      * intros [= <-]. exists cols, []. by repeat split.
      * intros (b & a & H & Hc & Ha).
        destruct a as [|y a _] using rev_ind.
        -- apply app_inj_tail in H as [_ ->]. reflexivity.
        -- rewrite app_comm_cons, app_assoc in H.
           apply app_inj_tail in H as [_ ->].
           apply Forall_app in Ha as [_ Ha]. by inversion Ha.
    + rewrite IH. split.
      * intros (b & a & -> & Hc & Ha). exists b, (a ++ [x]).
        rewrite <- app_assoc. repeat split; [done|].
        apply Forall_app. split; [done|]. by constructor.
      * intros (b & a & H & Hc & Ha).
        destruct a as [|y a _] using rev_ind.
        -- apply app_inj_tail in H as [_ ->]. done.
        -- rewrite app_comm_cons, app_assoc in H.
           apply app_inj_tail in H as [-> ->].
           apply Forall_app in Ha as [Ha _]. by exists b, a.
Qed.

(** C7. For all observed labels and candidates, [best_match_column] is the
    matcher of the specification: the exact pass over the whole candidate
    list (last label wins among equal normal forms, first candidate wins),
    then the loose pass over the observed labels in their order, then
    nothing; with the two sample calls of the specification. *)
Theorem best_match_column_two_passes :
  (forall observed candidates,
      best_match_column observed candidates = spec_match observed candidates) /\
  best_match_column ["Contract Begin Date"] ["Begin Date"; "Contract Start Date"]
    = Some "Contract Begin Date" /\
  best_match_column ["foo"] ["bar"] = None.
Proof.
  split; [|split; vm_compute; reflexivity].
  intros observed candidates.
  unfold best_match_column, spec_match. rewrite first_exact_spec.
  reflexivity.
Qed.

(* =================================================================== *)
(** ** Header locator *)
(* =================================================================== *)

Lemma is_id_header_row_true (cols : list string) (r : row) :
  is_id_header_row cols r = true <->
  exists c, c ∈ cols /\ normalize (py_str (rget r c)) = "340b id".
Proof.
  unfold is_id_header_row. rewrite existsb_exists. split.
  - intros (v & Hin & Hv). rewrite map_map in Hin.
    apply in_map_iff in Hin as (c & <- & Hc).
    exists c. split; [by apply list_elem_of_In|]. by apply String.eqb_eq.
  - intros (c & Hc & Hv). exists (py_str (rget r c)). split.
    + rewrite map_map. apply in_map_iff. exists c.
      split; [done | by apply list_elem_of_In].
    + by apply String.eqb_eq.
Qed.

Lemma scan_rows_Some (cols : list string) (rs : list row) (i n : nat) :
  scan_rows cols i rs = Some n <->
  exists k r,
    n = (i + k)%nat /\ rs !! k = Some r /\ is_id_header_row cols r = true /\
    forall j r', (j < k)%nat -> rs !! j = Some r' ->
                 is_id_header_row cols r' = false.
Proof.
  revert i. induction rs as [|x rs IH]; intros i; simpl.
  - split; [discriminate|]. by intros (k & r & _ & H & _).
  - destruct (is_id_header_row cols x) eqn:Hx.
    + split.
      * intros [= <-]. exists 0%nat, x. repeat split; [lia|done|lia].
      * intros (k & r & -> & Hk & Hr & Hlt).
        destruct k as [|k]; [f_equal; lia|].
        specialize (Hlt 0%nat x ltac:(lia) eq_refl). congruence.
    + rewrite IH. split.
      * intros (k & r & -> & Hk & Hr & Hlt). exists (S k), r.
        repeat split; [lia|done|done|].
        intros [|j] r' Hj Hr'; simpl in Hr'; [congruence|].
        apply (Hlt j); [lia|done].
      * intros (k & r & -> & Hk & Hr & Hlt).
        destruct k as [|k]; simpl in Hk; [congruence|].
        exists k, r. repeat split; [lia|done|done|].
        intros j r' Hj Hr'. apply (Hlt (S j)); [lia|done].
Qed.

Lemma scan_rows_None (cols : list string) (rs : list row) (i : nat) :
  scan_rows cols i rs = None <->
  forall j r, rs !! j = Some r -> is_id_header_row cols r = false.
Proof.
  revert i. induction rs as [|x rs IH]; intros i; simpl.
  - split; [|done]. by intros _ j r H.
  - destruct (is_id_header_row cols x) eqn:Hx.
    + split; [discriminate|].
      intros H. specialize (H 0%nat x eq_refl). congruence.
    + rewrite IH. split.
      * intros H [|j] r Hr; simpl in Hr; [congruence | by apply (H j)].
      * intros H j r Hr. by apply (H (S j)).
Qed.

Lemma header_window (df_like : DataFrame) :
  take (Nat.min 15 (length (rows df_like))) (rows df_like)
  = take 15 (rows df_like).
Proof.
  destruct (Nat.min_spec 15 (length (rows df_like))) as [[_ ->]|[Hle ->]];
    [reflexivity|].
  rewrite !take_ge; [reflexivity | lia | lia].
Qed.

(** C8. The header locator looks at the first fifteen rows only and
    answers the index of the first of them that holds a cell whose
    normalised text is "340b id"; without such a row it answers nothing,
    and [read_with_auto_header] then reads the file with header row 3. *)
Theorem find_header_row_first_hit (df_like : DataFrame) :
  (forall i,
      find_header_row df_like = Some i <->
      (i < 15)%nat /\
      exists r, rows df_like !! i = Some r /\
        (exists c, c ∈ columns df_like /\
                   normalize (py_str (rget r c)) = "340b id") /\
        forall j r', (j < i)%nat -> rows df_like !! j = Some r' ->
          ~ exists c, c ∈ columns df_like /\
                      normalize (py_str (rget r' c)) = "340b id") /\
  (find_header_row df_like = None <->
   forall i r, (i < 15)%nat -> rows df_like !! i = Some r ->
     ~ exists c, c ∈ columns df_like /\
                 normalize (py_str (rget r c)) = "340b id") /\
  (forall other,
      columns other = columns df_like ->
      take 15 (rows other) = take 15 (rows df_like) ->
      find_header_row other = find_header_row df_like) /\
  header_index df_like = default 3%nat (find_header_row df_like) /\
  (forall path,
      read_excel path None (Some 20%nat) = Some df_like ->
      find_header_row df_like = None ->
      read_with_auto_header path
      = (fun df => dropna_rows (dropna_columns df))
          <$> read_excel path (Some 3%nat) None).
Proof.
  assert (Hfalse : forall r,
    is_id_header_row (columns df_like) r = false <->
    ~ exists c, c ∈ columns df_like /\
                normalize (py_str (rget r c)) = "340b id").
  { intros r. rewrite <- is_id_header_row_true.
    destruct (is_id_header_row _ r); split; done. }
  split; [|split; [|split; [|split]]].
  - intros i. unfold find_header_row. rewrite header_window, scan_rows_Some.
    split.
    + intros (k & r & -> & Hk & Hr & Hlt). simpl.
      apply lookup_take_Some in Hk as [Hk Hlt15].
      split; [done|]. exists r. split; [done|].
      split; [by apply is_id_header_row_true|].
      intros j r' Hj Hr'. apply Hfalse, (Hlt j); [done|].
      apply lookup_take_Some. split; [done | lia].
    + intros (Hlt15 & r & Hr & Hhit & Hbefore). exists i, r.
      split; [done|]. split; [by apply lookup_take_Some|].
      split; [by apply is_id_header_row_true|].
      intros j r' Hj Hr'. apply lookup_take_Some in Hr' as [Hr' _].
      apply Hfalse. by apply (Hbefore j).
  - unfold find_header_row. rewrite header_window, scan_rows_None. split.
    + intros H i r Hi Hr. apply Hfalse, (H i).
      by apply lookup_take_Some.
    + intros H j r Hr. apply lookup_take_Some in Hr as [Hr Hj].
      apply Hfalse. by apply (H j).
  - intros other Hcols Hrows. unfold find_header_row.
    by rewrite !header_window, Hcols, Hrows.
  - unfold header_index. by destruct (find_header_row df_like).
  - intros path Hprev Hnone. unfold read_with_auto_header, header_index.
    rewrite Hprev, Hnone. by destruct (read_excel path (Some 3%nat) None).
Qed.

(* =================================================================== *)
(** ** Root id *)
(* =================================================================== *)

Lemma startswith_nil (s : string) : startswith "" s = true.
Proof. by destruct s. Qed.

Lemma rstrip_cons_keep (c : ascii) (s : string) :
  is_space c = false -> rstrip (String c s) = String c (rstrip s).
Proof. intros Hc. simpl. destruct (rstrip s); by rewrite ?Hc. Qed.

Lemma rstrip_idem (s : string) : rstrip (rstrip s) = rstrip s.
Proof.
  induction s as [|c s IH]; [reflexivity|]. simpl.
  destruct (rstrip s) as [|b r] eqn:Hr.
  - destruct (is_space c) eqn:Hc; [reflexivity|]. simpl. by rewrite Hc.
  - change (rstrip (String c (String b r)) = String c (String b r)).
    cbn [rstrip]. cbn [rstrip] in IH. by rewrite IH.
Qed.

Lemma lstrip_head (s : string) :
  lstrip s = "" \/ exists c t, lstrip s = String c t /\ is_space c = false.
Proof.
  induction s as [|c s IH]; [by left|]. simpl.
  destruct (is_space c) eqn:Hc; [exact IH|]. right. by exists c, s.
Qed.

Lemma strip_idem (s : string) : strip (strip s) = strip s.
Proof.
  unfold strip. destruct (lstrip_head s) as [->|(c & t & -> & Hc)];
    [reflexivity|].
  rewrite (rstrip_cons_keep c t Hc). simpl lstrip. rewrite Hc.
  by rewrite (rstrip_cons_keep c _ Hc), rstrip_idem.
Qed.

Lemma run_word (w : string) (c : ascii) (s : string)
    (k : string -> option string) :
  Re.run true (Re.word c w) s k =
  if ci_startswith (String c w) s then k (skip_n (S (String.length w)) s)
  else None.
Proof.
  revert c s k. induction w as [|c' w IH]; intros c s k.
  - destruct s as [|a s]; [reflexivity|]. unfold ci_startswith. simpl.
    rewrite startswith_nil.
    destruct (Ascii.eqb_spec (to_lower a) (to_lower c)) as [->|Hne].
    + by destruct (ascii_dec _ _).
    + destruct (ascii_dec _ _) as [He|]; [by rewrite He in Hne | done].
  - destruct s as [|a s]; [reflexivity|].
    change (Re.run true (Re.word c (String c' w)) (String a s) k)
      with (if Ascii.eqb (to_lower a) (to_lower c)
            then Re.run true (Re.word c' w) s k else None).
    rewrite IH. unfold ci_startswith.
    change (startswith (lower (String c (String c' w))) (lower (String a s)))
      with (if ascii_dec (to_lower c) (to_lower a)
            then startswith (lower (String c' w)) (lower s) else false).
    destruct (Ascii.eqb_spec (to_lower a) (to_lower c)) as [->|Hne].
    + by destruct (ascii_dec _ _).
    + destruct (ascii_dec _ _) as [He|]; [by rewrite He in Hne | done].
Qed.

Lemma star_digit (s : string) :
  Re.star true Re.Digit s Some = Some (drop_while is_digit s).
Proof.
  induction s as [|c s IH]; [reflexivity|]. simpl.
  destruct (is_digit c); [by rewrite IH | reflexivity].
Qed.

Lemma plus_digit (s : string) :
  Re.run true (Re.Plus Re.Digit) s Some =
  if starts_with_digit s then Some (drop_while is_digit s) else None.
Proof.
  destruct s as [|c s]; [reflexivity|]. simpl.
  destruct (is_digit c); [apply star_digit | reflexivity].
Qed.

Lemma drop_while_length (f : ascii -> bool) (s : string) :
  (String.length (drop_while f s) <= String.length s)%nat.
Proof.
  induction s as [|c s IH]; simpl; [lia|].
  destruct (f c); simpl; lia.
Qed.

Lemma skip_n_length (n : nat) (s : string) :
  (String.length (skip_n n s) <= String.length s)%nat.
Proof.
  revert s. induction n as [|n IH]; intros [|c s]; simpl; try lia.
  specialize (IH s). lia.
Qed.

(** The text a match consumed, computed from what it left over, is the
    token followed by the longest run of digits. *)
Lemma consumed_slice (f : ascii -> bool) (n : nat) (s : string) :
  first_n (String.length s - String.length (drop_while f (skip_n n s))) s
  = first_n n s +:+ take_while f (skip_n n s).
Proof.
  revert s. induction n as [|n IH]; intros s.
  - replace (skip_n 0 s) with s by (by destruct s).
    replace (first_n 0 s) with "" by (by destruct s). simpl.
    induction s as [|c s IHs]; [reflexivity|]. simpl drop_while.
    simpl take_while. destruct (f c).
    + pose proof (drop_while_length f s).
      replace (String.length (String c s) - String.length (drop_while f s))%nat
        with (S (String.length s - String.length (drop_while f s)))
        by (simpl; lia).
      simpl. by rewrite IHs.
    + by rewrite Nat.sub_diag.
  - destruct s as [|c s]; [reflexivity|]. simpl skip_n.
    pose proof (drop_while_length f (skip_n n s)).
    pose proof (skip_n_length n s).
    replace (String.length (String c s)
             - String.length (drop_while f (skip_n n s)))%nat
      with (S (String.length s - String.length (drop_while f (skip_n n s))))
      by (simpl; lia).
    simpl. by rewrite IH.
Qed.

(** [ROOT_ID_REGEX.match] finds what the pattern of the specification
    finds for the tokens DSH and PED. *)
Lemma match_root_regex (s : string) :
  Re.match_group0 ROOT_ID_REGEX s = spec_pattern_match ["DSH"; "PED"] s.
Proof.
  unfold spec_pattern_match.
  change (Re.match_group0 ROOT_ID_REGEX s)
    with (match
            match Re.run true (Re.word "D" "SH") s
                    (fun s' => Re.run true (Re.Plus Re.Digit) s' Some) with
            | Some rest => Some rest
            | None => Re.run true (Re.word "P" "ED") s
                        (fun s' => Re.run true (Re.Plus Re.Digit) s' Some)
            end
          with
          | Some rest => Some (first_n (String.length s - String.length rest) s)
          | None => None
          end).
  rewrite !run_word.
  cbn [List.find]. unfold token_matches. rewrite !plus_digit.
  change (S (String.length "SH")) with 3%nat.
  change (S (String.length "ED")) with 3%nat.
  change (String.length "DSH") with 3%nat.
  change (String.length "PED") with 3%nat.
  destruct (ci_startswith "DSH" s), (ci_startswith "PED" s),
    (starts_with_digit (skip_n 3 s)); cbv beta iota delta [andb];
    try reflexivity; by rewrite consumed_slice.
Qed.

Lemma extract_root_id_text (v : cell) :
  extract_root_id (CStr (strip (upper (py_str v))))
  = spec_root_id ["DSH"; "PED"] (py_str v).
Proof.
  unfold extract_root_id, spec_root_id.
  rewrite strip_idem, match_root_regex.
  by destruct (spec_pattern_match _ _).
Qed.

Lemma root_id_series_spec (ids : list cell) :
  root_id_series ids
  = map (fun v => cell_of_option (spec_root_id ["DSH"; "PED"] (py_str v))) ids.
Proof.
  unfold root_id_series. rewrite !map_map. apply map_ext.
  intros v. by rewrite extract_root_id_text.
Qed.

(* =================================================================== *)
(** ** Frames: assignments and masks row by row *)
(* =================================================================== *)

Lemma rget_insert (r : row) (c c' : string) (v : cell) :
  rget (<[c := v]> r) c' = if decide (c = c') then v else rget r c'.
Proof. unfold rget. rewrite lookup_insert. by case_decide. Qed.

Lemma rget_insert_eq (r : row) (c : string) (v : cell) :
  rget (<[c := v]> r) c = v.
Proof. rewrite rget_insert. by case_decide. Qed.

Lemma rget_insert_ne (r : row) (c c' : string) (v : cell) :
  c <> c' -> rget (<[c := v]> r) c' = rget r c'.
Proof. intros. rewrite rget_insert. by case_decide. Qed.

Lemma rget_project (cols : list string) (r : row) (c : string) :
  rget (project cols r) c = if decide (c ∈ cols) then rget r c else CNull.
Proof.
  unfold rget, project. case_decide as Hc.
  - destruct (r !! c) as [v|] eqn:Hr.
    + by rewrite (proj2 (map_lookup_filter_Some _ r c v) (conj Hr Hc)).
    + by rewrite (proj2 (map_lookup_filter_None _ r c) (or_introl Hr)).
  - rewrite (proj2 (map_lookup_filter_None _ r c)); [done|].
    right. intros v _. exact Hc.
Qed.

Lemma zip_with_maps {A B C D} (g : B -> C -> D) (f : A -> B) (h : A -> C)
    (l : list A) :
  zip_with g (map f l) (map h l) = map (fun x => g (f x) (h x)) l.
Proof. induction l as [|x l IH]; simpl; [done | by rewrite IH]. Qed.

Lemma rows_set_column (c c0 : string) (f : cell -> cell) (df : DataFrame) :
  rows (set_column c (map f (column df c0)) df)
  = map (fun r => <[c := f (rget r c0)]> r) (rows df).
Proof.
  unfold set_column, column. simpl. rewrite map_map.
  induction (rows df) as [|r rs IH]; simpl; [done | by rewrite IH].
Qed.

Lemma column_length (df : DataFrame) (c : string) :
  length (column df c) = length (rows df).
Proof. apply length_map. Qed.

Lemma column_set_column_ne (a c : string) (series : list cell) (df : DataFrame) :
  c <> a -> length series = length (rows df) ->
  column (set_column a series df) c = column df c.
Proof.
  intros Hne. unfold column, set_column. simpl.
  revert series. induction (rows df) as [|r rs IH]; intros [|v series] Hlen;
    simpl in *; try done.
  rewrite rget_insert_ne by done. f_equal. apply IH. lia.
Qed.

Lemma column_set_column_eq (a : string) (series : list cell) (df : DataFrame) :
  length series = length (rows df) ->
  column (set_column a series df) a = series.
Proof.
  unfold column, set_column. simpl.
  revert series. induction (rows df) as [|r rs IH]; intros [|v series] Hlen;
    simpl in *; try done.
  rewrite rget_insert_eq. f_equal. apply IH. lia.
Qed.

Lemma rows_length_set_column (a : string) (series : list cell) (df : DataFrame) :
  length series = length (rows df) ->
  length (rows (set_column a series df)) = length (rows df).
Proof. intros H. simpl. rewrite length_zip_with. lia. Qed.

Lemma elem_of_rows_set_column (c : string) (series : list cell)
    (df : DataFrame) (r : row) :
  r ∈ rows (set_column c series df) ->
  exists r0 v, r0 ∈ rows df /\ v ∈ series /\ r = <[c := v]> r0.
Proof.
  unfold set_column. simpl. revert series.
  induction (rows df) as [|r0 rs IH]; intros [|v series] Hr; simpl in Hr;
    try by apply elem_of_nil in Hr.
  apply elem_of_cons in Hr as [->|Hr].
  - exists r0, v. split; [by left|]. split; [by left | done].
  - destruct (IH series Hr) as (r1 & v1 & H1 & H2 & H3).
    exists r1, v1. split; [by right|]. split; [by right | done].
Qed.

Lemma select_rows_map (p : row -> bool) (rs : list row) :
  select_rows (map p rs) rs = List.filter p rs.
Proof.
  induction rs as [|r rs IH]; simpl; [done|].
  destruct (p r); by rewrite IH.
Qed.

Lemma elem_of_with_label (c c' : string) (cols : list string) :
  c' ∈ with_label c cols <-> c' = c \/ c' ∈ cols.
Proof.
  unfold with_label. case_bool_decide as Hc.
  - split; [by right | by intros [->|]].
  - rewrite elem_of_app, list_elem_of_singleton.
    split; (intros [H|H]; [by right | by left]).
Qed.

Lemma root_id_series_map (ids : list cell) :
  root_id_series ids = map root_cell ids.
Proof. unfold root_id_series, root_cell. by rewrite !map_map. Qed.

Lemma rows_prepare (merged : DataFrame) :
  rows (prepare merged) = map prepare_row (rows merged).
Proof.
  unfold prepare. by rewrite root_id_series_map, rows_set_column.
Qed.

Lemma columns_prepare (merged : DataFrame) :
  columns (prepare merged) = with_label "RootID" (columns merged).
Proof. reflexivity. Qed.

Lemma prepare_row_fields (r : row) :
  rget (prepare_row r) "RootID" = root_cell (rget r "ID") /\
  (forall c, c <> "RootID" -> rget (prepare_row r) c = rget r c).
Proof.
  unfold prepare_row. split; [apply rget_insert_eq|].
  intros c Hc. by apply rget_insert_ne.
Qed.

(** The coercion of a column that pandas accepts. *)
Lemma coerce_datetime_inr (series out : list cell) :
  coerce_datetime series = inr out ->
  exists parsed,
    to_datetime series = inr parsed /\
    out = map (fun i => naive_cell (parsed i)) (seq 0 (length series)) /\
    length out = length series /\
    Forall (fun v => v = CNull \/ exists w, v = CTs (naive w)) out.
Proof.
  unfold coerce_datetime. destruct (to_datetime series) as [e|parsed]; [done|].
  intros [= <-]. exists parsed. split; [done|]. split; [done|].
  split; [by rewrite length_map, length_seq|].
  apply Forall_forall. intros v Hv.
  apply list_elem_of_In, in_map_iff in Hv as (i & <- & _).
  destruct (parsed i) as [t|]; [right; by exists (wall t) | by left].
Qed.

Lemma coerce_dates_inr (merged dated : DataFrame) :
  coerce_dates merged = inr dated ->
  exists begin_dates term_dates,
    coerce_datetime (column merged "BeginDate") = inr begin_dates /\
    coerce_datetime (column merged "TermDate") = inr term_dates /\
    dated = set_column "TermDate" term_dates
              (set_column "BeginDate" begin_dates merged) /\
    length begin_dates = length (rows merged) /\
    length term_dates = length (rows merged).
Proof.
  unfold coerce_dates.
  destruct (coerce_datetime (column merged "BeginDate")) as [e|bd] eqn:Hb;
    [done|].
  destruct (coerce_datetime_inr _ _ Hb) as (_ & _ & _ & Hlb & _).
  rewrite column_length in Hlb.
  rewrite column_set_column_ne by done.
  destruct (coerce_datetime (column merged "TermDate")) as [e|td] eqn:Ht;
    [done|].
  destruct (coerce_datetime_inr _ _ Ht) as (_ & _ & _ & Hlt & _).
  rewrite column_length in Hlt.
  intros [= <-]. by exists bd, td.
Qed.

(** The dated table: its labels, its columns, its rows. *)
Lemma coerce_dates_frame (merged dated : DataFrame) :
  coerce_dates merged = inr dated ->
  columns dated
  = with_label "TermDate" (with_label "BeginDate" (columns merged)) /\
  length (rows dated) = length (rows merged) /\
  coerce_datetime (column merged "BeginDate") = inr (column dated "BeginDate") /\
  coerce_datetime (column merged "TermDate") = inr (column dated "TermDate") /\
  (forall c, c <> "BeginDate" -> c <> "TermDate" ->
             column dated c = column merged c).
Proof.
  intros (bd & td & Hb & Ht & -> & Hlb & Hlt)%coerce_dates_inr.
  assert (Hlen : length (rows (set_column "BeginDate" bd merged))
                 = length (rows merged))
    by by apply rows_length_set_column.
  split; [done|]. split; [|split; [|split]].
  - rewrite rows_length_set_column; [done | by rewrite Hlen].
  - rewrite column_set_column_ne; [|done | by rewrite Hlen].
    by rewrite column_set_column_eq.
  - rewrite column_set_column_eq; [done | by rewrite Hlen].
  - intros c Hc1 Hc2. rewrite column_set_column_ne; [|done | by rewrite Hlen].
    by apply column_set_column_ne.
Qed.

Lemma rows_filter_prefixes (prefixes : list string) (merged : DataFrame) :
  rows (filter_prefixes prefixes merged)
  = List.filter (keep_row (map upper prefixes)) (rows merged).
Proof.
  unfold filter_prefixes, boolean_index, keep_mask, column. simpl.
  rewrite !map_map, zip_with_maps. apply select_rows_map.
Qed.

Lemma rows_filter_active (today : Z) (merged : DataFrame) :
  rows (filter_active today merged)
  = List.filter (active_row today) (rows merged).
Proof.
  unfold filter_active, boolean_index, active_mask, column. simpl.
  rewrite !map_map, zip_with_maps. apply select_rows_map.
Qed.

(* =================================================================== *)
(** ** Root id of the concatenated table *)
(* =================================================================== *)

Lemma column_prepare_RootID (merged : DataFrame) :
  column (prepare merged) "RootID" = map root_cell (column merged "ID").
Proof.
  unfold column. rewrite rows_prepare, !map_map. apply map_ext.
  intros r. apply prepare_row_fields.
Qed.

Lemma root_cell_spec (id : cell) :
  root_cell id = cell_of_option (spec_root_id ["DSH"; "PED"] (py_str id)).
Proof. unfold root_cell. by rewrite extract_root_id_text. Qed.

(** C1 (amended). Whatever prefixes are configured, the RootID of every
    row of the concatenated table is what the pattern "DSH or PED, in any
    case, directly followed by one or more digits, at the start" finds in
    the trimmed, upper-cased ID, in upper case, and blank when the pattern
    does not match: the tokens of the pattern are fixed, the configured
    prefixes only filter afterwards. "dsh001234" gives "DSH001234";
    "PED-77" and "XYZ123" give blank. *)
Theorem root_id_fixed_pattern (merged : DataFrame) :
  column (prepare merged) "RootID"
  = map (fun id => cell_of_option (spec_root_id ["DSH"; "PED"] (py_str id)))
        (column merged "ID") /\
  (forall prefixes r,
      r ∈ rows (filter_prefixes prefixes (prepare merged)) ->
      rget r "RootID"
      = cell_of_option (spec_root_id ["DSH"; "PED"] (py_str (rget r "ID")))) /\
  extract_root_id (CStr "dsh001234") = Some "DSH001234" /\
  extract_root_id (CStr "PED-77") = None /\
  extract_root_id (CStr "XYZ123") = None.
Proof.
  split; [|split; [|by vm_compute]].
  - rewrite column_prepare_RootID. apply map_ext. apply root_cell_spec.
  - intros prefixes r Hr. rewrite rows_filter_prefixes in Hr.
    apply list_elem_of_In, filter_In in Hr as [Hr _].
    rewrite rows_prepare in Hr. apply in_map_iff in Hr as (r0 & <- & _).
    destruct (prepare_row_fields r0) as (-> & Hid). rewrite Hid by done.
    apply root_cell_spec.
Qed.

(* =================================================================== *)
(** ** The two filters *)
(* =================================================================== *)

Lemma to_upper_idem (c : ascii) : to_upper (to_upper c) = to_upper c.
Proof. destruct c as [[] [] [] [] [] [] [] []]; reflexivity. Qed.

Lemma upper_idem (s : string) : upper (upper s) = upper s.
Proof.
  induction s as [|c s IH]; [reflexivity|].
  unfold upper in *. simpl. by rewrite to_upper_idem, IH.
Qed.

Lemma root_cell_upper (id : cell) (root : string) :
  root_cell id = CStr root -> upper root = root.
Proof.
  unfold root_cell, extract_root_id.
  destruct (Re.match_group0 _ _) as [m|]; [|discriminate].
  intros [= <-]. apply upper_idem.
Qed.

Lemma filter_filter_andb {A} (p q : A -> bool) (l : list A) :
  List.filter q (List.filter p l) = List.filter (fun x => p x && q x)%bool l.
Proof.
  induction l as [|x l IH]; simpl; [done|].
  destruct (p x); simpl; [destruct (q x)|]; by rewrite IH.
Qed.

Lemma keep_row_true (prefixes : list string) (r : row) :
  keep_row prefixes r = true <->
  exists root, rget r "RootID" = CStr root /\
    exists p, p ∈ prefixes /\ startswith p root = true.
Proof.
  unfold keep_row, startswith_any. destruct (rget r "RootID") as [|root| |].
  - split; [done | by intros (? & ? & _)].
  - simpl. rewrite existsb_exists. split.
    + intros (p & Hp & Hs). exists root. split; [done|]. exists p.
      split; [by apply list_elem_of_In | done].
    + intros (? & [= <-] & p & Hp & Hs). exists p.
      split; [by apply list_elem_of_In | done].
  - split; [by rewrite andb_false_r | by intros (? & ? & _)].
  - split; [by rewrite andb_false_r | by intros (? & ? & _)].
Qed.

Lemma active_row_true (today : Z) (r : row) :
  active_row today r = true <->
  rget r "TermDate" = CNull \/
  exists t, rget r "TermDate" = CTs t /\ today <= wall t.
Proof.
  unfold active_row, isna, ts_ge. destruct (rget r "TermDate") as [| | |t]; simpl.
  - split; [by left | done].
  - split; [done | by intros [|(? & ? & _)]].
  - split; [done | by intros [|(? & ? & _)]].
  - rewrite Z.leb_le. split.
    + intros H. right. by exists t.
    + by intros [|(? & [= <-] & H)].
Qed.

Lemma rows_filters (prefixes : list string) (today : Z) (merged : DataFrame) :
  rows (filter_active today (filter_prefixes prefixes (prepare merged)))
  = List.filter
      (fun r => keep_row (map upper prefixes) r && active_row today r)%bool
      (rows (prepare merged)).
Proof.
  by rewrite rows_filter_active, rows_filter_prefixes, filter_filter_andb.
Qed.

Lemma filtered_row_iff (prefixes : list string) (today : Z)
    (merged : DataFrame) (r : row) :
  r ∈ rows (filter_active today (filter_prefixes prefixes (prepare merged)))
  <->
  r ∈ rows (prepare merged) /\
  (exists root, rget r "RootID" = CStr root /\
     exists p, p ∈ prefixes /\ startswith (upper p) (upper root) = true) /\
  (rget r "TermDate" = CNull \/
   exists t, rget r "TermDate" = CTs t /\ today <= wall t).
Proof.
  rewrite rows_filters, list_elem_of_In, filter_In, <- list_elem_of_In.
  rewrite andb_true_iff, keep_row_true, active_row_true.
  split.
  - intros (Hin & (root & Hroot & p & Hp & Hs) & Hact).
    split; [done|]. split; [|done]. exists root. split; [done|].
    apply list_elem_of_In, in_map_iff in Hp as (p0 & <- & Hp0).
    exists p0. split; [by apply list_elem_of_In|].
    rewrite rows_prepare in Hin.
    apply list_elem_of_In, in_map_iff in Hin as (r0 & <- & _).
    destruct (prepare_row_fields r0) as (Hid & _).
    rewrite Hid in Hroot. by rewrite (root_cell_upper _ _ Hroot).
  - intros (Hin & (root & Hroot & p & Hp & Hs) & Hact).
    split; [done|]. split; [|done]. exists root. split; [done|].
    exists (upper p). split.
    + apply list_elem_of_In, in_map_iff. exists p.
      split; [done | by apply list_elem_of_In].
    + rewrite rows_prepare in Hin.
      apply list_elem_of_In, in_map_iff in Hin as (r0 & <- & _).
      destruct (prepare_row_fields r0) as (Hid & _).
      rewrite Hid in Hroot. by rewrite (root_cell_upper _ _ Hroot) in Hs.
Qed.

(** C4. A row of the prepared table survives the two filters exactly when
    its RootID is filled and starts with one of the configured prefixes,
    both taken in upper case, and its TermDate is blank or not before the
    reference date; the survivors keep their order. A TermDate equal to the
    reference date passes; one day earlier does not. *)
Theorem filters_keep_exactly (prefixes : list string) (today : Z)
    (merged : DataFrame) :
  rows (filter_active today (filter_prefixes prefixes (prepare merged)))
  = List.filter
      (fun r => keep_row (map upper prefixes) r && active_row today r)%bool
      (rows (prepare merged)) /\
  (forall r,
      r ∈ rows (filter_active today (filter_prefixes prefixes (prepare merged)))
      <->
      r ∈ rows (prepare merged) /\
      (exists root, rget r "RootID" = CStr root /\
         exists p, p ∈ prefixes /\ startswith (upper p) (upper root) = true) /\
      (rget r "TermDate" = CNull \/
       exists t, rget r "TermDate" = CTs t /\ today <= wall t)) /\
  (forall r, rget r "TermDate" = CNull -> active_row today r = true) /\
  (forall r, rget r "TermDate" = CTs (naive today) -> active_row today r = true) /\
  (forall r, rget r "TermDate" = CTs (naive (today - DAY_NS)) ->
             active_row today r = false).
Proof.
  split; [apply rows_filters|]. split; [|split; [|split]].
  - intros r. apply filtered_row_iff.
  - intros r Hr. apply active_row_true. by left.
  - intros r Hr. apply active_row_true. right. exists (naive today).
    split; [done | simpl; lia].
  - intros r Hr. unfold active_row. rewrite Hr. simpl.
    apply Z.leb_gt. unfold DAY_NS. lia.
Qed.

(* =================================================================== *)
(** ** Orders given by a three-way comparison *)
(* =================================================================== *)

Lemma cmp_le_total {A} (cmp : A -> A -> comparison) `{!CmpOrder cmp} (x y : A) :
  cmp_le cmp x y = false -> cmp_le cmp y x = true.
Proof.
  unfold cmp_le. rewrite (cmp_antisym x y). by destruct (cmp x y).
Qed.

Lemma cmp_le_trans {A} (cmp : A -> A -> comparison) `{!CmpOrder cmp} (x y z : A) :
  cmp_le cmp x y = true -> cmp_le cmp y z = true -> cmp_le cmp x z = true.
Proof.
  unfold cmp_le. destruct (cmp x y) eqn:Hxy; [|  |done].
  - apply cmp_eq_iff in Hxy as ->. done.
  - destruct (cmp y z) eqn:Hyz; [| |done].
    + apply cmp_eq_iff in Hyz as <-. by rewrite Hxy.
    + by rewrite (cmp_lt_trans x y z Hxy Hyz).
Qed.

Lemma ascii_compare_eq (a b : ascii) : Ascii.compare a b = Eq <-> a = b.
Proof.
  unfold Ascii.compare. rewrite N.compare_eq_iff. split; [|by intros ->].
  intros H. by rewrite <- (ascii_N_embedding a), H, ascii_N_embedding.
Qed.

Lemma string_compare_refl (s : string) : String.compare s s = Eq.
Proof.
  induction s as [|c s IH]; [done|]. simpl.
  by rewrite (proj2 (ascii_compare_eq c c) eq_refl).
Qed.

Lemma string_compare_lt_trans (x y z : string) :
  String.compare x y = Lt -> String.compare y z = Lt -> String.compare x z = Lt.
Proof.
  revert y z. induction x as [|a x IH]; intros [|b y] [|c z]; simpl; try done.
  destruct (Ascii.compare a b) eqn:Hab; [|  |done].
  - apply ascii_compare_eq in Hab as ->.
    destruct (Ascii.compare b c); [apply IH | done | done].
  - intros _. destruct (Ascii.compare b c) eqn:Hbc; [| |done].
    + apply ascii_compare_eq in Hbc as <-. by rewrite Hab.
    + intros _. unfold Ascii.compare in *.
      rewrite N.compare_lt_iff in Hab, Hbc.
      by rewrite (proj2 (N.compare_lt_iff _ _) (N.lt_trans _ _ _ Hab Hbc)).
Qed.

Global Instance string_cmp_order : CmpOrder String.compare.
Proof.
  split.
  - intros x y. split; [apply String.compare_eq_iff|].
    intros ->. apply string_compare_refl.
  - intros x y. apply String.compare_antisym.
  - apply string_compare_lt_trans.
Qed.

Global Instance Z_desc_cmp_order : CmpOrder (fun x y : Z => Z.compare y x).
Proof.
  split.
  - intros x y. rewrite Z.compare_eq_iff. split; by intros ->.
  - intros x y. apply Z.compare_antisym.
  - intros x y z. rewrite !Z.compare_lt_iff. lia.
Qed.

Global Instance na_last_cmp_order {A} (cmp : A -> A -> comparison)
    `{!CmpOrder cmp} : CmpOrder (cmp_na_last cmp).
Proof.
  split.
  - intros [x|] [y|]; simpl; try (split; done).
    rewrite cmp_eq_iff. split; [by intros -> | by intros [= ->]].
  - intros [x|] [y|]; simpl; try done. apply cmp_antisym.
  - intros [x|] [y|] [z|]; simpl; try done. apply cmp_lt_trans.
Qed.

Global Instance lex_cmp_order {A B} (c1 : A -> A -> comparison)
    (c2 : B -> B -> comparison) `{!CmpOrder c1, !CmpOrder c2} :
  CmpOrder (lex_cmp c1 c2).
Proof.
  split.
  - intros [a1 b1] [a2 b2]. unfold lex_cmp. simpl.
    destruct (c1 a1 a2) eqn:H1.
    + apply cmp_eq_iff in H1 as ->. rewrite cmp_eq_iff.
      split; [by intros -> | by intros [= ->]].
    + split; [done|]. intros [= -> ->].
      by rewrite (proj2 (cmp_eq_iff a2 a2) eq_refl) in H1.
    + split; [done|]. intros [= -> ->].
      by rewrite (proj2 (cmp_eq_iff a2 a2) eq_refl) in H1.
  - intros [a1 b1] [a2 b2]. unfold lex_cmp. simpl.
    rewrite (cmp_antisym a1 a2).
    destruct (c1 a1 a2); simpl; [apply cmp_antisym | done | done].
  - intros [a1 b1] [a2 b2] [a3 b3]. unfold lex_cmp. simpl.
    destruct (c1 a1 a2) eqn:H12; [| |done].
    + apply cmp_eq_iff in H12 as ->.
      destruct (c1 a2 a3); [apply cmp_lt_trans | done | done].
    + intros _. destruct (c1 a2 a3) eqn:H23; [| |done].
      * apply cmp_eq_iff in H23 as <-. by rewrite H12.
      * by rewrite (cmp_lt_trans _ _ _ H12 H23).
Qed.

Lemma key_cmp_lex (a b : row) :
  key_cmp a b = sort_key_cmp (sort_key a) (sort_key b).
Proof. reflexivity. Qed.

Lemma row_le_total (a b : row) : row_le a b = false -> row_le b a = true.
Proof.
  unfold row_le. rewrite !key_cmp_lex.
  apply (cmp_le_total sort_key_cmp).
Qed.

Lemma row_le_trans (a b c : row) :
  row_le a b = true -> row_le b c = true -> row_le a c = true.
Proof.
  unfold row_le. rewrite !key_cmp_lex.
  apply (cmp_le_trans sort_key_cmp).
Qed.

Lemma row_le_same_key (a b : row) : sort_key a = sort_key b -> row_le a b = true.
Proof.
  intros H. unfold row_le. rewrite key_cmp_lex, H.
  by rewrite (proj2 (cmp_eq_iff (cmp:=sort_key_cmp) _ _) eq_refl).
Qed.

(* =================================================================== *)
(** ** The stable sort *)
(* =================================================================== *)

Lemma insert_row_perm (r : row) (l : list row) :
  Permutation (insert_row r l) (r :: l).
Proof.
  induction l as [|x l IH]; simpl; [done|].
  destruct (row_le r x); [done|].
  rewrite IH. apply perm_swap.
Qed.

Lemma sort_rows_perm (l : list row) : Permutation (sort_rows l) l.
Proof.
  induction l as [|r l IH]; simpl; [done|].
  by rewrite insert_row_perm, IH.
Qed.

Lemma insert_row_sorted (r : row) (l : list row) :
  StronglySorted (fun a b => row_le a b = true) l ->
  StronglySorted (fun a b => row_le a b = true) (insert_row r l).
Proof.
  induction l as [|x l IH]; intros Hl; simpl.
  - repeat constructor.
  - apply StronglySorted_inv in Hl as [Hl Hx].
    destruct (row_le r x) eqn:Hrx.
    + constructor; [by constructor|]. constructor; [done|].
      eapply Forall_impl; [exact Hx|]. intros y Hy. simpl in Hy.
      by apply (row_le_trans r x y).
    + constructor; [by apply IH|].
      rewrite insert_row_perm. constructor; [|done].
      by apply row_le_total.
Qed.

Lemma sort_rows_sorted (l : list row) :
  StronglySorted (fun a b => row_le a b = true) (sort_rows l).
Proof.
  induction l as [|r l IH]; simpl; [constructor | by apply insert_row_sorted].
Qed.

(** Stability: rows that the order does not separate keep their order. *)
Lemma insert_row_filter_in (p : row -> bool) (r : row) (l : list row) :
  p r = true ->
  (forall x, p x = true -> row_le r x = true) ->
  List.filter p (insert_row r l) = r :: List.filter p l.
Proof.
  intros Hr Hle. induction l as [|x l IH]; simpl; [by rewrite Hr|].
  destruct (row_le r x) eqn:Hrx; simpl; [by rewrite Hr|].
  destruct (p x) eqn:Hx; [|exact IH].
  rewrite (Hle x Hx) in Hrx. discriminate.
Qed.

Lemma insert_row_filter_out (p : row -> bool) (r : row) (l : list row) :
  p r = false -> List.filter p (insert_row r l) = List.filter p l.
Proof.
  intros Hr. induction l as [|x l IH]; simpl; [by rewrite Hr|].
  destruct (row_le r x); simpl; [by rewrite Hr|].
  by rewrite IH.
Qed.

Lemma sort_rows_stable (p : row -> bool) (l : list row) :
  (forall x y, p x = true -> p y = true -> row_le x y = true) ->
  List.filter p (sort_rows l) = List.filter p l.
Proof.
  intros Hp. induction l as [|r l IH]; simpl; [done|].
  destruct (p r) eqn:Hr.
  - rewrite insert_row_filter_in; [by rewrite IH | done |].
    intros x Hx. by apply Hp.
  - by rewrite insert_row_filter_out.
Qed.

Lemma filter_head_split {A} (p : A -> bool) (l : list A) (x : A) (t : list A) :
  List.filter p l = x :: t ->
  exists before after,
    l = before ++ x :: after /\ Forall (fun y => p y = false) before.
Proof.
  induction l as [|y l IH]; simpl; [done|].
  destruct (p y) eqn:Hy.
  - intros [= -> _]. by exists [], l.
  - intros H. destruct (IH H) as (b & a & -> & Hb).
    exists (y :: b), a. split; [done | by constructor].
Qed.

Lemma filter_none {A} (p : A -> bool) (l : list A) :
  Forall (fun y => p y = false) l -> List.filter p l = [].
Proof.
  induction 1 as [|y l Hy _ IH]; simpl; [done | by rewrite Hy].
Qed.

(* =================================================================== *)
(** ** Dropping duplicates *)
(* =================================================================== *)

Lemma drop_dups_from_elem (seen : list cell) (rs : list row) (r : row) :
  r ∈ drop_dups_from seen rs <->
  exists before after,
    rs = before ++ r :: after /\ (rget r "RootID" ∉ seen) /\
    Forall (fun r' => rget r' "RootID" <> rget r "RootID") before.
Proof.
  revert seen. induction rs as [|x rs IH]; intros seen; simpl.
  - split; [intros H; by apply elem_of_nil in H|].
    intros (b & a & H & _). by destruct b.
  - case_bool_decide as Hx.
    + rewrite IH. split.
      * intros (b & a & -> & Hr & Hb). exists (x :: b), a.
        split; [done|]. split; [done|]. constructor; [|done].
        intros Heq. by rewrite Heq in Hx.
      * intros (b & a & H & Hr & Hb). destruct b as [|y b].
        -- injection H as <- _. done.
        -- injection H as <- ->. apply Forall_cons in Hb as [_ Hb].
           by exists b, a.
    + rewrite elem_of_cons, IH. split.
      * intros [->|(b & a & -> & Hr & Hb)].
        -- by exists [], rs.
        -- exists (x :: b), a. split; [done|].
           apply not_elem_of_cons in Hr as [Hne Hr]. split; [done|].
           constructor; [congruence | done].
      * intros (b & a & H & Hr & Hb). destruct b as [|y b].
        -- injection H as <- _. by left.
        -- injection H as <- ->. apply Forall_cons in Hb as [Hne Hb].
           right. exists b, a. split; [done|]. split; [|done].
           apply not_elem_of_cons. split; [congruence | done].
Qed.

Lemma drop_dups_from_NoDup (seen : list cell) (rs : list row) :
  NoDup (map (fun r => rget r "RootID") (drop_dups_from seen rs)).
Proof.
  revert seen. induction rs as [|x rs IH]; intros seen; simpl; [constructor|].
  case_bool_decide; [apply IH|]. simpl. constructor; [|apply IH].
  intros Hin. apply list_elem_of_In, in_map_iff in Hin as (r & Heq & Hr).
  apply list_elem_of_In, drop_dups_from_elem in Hr as (_ & _ & _ & Hr & _).
  apply Hr. rewrite Heq. by left.
Qed.

Lemma drop_dups_from_sublist (seen : list cell) (rs : list row) :
  drop_dups_from seen rs `sublist_of` rs.
Proof.
  revert seen. induction rs as [|x rs IH]; intros seen; simpl; [done|].
  case_bool_decide; [by apply sublist_cons | by apply sublist_skip].
Qed.

Lemma drop_dups_from_covers (seen : list cell) (rs : list row) (r : row) :
  r ∈ rs -> rget r "RootID" ∉ seen ->
  exists r', r' ∈ drop_dups_from seen rs /\ rget r' "RootID" = rget r "RootID".
Proof.
  revert seen. induction rs as [|x rs IH]; intros seen Hr Hseen;
    [by apply elem_of_nil in Hr|]. simpl.
  case_bool_decide as Hx.
  - apply elem_of_cons in Hr as [->|Hr]; [done | by apply IH].
  - destruct (decide (rget x "RootID" = rget r "RootID")) as [Heq|Hne].
    + exists x. split; [by left | done].
    + apply elem_of_cons in Hr as [->|Hr]; [done|].
      destruct (IH (rget x "RootID" :: seen) Hr) as (r' & Hr' & Heq).
      * apply not_elem_of_cons. split; [congruence | done].
      * exists r'. split; [by right | done].
Qed.

(* =================================================================== *)
(** ** Deduplication *)
(* =================================================================== *)

Lemma root_key_of_cell (a b : row) :
  rget a "RootID" = rget b "RootID" -> root_key a = root_key b.
Proof. unfold root_key. by intros ->. Qed.

Lemma row_le_same_root (a b : row) :
  root_key a = root_key b -> row_le a b = true ->
  begin_key b = None \/
  exists x y, begin_key a = Some x /\ begin_key b = Some y /\ y <= x.
Proof.
  intros Hroot. unfold row_le, key_cmp. rewrite Hroot.
  rewrite (proj2 (cmp_eq_iff (cmp:=cmp_na_last String.compare) _ _) eq_refl).
  destruct (begin_key a) as [x|], (begin_key b) as [y|]; simpl;
    try done; try (by left).
  destruct (Z.compare_spec y x); try done; intros _; right; exists x, y;
    repeat split; lia.
Qed.

Lemma rows_dedupe_latest (merged : DataFrame) :
  rows (dedupe "latest-begin" merged)
  = drop_dups_from [] (sort_rows (rows merged)).
Proof. reflexivity. Qed.

Lemma rows_dedupe_other (dedupe_strategy : string) (merged : DataFrame) :
  dedupe_strategy <> "latest-begin" ->
  dedupe dedupe_strategy merged = drop_duplicates merged.
Proof.
  intros Hne. unfold dedupe.
  by destruct (String.eqb_spec dedupe_strategy "latest-begin").
Qed.

(** C2. Under "latest-begin" the survivor of every group of rows with one
    RootID has the latest filled BeginDate of the group (a blank BeginDate
    ranks after every filled one); among the rows of the group that share
    its BeginDate it is the earliest in the original order; and when its
    BeginDate is blank (so every BeginDate of the group is) it is the
    first row of the group. Every group has exactly one survivor. *)
Theorem latest_begin_survivor (merged : DataFrame) :
  (forall r,
      r ∈ rows (dedupe "latest-begin" merged) ->
      exists before after,
        rows merged = before ++ r :: after /\
        (forall r', r' ∈ rows merged ->
           rget r' "RootID" = rget r "RootID" ->
           begin_key r' = None \/
           exists b b', begin_key r = Some b /\ begin_key r' = Some b' /\ b' <= b) /\
        (forall r', r' ∈ before ->
           rget r' "RootID" = rget r "RootID" ->
           begin_key r' <> begin_key r) /\
        (begin_key r = None ->
         forall r', r' ∈ before -> rget r' "RootID" <> rget r "RootID")) /\
  (forall r', r' ∈ rows merged ->
     exists r, r ∈ rows (dedupe "latest-begin" merged) /\
               rget r "RootID" = rget r' "RootID") /\
  NoDup (map (fun r => rget r "RootID") (rows (dedupe "latest-begin" merged))).
Proof.
  rewrite rows_dedupe_latest. set (l := rows merged).
  split; [|split].
  - intros r Hr.
    apply drop_dups_from_elem in Hr as (s1 & s2 & Hsort & _ & Hs1).
    pose proof (sort_rows_sorted l) as Hsorted. rewrite Hsort in Hsorted.
    assert (Hlatest : forall r', r' ∈ l ->
      rget r' "RootID" = rget r "RootID" ->
      begin_key r' = None \/
      exists b b', begin_key r = Some b /\ begin_key r' = Some b' /\ b' <= b).
    { intros r' Hr' Hroot.
      apply (row_le_same_root r r'); [symmetry; by apply root_key_of_cell|].
      rewrite <- (sort_rows_perm l), Hsort in Hr'.
      apply elem_of_app in Hr' as [Hr'|Hr'].
      - rewrite Forall_forall in Hs1. by destruct (Hs1 r' Hr').
      - apply StronglySorted_app_1_r in Hsorted.
        apply StronglySorted_inv in Hsorted as [_ Hall].
        apply elem_of_cons in Hr' as [->|Hr'];
          [by apply row_le_same_key|].
        rewrite Forall_forall in Hall. by apply Hall. }
    set (p := fun x : row =>
      bool_decide (rget x "RootID" = rget r "RootID"
                   /\ begin_key x = begin_key r)).
    assert (Hstable : List.filter p l = r :: List.filter p s2).
    { rewrite <- (sort_rows_stable p l), Hsort.
      - rewrite List.filter_app. simpl.
        rewrite (filter_none p s1).
        + unfold p at 1. by rewrite bool_decide_eq_true_2.
        + eapply Forall_impl; [exact Hs1|]. intros x Hx. simpl in Hx.
          unfold p. apply bool_decide_eq_false_2. tauto.
      - intros x y Hx Hy. apply row_le_same_key.
        apply bool_decide_eq_true_1 in Hx as [Hx1 Hx2].
        apply bool_decide_eq_true_1 in Hy as [Hy1 Hy2].
        unfold sort_key. f_equal; [|congruence].
        apply root_key_of_cell. congruence. }
    apply filter_head_split in Hstable as (before & after & Hl & Hbefore).
    exists before, after. split; [done|]. split; [done|].
    assert (Htie : forall r', r' ∈ before ->
      rget r' "RootID" = rget r "RootID" -> begin_key r' <> begin_key r).
    { intros r' Hr' Hroot Hbegin. rewrite Forall_forall in Hbefore.
      specialize (Hbefore r' Hr'). unfold p in Hbefore.
      apply bool_decide_eq_false_1 in Hbefore. by apply Hbefore. }
    split; [done|].
    intros Hnone r' Hr' Hroot. apply (Htie r' Hr' Hroot).
    destruct (Hlatest r') as [->|(b & _ & Hb & _)]; [|done|done|congruence].
    rewrite Hl. apply elem_of_app. by left.
  - intros r' Hr'.
    apply (drop_dups_from_covers []); [|apply not_elem_of_nil].
    by rewrite sort_rows_perm.
  - apply drop_dups_from_NoDup.
Qed.

(* =================================================================== *)
(** ** The table [process_folder] returns *)
(* =================================================================== *)

Lemma elem_of_dedupe (dedupe_strategy : string) (merged : DataFrame) (r : row) :
  r ∈ rows (dedupe dedupe_strategy merged) -> r ∈ rows merged.
Proof.
  unfold dedupe, drop_duplicates. simpl. intros Hr.
  eapply elem_of_sublist in Hr; [|apply drop_dups_from_sublist].
  destruct (String.eqb dedupe_strategy "latest-begin"); [|done].
  simpl in Hr. by rewrite sort_rows_perm in Hr.
Qed.

Lemma NoDup_dedupe (dedupe_strategy : string) (merged : DataFrame) :
  NoDup (map (fun r => rget r "RootID") (rows (dedupe dedupe_strategy merged))).
Proof. apply drop_dups_from_NoDup. Qed.

Lemma columns_dedupe (dedupe_strategy : string) (merged : DataFrame) :
  columns (dedupe dedupe_strategy merged) = columns merged.
Proof.
  unfold dedupe. by destruct (String.eqb dedupe_strategy "latest-begin").
Qed.

Lemma output_select (keep_all_columns : bool) (deduped : DataFrame) :
  output keep_all_columns deduped
  = select_columns (output_columns keep_all_columns deduped) deduped.
Proof. unfold output, output_columns. by destruct keep_all_columns. Qed.

Lemma output_columns_key (keep_all_columns : bool) (deduped : DataFrame)
    (c : string) :
  c ∈ KEY_FIRST -> c ∈ columns deduped ->
  c ∈ output_columns keep_all_columns deduped.
Proof.
  intros Hkey Hcol. unfold output_columns.
  assert (c ∈ filter (fun c => c ∈ columns deduped) KEY_FIRST)
    by by apply list_elem_of_filter.
  destruct keep_all_columns; [apply elem_of_app; by left | done].
Qed.

Lemma process_frames_output (frames : list DataFrame) (prefixes : list string)
    (dedupe_strategy : string) (today_override : option string)
    (keep_all_columns : bool) (out : DataFrame) :
  process_frames frames prefixes dedupe_strategy today_override keep_all_columns
  = inr out ->
  exists dated today,
    coerce_dates (pd_concat frames) = inr dated /\
    reference_date today_override = inr today /\ tz today = None /\
    merge_frames frames prefixes today_override
    = inr (filter_active (wall today)
             (filter_prefixes prefixes (prepare dated))) /\
    out = output keep_all_columns
            (dedupe dedupe_strategy
               (filter_active (wall today)
                  (filter_prefixes prefixes (prepare dated)))).
Proof.
  unfold process_frames, merge_frames.
  destruct (coerce_dates (pd_concat frames)) as [e|dated]; [done|].
  destruct (reference_date today_override) as [e|today]; [done|].
  destruct (tz today) eqn:Htz; [done|].
  intros [= <-]. by exists dated, today.
Qed.

Lemma process_folder_frames (input_dir : string) (prefixes : list string)
    (dedupe_strategy : string) (today_override : option string)
    (keep_all_columns : bool) (out : DataFrame) :
  snd (process_folder input_dir prefixes dedupe_strategy today_override
         keep_all_columns) = inr out ->
  exists frames,
    process_frames frames prefixes dedupe_strategy today_override
      keep_all_columns = inr out.
Proof.
  unfold process_folder. destruct (input_files input_dir); [done|].
  destruct (load_loop _ _ _) as [frames log]. destruct frames; [done|].
  simpl. intros H. by eexists.
Qed.

(** C3. Whenever [process_folder] returns a table, every row of it has a
    filled RootID that starts with one of the configured prefixes (taken in
    upper case), a TermDate that is blank or not before the reference date,
    and no two rows of it have the same RootID. *)
Theorem process_folder_output_invariants (input_dir : string)
    (prefixes : list string) (dedupe_strategy : string)
    (today_override : option string) (keep_all_columns : bool)
    (out : DataFrame) :
  snd (process_folder input_dir prefixes dedupe_strategy today_override
         keep_all_columns) = inr out ->
  exists today,
    reference_date today_override = inr today /\
    (forall r,
        r ∈ rows out ->
        (exists root, rget r "RootID" = CStr root /\
           exists p, p ∈ prefixes /\ startswith (upper p) root = true) /\
        (rget r "TermDate" = CNull \/
         exists t, rget r "TermDate" = CTs t /\ wall today <= wall t)) /\
    NoDup (map (fun r => rget r "RootID") (rows out)).
Proof.
  intros Hout. apply process_folder_frames in Hout as [frames Hout].
  apply process_frames_output in Hout
    as (dated & today & Hdated & Htoday & _ & _ & ->).
  exists today. split; [done|].
  set (merged := prepare dated).
  set (filtered := filter_active (wall today) (filter_prefixes prefixes merged)).
  set (deduped := dedupe dedupe_strategy filtered).
  rewrite output_select. simpl rows.
  assert (Hcols : forall c, c = "RootID" \/ c = "TermDate" ->
                            c ∈ output_columns keep_all_columns deduped).
  { intros c Hc. apply output_columns_key.
    - destruct Hc as [->| ->]; unfold KEY_FIRST; set_solver.
    - unfold deduped. rewrite columns_dedupe.
      change (c ∈ columns (prepare dated)). rewrite columns_prepare.
      destruct (coerce_dates_frame _ _ Hdated) as (-> & _).
      rewrite !elem_of_with_label. destruct Hc as [->| ->]; tauto. }
  assert (Hget : forall c r, c = "RootID" \/ c = "TermDate" ->
    rget (project (output_columns keep_all_columns deduped) r) c = rget r c).
  { intros c r Hc. rewrite rget_project. by rewrite decide_True by by apply Hcols. }
  split.
  - intros r Hr. apply list_elem_of_In, in_map_iff in Hr as (r0 & <- & Hr0).
    rewrite !Hget by tauto.
    apply list_elem_of_In, elem_of_dedupe in Hr0.
    apply filtered_row_iff in Hr0
      as (Hin & (root & Hroot & p & Hp & Hs) & Hact).
    split; [|done]. exists root. split; [done|]. exists p. split; [done|].
    rewrite rows_prepare in Hin.
    apply list_elem_of_In, in_map_iff in Hin as (r1 & <- & _).
    destruct (prepare_row_fields r1) as (Hid & _). rewrite Hid in Hroot.
    by rewrite (root_cell_upper _ _ Hroot) in Hs.
  - rewrite map_map.
    rewrite (map_ext _ (fun r => rget r "RootID")); [apply NoDup_dedupe|].
    intros r. apply Hget. by left.
Qed.

(* =================================================================== *)
(** ** Files: enumeration, skipping, the two fatal exits *)
(* =================================================================== *)

Lemma load_loop_spec (files : list string) (frames : list DataFrame)
    (log : list warning) :
  load_loop files frames log
  = (frames ++ omap frame_of files, log ++ omap warning_of files).
Proof.
  revert frames log. induction files as [|f files IH]; intros frames log.
  - simpl. by rewrite !app_nil_r.
  - simpl. unfold frame_of at 1, warning_of at 1.
    destruct (load_file f) as [df|w]; rewrite IH, <- app_assoc; reflexivity.
Qed.

Lemma contains_in_empty (k : string) : contains k "" = true -> k = "".
Proof. destruct k; [done | discriminate]. Qed.

(** A label the matcher answers is never the empty text (so the truth
    test [if not col] only ever sees a missing label). *)
Lemma best_match_nonempty (cols cands : list string) (c : string) :
  Forall (fun cand => normalize cand <> "") cands ->
  best_match_column cols cands = Some c -> c <> "".
Proof.
  intros Hcands. unfold best_match_column. rewrite first_exact_spec.
  destruct (spec_exact_pass cols cands) as [c'|] eqn:Hexact.
  - intros [= ->]. induction Hcands as [|cand rest Hcand _ IH]; [done|].
    simpl in Hexact.
    destruct (last_with_norm (normalize cand) cols) as [c''|] eqn:Hlast;
      [|by apply IH].
    injection Hexact as ->.
    apply last_with_norm_Some in Hlast as (_ & _ & _ & Hnorm & _).
    intros ->. by apply Hcand.
  - intros Hfind. apply find_some in Hfind as [_ Hhit]. intros ->.
    unfold loose_hit in Hhit. apply existsb_exists in Hhit as (cand & Hin & Hc).
    apply contains_in_empty in Hc. rewrite Forall_forall in Hcands.
    apply (Hcands cand); [by apply list_elem_of_In | done].
Qed.

Lemma resolved_best_match (cols cands : list string) :
  Forall (fun cand => normalize cand <> "") cands ->
  resolved (best_match_column cols cands) = false <->
  best_match_column cols cands = None.
Proof.
  intros Hcands. destruct (best_match_column cols cands) as [c|] eqn:Hc;
    [|done]. simpl. split; [|done].
  pose proof (best_match_nonempty cols cands c Hcands Hc). by destruct c.
Qed.

Lemma possible_nonempty (key : string) :
  key = "id" \/ key = "begin" \/ key = "term" ->
  Forall (fun cand => normalize cand <> "") (possible key).
Proof. intros [->|[->| ->]]; vm_compute; repeat constructor; discriminate. Qed.

Lemma load_file_skipped (f : string) :
  (exists w, load_file f = inr w) <->
  read_with_auto_header f = None \/
  exists df, read_with_auto_header f = Some df /\
    (best_match_column (columns df) (possible "id") = None \/
     best_match_column (columns df) (possible "begin") = None \/
     best_match_column (columns df) (possible "term") = None).
Proof.
  unfold load_file. destruct (read_with_auto_header f) as [df|].
  - pose proof (resolved_best_match (columns df) _
                  (possible_nonempty "id" ltac:(tauto))) as Hid.
    pose proof (resolved_best_match (columns df) _
                  (possible_nonempty "begin" ltac:(tauto))) as Hbegin.
    pose proof (resolved_best_match (columns df) _
                  (possible_nonempty "term" ltac:(tauto))) as Hterm.
    split.
    + intros [w Hw]. right. exists df. split; [done|].
      rewrite <- Hid, <- Hbegin, <- Hterm.
      destruct (resolved (best_match_column _ (possible "id"))),
        (resolved (best_match_column _ (possible "begin"))),
        (resolved (best_match_column _ (possible "term")));
        simpl in Hw; try discriminate; tauto.
    + intros [|(df0 & [= <-] & H)]; [discriminate|].
      rewrite <- Hid, <- Hbegin, <- Hterm in H.
      destruct H as [->|[->| ->]]; simpl; rewrite ?orb_true_r; by eexists.
  - split; [by left | by eexists].
Qed.

Lemma process_frames_no_exit (frames : list DataFrame) (prefixes : list string)
    (dedupe_strategy : string) (today_override : option string)
    (keep_all_columns : bool) (msg : string) :
  process_frames frames prefixes dedupe_strategy today_override keep_all_columns
  <> inl (SystemExit msg).
Proof.
  unfold process_frames, merge_frames, coerce_dates, coerce_datetime.
  destruct (to_datetime _) as [[]|begin_dates]; [discriminate..|].
  destruct (to_datetime _) as [[]|term_dates]; [discriminate..|].
  unfold reference_date.
  destruct today_override as [s|]; [destruct (truthy s);
    [destruct (parse_datetime (CStr s)) as [t|]; [destruct (tz (normalize_ts t))|]|]|];
    cbn [tz naive]; discriminate.
Qed.

Lemma input_files_nil (input_dir : string) :
  input_files input_dir = [] <->
  forall f, f ∈ listdir input_dir ->
    endswith ".xlsx" (lower f) = true -> startswith "~$" f = true.
Proof.
  unfold input_files. split.
  - intros Hnil f Hf Hext. apply map_eq_nil in Hnil.
    destruct (startswith "~$" f) eqn:Htmp; [done|].
    assert (In f (List.filter is_input_file (listdir input_dir))) as Hin.
    { apply filter_In. split; [by apply list_elem_of_In|].
      unfold is_input_file. by rewrite Hext, Htmp. }
    by rewrite Hnil in Hin.
  - intros H. rewrite filter_none; [done|]. apply Forall_forall.
    intros f Hf. unfold is_input_file.
    destruct (endswith ".xlsx" (lower f)) eqn:Hext; [|done].
    by rewrite (H f Hf Hext).
Qed.

(** C9. [process_folder] ends with the no-input-files exit exactly when the
    directory holds no entry that ends in ".xlsx" (in any case) other than
    entries starting with "~$"; a file is skipped, with one warning, exactly
    when reading it fails or one of the id, begin and term columns is not
    found, and the loop goes on over the remaining files, keeping the
    frames of the accepted ones in order; and it ends with the
    no-usable-data exit exactly when there are input files and every one of
    them was skipped. *)
Theorem process_folder_exits (input_dir : string) (prefixes : list string)
    (dedupe_strategy : string) (today_override : option string)
    (keep_all_columns : bool) :
  (snd (process_folder input_dir prefixes dedupe_strategy today_override
          keep_all_columns) = inl (SystemExit (NO_FILES +:+ input_dir))
   <->
   forall f, f ∈ listdir input_dir ->
     endswith ".xlsx" (lower f) = true -> startswith "~$" f = true) /\
  (forall f,
      (exists w, load_file f = inr w) <->
      read_with_auto_header f = None \/
      exists df, read_with_auto_header f = Some df /\
        (best_match_column (columns df) (possible "id") = None \/
         best_match_column (columns df) (possible "begin") = None \/
         best_match_column (columns df) (possible "term") = None)) /\
  (forall files frames log,
      load_loop files frames log
      = (frames ++ omap frame_of files, log ++ omap warning_of files)) /\
  fst (process_folder input_dir prefixes dedupe_strategy today_override
         keep_all_columns) = omap warning_of (input_files input_dir) /\
  (snd (process_folder input_dir prefixes dedupe_strategy today_override
          keep_all_columns) = inl (SystemExit NO_FRAMES)
   <->
   input_files input_dir <> [] /\
   forall f, f ∈ input_files input_dir -> exists w, load_file f = inr w).
Proof.
  split; [|split; [apply load_file_skipped|split; [apply load_loop_spec|]]].
  - rewrite <- input_files_nil. unfold process_folder.
    destruct (input_files input_dir) as [|f files] eqn:Hfiles; [done|].
    rewrite load_loop_spec. cbn [app].
    destruct (omap frame_of (f :: files)) as [|df frames]; cbn [snd].
    + split; [|done]. intros H. cbv in H. discriminate.
    + split; [|done]. intros H. by apply process_frames_no_exit in H.
  - unfold process_folder.
    destruct (input_files input_dir) as [|f files] eqn:Hfiles.
    + cbn [fst snd omap]. split; [done|]. split; [|by intros [? _]].
      intros H. cbv in H. discriminate.
    + rewrite load_loop_spec. cbn [app].
      destruct (omap frame_of (f :: files)) as [|df frames] eqn:Hframes.
      * cbn [fst snd]. split; [done|]. split; [|done]. intros _. split; [done|].
        intros g Hg. unfold frame_of in Hframes.
        destruct (load_file g) as [dg|w] eqn:Hload; [|by eexists].
        assert (dg ∈ omap frame_of (f :: files)) as Hin.
        { apply list_elem_of_omap. exists g. split; [done|].
          unfold frame_of. by rewrite Hload. }
        unfold frame_of in Hin. rewrite Hframes in Hin.
        by apply elem_of_nil in Hin.
      * cbn [fst snd]. split; [done|]. split.
        -- intros H. by apply process_frames_no_exit in H.
        -- intros [_ Hall].
           assert (df ∈ omap frame_of (f :: files)) as Hin
             by (rewrite Hframes; by left).
           apply list_elem_of_omap in Hin as (g & Hg & Hdf).
           destruct (Hall g Hg) as [w Hw]. unfold frame_of in Hdf.
           by rewrite Hw in Hdf.
Qed.

(* =================================================================== *)
(** ** Record loader: what happens to the original columns *)
(* =================================================================== *)

Lemma add_alias_frame (alias : string) (src : option string) (df : DataFrame) :
  (forall c, c ∈ columns df -> c ∈ columns (add_alias alias src df)) /\
  (forall c, c <> alias -> column (add_alias alias src df) c = column df c) /\
  length (rows (add_alias alias src df)) = length (rows df).
Proof.
  unfold add_alias. destruct src as [c0|]; [|done].
  destruct (truthy c0); [|done].
  split; [|split].
  - intros c Hc. simpl. apply elem_of_with_label. by right.
  - intros c Hc. apply column_set_column_ne; [done | apply column_length].
  - apply rows_length_set_column, column_length.
Qed.

Lemma keeps_trans (d1 d2 d3 : DataFrame) : keeps d1 d2 -> keeps d2 d3 -> keeps d1 d3.
Proof.
  intros (Hc1 & Hv1 & Hl1) (Hc2 & Hv2 & Hl2). split; [|split].
  - auto.
  - intros c Hc. by rewrite Hv2, Hv1.
  - congruence.
Qed.

Lemma keeps_add_alias (alias : string) (src : option string) (df : DataFrame) :
  alias ∈ ALIASES -> keeps df (add_alias alias src df).
Proof.
  intros Halias. destruct (add_alias_frame alias src df) as (Hc & Hv & Hl).
  split; [done|]. split; [|done].
  intros c Hc'. apply Hv. intros ->. by apply Hc'.
Qed.

Lemma keeps_set_scalar (alias : string) (v : cell) (df : DataFrame) :
  alias ∈ ALIASES -> keeps df (set_scalar alias v df).
Proof.
  intros Halias. unfold set_scalar. split; [|split].
  - intros c Hc. simpl. apply elem_of_with_label. by right.
  - intros c Hc. apply column_set_column_ne; [|apply length_replicate].
    intros ->. by apply Hc.
  - apply rows_length_set_column, length_replicate.
Qed.

(** Every label of the table as read is still a label of the table the
    loader hands on, and every column whose label is not one of the alias
    labels is unchanged; [source_file] holds the base name in every row. *)
Lemma load_file_frame (f : string) (df0 df : DataFrame) :
  read_with_auto_header f = Some df0 ->
  load_file f = inl df ->
  keeps df0 df /\
  column df "source_file"
  = replicate (length (rows df0)) (CStr (path_basename f)).
Proof.
  intros Hread. unfold load_file. rewrite Hread.
  destruct (_ || _ || _)%bool; [done|]. intros [= <-].
  assert (Hin : forall a, In a ALIASES -> a ∈ ALIASES)
    by (intros a; apply list_elem_of_In).
  match goal with
  | |- keeps _ (set_scalar _ _ ?d) /\ _ => assert (Hk : keeps df0 d)
  end.
  { repeat (eapply keeps_trans;
            [|apply keeps_add_alias, Hin; unfold ALIASES; simpl; tauto]).
    split; [done|]. by split. }
  split.
  - eapply keeps_trans; [exact Hk|].
    apply keeps_set_scalar, Hin. unfold ALIASES. simpl. tauto.
  - unfold set_scalar. rewrite column_set_column_eq by apply length_replicate.
    by destruct Hk as (_ & _ & ->).
Qed.

(* =================================================================== *)
(** ** Column matcher: what the answer is *)
(* =================================================================== *)

Lemma startswith_refl (s : string) : startswith s s = true.
Proof.
  unfold startswith. induction s as [|c s IH]; [done|]. simpl.
  by destruct (ascii_dec c c).
Qed.

Lemma contains_refl (s : string) : contains s s = true.
Proof.
  destruct s as [|c s]; [done|].
  change (contains (String c s) (String c s))
    with (startswith (String c s) (String c s) || contains (String c s) s)%bool.
  by rewrite startswith_refl.
Qed.

Lemma last_with_norm_elem (key : string) (cols : list string) (c : string) :
  last_with_norm key cols = Some c -> c ∈ cols /\ normalize c = key.
Proof.
  intros H. apply last_with_norm_Some in H as (b & a & -> & Hc & _).
  split; [|done]. apply elem_of_app. right. by left.
Qed.

Lemma spec_exact_pass_Some (cols cands : list string) (c : string) :
  spec_exact_pass cols cands = Some c ->
  c ∈ cols /\ exists cand, cand ∈ cands /\ normalize c = normalize cand.
Proof.
  induction cands as [|cand rest IH]; simpl; [done|].
  destruct (last_with_norm (normalize cand) cols) as [c'|] eqn:Hlast.
  - intros [= ->]. apply last_with_norm_elem in Hlast as [Hin Hnorm].
    split; [done|]. exists cand. split; [by left | done].
  - intros H. destruct (IH H) as (Hin & cand' & Hcand & Hnorm).
    split; [done|]. exists cand'. split; [by right | done].
Qed.

Lemma spec_exact_pass_None (cols cands : list string) :
  spec_exact_pass cols cands = None <->
  forall c cand, c ∈ cols -> cand ∈ cands -> normalize c <> normalize cand.
Proof.
  induction cands as [|cand rest IH]; simpl.
  - split; [|done]. intros _ c cand _ Hcand. by apply elem_of_nil in Hcand.
  - destruct (last_with_norm (normalize cand) cols) as [c'|] eqn:Hlast.
    + split; [done|]. intros H.
      apply last_with_norm_elem in Hlast as [Hin Hnorm].
      destruct (H c' cand Hin); [by left | done].
    + rewrite IH. split.
      * intros H c cand' Hc Hcand'.
        apply elem_of_cons in Hcand' as [->|Hcand']; [|by apply H].
        intros Hnorm.
        assert (exists c0, last_with_norm (normalize cand) cols = Some c0)
          as [c0 Hc0]; [|congruence].
        clear Hlast H IH. unfold last_with_norm.
        destruct (List.find _ (rev cols)) as [c0|] eqn:Hfind; [by eexists|].
        pose proof (find_none _ _ Hfind c) as Hnone.
        rewrite <- in_rev in Hnone.
        specialize (Hnone (proj1 (list_elem_of_In _ _) Hc)).
        simpl in Hnone. apply String.eqb_neq in Hnone. done.
      * intros H c cand' Hc Hcand'. apply H; [done | by right].
Qed.

Lemma loose_hit_true (cands : list string) (col : string) :
  loose_hit cands col = true <->
  exists cand, cand ∈ cands /\ contains (normalize cand) (normalize col) = true.
Proof.
  unfold loose_hit. rewrite existsb_exists.
  split; intros (cand & Hin & Hc); exists cand; split;
    try done; by apply list_elem_of_In.
Qed.

Lemma best_match_Some_hit (cols cands : list string) (c : string) :
  best_match_column cols cands = Some c ->
  c ∈ cols /\ loose_hit cands c = true.
Proof.
  unfold best_match_column. rewrite first_exact_spec.
  destruct (spec_exact_pass cols cands) as [c'|] eqn:Hexact.
  - intros [= ->].
    apply spec_exact_pass_Some in Hexact as (Hin & cand & Hcand & Hnorm).
    split; [done|]. apply loose_hit_true. exists cand. split; [done|].
    rewrite Hnorm. apply contains_refl.
  - intros Hfind. apply find_some in Hfind as [Hin Hhit].
    split; [by apply list_elem_of_In | done].
Qed.

Lemma best_match_None_iff (cols cands : list string) :
  best_match_column cols cands = None <->
  forall c, c ∈ cols -> loose_hit cands c = false.
Proof.
  split.
  - unfold best_match_column.
    destruct (first_exact _ _); [done|]. intros Hfind c Hc.
    apply (find_none _ _ Hfind). by apply list_elem_of_In.
  - intros H. destruct (best_match_column cols cands) as [c|] eqn:Hc; [|done].
    apply best_match_Some_hit in Hc as [Hin Hhit].
    by rewrite (H c Hin) in Hhit.
Qed.

(** X1. Whatever [best_match_column] answers is one of the observed labels,
    and its normal form contains the normal form of a candidate; it answers
    nothing exactly when no observed label contains the normal form of any
    candidate (so also for no labels or no candidates). *)
Theorem best_match_column_answer (existing_cols candidates : list string) :
  match best_match_column existing_cols candidates with
  | Some c =>
      c ∈ existing_cols /\
      exists cand, cand ∈ candidates /\
        contains (normalize cand) (normalize c) = true
  | None =>
      forall c cand, c ∈ existing_cols -> cand ∈ candidates ->
        contains (normalize cand) (normalize c) = false
  end.
Proof.
  destruct (best_match_column existing_cols candidates) as [c|] eqn:Hbest.
  - apply best_match_Some_hit in Hbest as [Hin Hhit].
    split; [done|]. by apply loose_hit_true.
  - intros c cand Hc Hcand.
    pose proof (proj1 (best_match_None_iff _ _) Hbest c Hc) as Hmiss.
    destruct (contains _ _) eqn:Hcontains; [|done].
    rewrite (proj2 (loose_hit_true candidates c)) in Hmiss; [done|].
    by exists cand.
Qed.

(** X2. An exact match anywhere beats a loose match: when some observed
    label has the normal form of some candidate, the answer has the normal
    form of a candidate too, even if an earlier label merely contains one. *)
Theorem best_match_column_prefers_exact (existing_cols candidates : list string)
    (c0 cand0 : string) :
  c0 ∈ existing_cols -> cand0 ∈ candidates ->
  normalize c0 = normalize cand0 ->
  exists c cand,
    best_match_column existing_cols candidates = Some c /\
    c ∈ existing_cols /\ cand ∈ candidates /\ normalize c = normalize cand.
Proof.
  intros Hc0 Hcand0 Hnorm. unfold best_match_column.
  rewrite first_exact_spec.
  destruct (spec_exact_pass existing_cols candidates) as [c|] eqn:Hexact.
  - apply spec_exact_pass_Some in Hexact as (Hin & cand & Hcand & Hn).
    by exists c, cand.
  - pose proof (proj1 (spec_exact_pass_None _ _) Hexact c0 cand0 Hc0 Hcand0).
    done.
Qed.

(* =================================================================== *)
(** ** [normalize]: case, white space, idempotence *)
(* =================================================================== *)

Lemma is_space_to_upper (c : ascii) : is_space (to_upper c) = is_space c.
Proof. destruct c as [[] [] [] [] [] [] [] []]; reflexivity. Qed.

Lemma is_space_to_lower (c : ascii) : is_space (to_lower c) = is_space c.
Proof. destruct c as [[] [] [] [] [] [] [] []]; reflexivity. Qed.

Lemma to_lower_to_upper (c : ascii) : to_lower (to_upper c) = to_lower c.
Proof. destruct c as [[] [] [] [] [] [] [] []]; reflexivity. Qed.

Lemma to_lower_idem (c : ascii) : to_lower (to_lower c) = to_lower c.
Proof. destruct c as [[] [] [] [] [] [] [] []]; reflexivity. Qed.

Section MapChars.

Variable f : ascii -> ascii.
Hypothesis f_space : forall c, is_space (f c) = is_space c.
Hypothesis f_blank : f " "%char = " "%char.

Lemma lstrip_map_chars (s : string) :
  lstrip (map_chars f s) = map_chars f (lstrip s).
Proof.
  induction s as [|c s IH]; [done|]. simpl. rewrite f_space.
  by destruct (is_space c).
Qed.

Lemma rstrip_map_chars (s : string) :
  rstrip (map_chars f s) = map_chars f (rstrip s).
Proof.
  induction s as [|c s IH]; [done|]. simpl. rewrite IH, f_space.
  destruct (rstrip s); simpl; [by destruct (is_space c) | done].
Qed.

Lemma strip_map_chars (s : string) :
  strip (map_chars f s) = map_chars f (strip s).
Proof. unfold strip. by rewrite lstrip_map_chars, rstrip_map_chars. Qed.

Lemma sub_ws_from_map_chars (b : bool) (s : string) :
  sub_ws_from b (map_chars f s) = map_chars f (sub_ws_from b s).
Proof.
  revert b. induction s as [|c s IH]; intros b; [done|]. simpl.
  rewrite f_space. destruct (is_space c); [destruct b|]; simpl;
    by rewrite ?IH, ?f_blank.
Qed.

End MapChars.

Lemma lower_map_chars (f : ascii -> ascii) (s : string) :
  (forall c, to_lower (f c) = to_lower c) -> lower (map_chars f s) = lower s.
Proof.
  intros Hf. unfold lower. induction s as [|c s IH]; [done|]. simpl.
  by rewrite Hf, IH.
Qed.

Lemma normalize_map_chars (f : ascii -> ascii) (s : string) :
  (forall c, is_space (f c) = is_space c) -> f " "%char = " "%char ->
  (forall c, to_lower (f c) = to_lower c) ->
  normalize (map_chars f s) = normalize s.
Proof.
  intros Hspace Hblank Hlower. unfold normalize, sub_ws.
  rewrite strip_map_chars, sub_ws_from_map_chars by done.
  by apply lower_map_chars.
Qed.

Lemma normalize_upper (s : string) : normalize (upper s) = normalize s.
Proof.
  apply normalize_map_chars;
    [apply is_space_to_upper | done | apply to_lower_to_upper].
Qed.

Lemma normalize_lower (s : string) : normalize (lower s) = normalize s.
Proof.
  apply normalize_map_chars;
    [apply is_space_to_lower | done | apply to_lower_idem].
Qed.

(** Text that neither starts nor ends with white space. *)
Lemma lstrip_clean (s : string) : starts_clean s = true -> lstrip s = s.
Proof. destruct s as [|c s]; [done|]. simpl. by destruct (is_space c). Qed.

Lemma rstrip_clean (s : string) : ends_clean s = true -> rstrip s = s.
Proof.
  induction s as [|c s IH]; [done|]. destruct s as [|d s].
  - simpl. by destruct (is_space c).
  - intros H. change (ends_clean (String d s) = true) in H.
    cbn [rstrip] in *. by rewrite (IH H).
Qed.

Lemma starts_clean_lstrip (s : string) : starts_clean (lstrip s) = true.
Proof.
  induction s as [|c s IH]; [done|]. simpl.
  destruct (is_space c) eqn:Hc; [done|]. simpl. by rewrite Hc.
Qed.

Lemma ends_clean_rstrip (s : string) : ends_clean (rstrip s) = true.
Proof.
  induction s as [|c s IH]; [done|]. simpl.
  destruct (rstrip s) as [|d r].
  - destruct (is_space c) eqn:Hc; [done|]. simpl. by rewrite Hc.
  - exact IH.
Qed.

Lemma starts_clean_rstrip (s : string) :
  starts_clean s = true -> starts_clean (rstrip s) = true.
Proof.
  destruct s as [|c s]; [done|]. intros Hc.
  change (negb (is_space c) = true) in Hc.
  apply negb_true_iff in Hc. rewrite (rstrip_cons_keep c s Hc). simpl.
  by rewrite Hc.
Qed.

Lemma starts_clean_sub_ws (s : string) :
  starts_clean s = true -> starts_clean (sub_ws s) = true.
Proof.
  destruct s as [|c s]; [done|]. unfold sub_ws. simpl.
  destruct (is_space c) eqn:Hc; [done|]. simpl. by rewrite Hc.
Qed.

Lemma sub_ws_from_nonempty (b : bool) (s : string) :
  ends_clean s = true -> s <> "" -> sub_ws_from b s <> "".
Proof.
  revert b. induction s as [|c s IH]; intros b Hclean Hne; [done|].
  simpl. destruct (is_space c) eqn:Hc; [|done].
  destruct s as [|d s]; [simpl in Hclean; by rewrite Hc in Hclean|].
  change (ends_clean (String d s) = true) in Hclean.
  destruct b; [by apply IH | done].
Qed.

Lemma sub_ws_from_cons (b : bool) (c : ascii) (s : string) :
  sub_ws_from b (String c s)
  = if is_space c
    then (if b then sub_ws_from true s else String " " (sub_ws_from true s))
    else String c (sub_ws_from false s).
Proof. reflexivity. Qed.

Lemma ends_clean_sub_ws_from (b : bool) (s : string) :
  ends_clean s = true -> ends_clean (sub_ws_from b s) = true.
Proof.
  revert b. induction s as [|c s IH]; intros b Hclean; [done|].
  destruct s as [|d s].
  - simpl in *. destruct (is_space c) eqn:Hc; [done|]. simpl. by rewrite Hc.
  - change (ends_clean (String d s) = true) in Hclean.
    rewrite sub_ws_from_cons. destruct (is_space c) eqn:Hc.
    + destruct b; [by apply IH|].
      pose proof (sub_ws_from_nonempty true (String d s) Hclean ltac:(done)).
      pose proof (IH true Hclean).
      destruct (sub_ws_from true (String d s)); [done|]. done.
    + pose proof (IH false Hclean).
      destruct (sub_ws_from false (String d s)) eqn:Hw; [|done].
      simpl. by rewrite Hc.
Qed.

Lemma strip_sub_ws_strip (s : string) :
  strip (sub_ws (strip s)) = sub_ws (strip s).
Proof.
  assert (Hs : starts_clean (strip s) = true)
    by apply starts_clean_rstrip, starts_clean_lstrip.
  assert (He : ends_clean (strip s) = true) by apply ends_clean_rstrip.
  unfold strip at 1.
  rewrite lstrip_clean by by apply starts_clean_sub_ws.
  by apply rstrip_clean, ends_clean_sub_ws_from.
Qed.

Lemma sub_ws_from_idem (b : bool) (s : string) :
  sub_ws_from false (sub_ws_from b s) = sub_ws_from b s /\
  (b = true -> sub_ws_from true (sub_ws_from b s) = sub_ws_from b s).
Proof.
  revert b. induction s as [|c s IH]; intros b; [done|]. simpl.
  destruct (is_space c) eqn:Hc.
  - destruct b; [apply IH|]. split; [|done]. simpl.
    by rewrite (proj2 (IH true) eq_refl).
  - simpl. rewrite Hc. split; [|intros _]; by rewrite (proj1 (IH false)).
Qed.

(** X3. [normalize] is idempotent, and it does not see the case of letters
    or white space around the text: a label and its normal form, its upper
    case, its lower case and its trimmed form all normalise alike. *)
Theorem normalize_idempotent (s : string) :
  normalize (normalize s) = normalize s /\
  normalize (upper s) = normalize s /\
  normalize (lower s) = normalize s /\
  normalize (strip s) = normalize s.
Proof.
  split; [|split; [apply normalize_upper|split; [apply normalize_lower|]]].
  - change (normalize (normalize s))
      with (normalize (lower (sub_ws (strip s)))).
    rewrite normalize_lower. unfold normalize.
    rewrite strip_sub_ws_strip. unfold sub_ws.
    by rewrite (proj1 (sub_ws_from_idem false (strip s))).
  - unfold normalize. by rewrite strip_idem.
Qed.

(* =================================================================== *)
(** ** Column matcher: case of labels and candidates *)
(* =================================================================== *)

Lemma find_map {A B} (p : B -> bool) (f : A -> B) (l : list A) :
  List.find p (map f l) = f <$> List.find (fun x => p (f x)) l.
Proof.
  induction l as [|x l IH]; [done|]. simpl. by destruct (p (f x)).
Qed.

Lemma find_ext_eq {A} (p q : A -> bool) (l : list A) :
  (forall x, p x = q x) -> List.find p l = List.find q l.
Proof.
  intros H. induction l as [|x l IH]; [done|]. simpl. by rewrite H, IH.
Qed.

Section SameNormalForm.

Variable f : string -> string.
Hypothesis f_norm : forall s, normalize (f s) = normalize s.

Lemma last_with_norm_map (key : string) (cols : list string) :
  last_with_norm key (map f cols) = f <$> last_with_norm key cols.
Proof.
  unfold last_with_norm. rewrite <- map_rev, find_map. f_equal.
  apply find_ext_eq. intros c. by rewrite f_norm.
Qed.

Lemma spec_exact_pass_map_cols (cols cands : list string) :
  spec_exact_pass (map f cols) cands = f <$> spec_exact_pass cols cands.
Proof.
  induction cands as [|cand rest IH]; [done|]. simpl.
  rewrite last_with_norm_map.
  by destruct (last_with_norm (normalize cand) cols).
Qed.

Lemma spec_exact_pass_map_cands (cols cands : list string) :
  spec_exact_pass cols (map f cands) = spec_exact_pass cols cands.
Proof.
  induction cands as [|cand rest IH]; [done|]. simpl.
  by rewrite f_norm, IH.
Qed.

Lemma loose_hit_map_cands (cands : list string) (col : string) :
  loose_hit (map f cands) col = loose_hit cands col.
Proof.
  unfold loose_hit. induction cands as [|cand rest IH]; [done|]. simpl.
  by rewrite f_norm, IH.
Qed.

Lemma loose_hit_map_col (cands : list string) (col : string) :
  loose_hit cands (f col) = loose_hit cands col.
Proof. unfold loose_hit. by rewrite f_norm. Qed.

Lemma best_match_map_cands (cols cands : list string) :
  best_match_column cols (map f cands) = best_match_column cols cands.
Proof.
  unfold best_match_column.
  rewrite !first_exact_spec, spec_exact_pass_map_cands.
  destruct (spec_exact_pass cols cands); [done|].
  apply find_ext_eq, loose_hit_map_cands.
Qed.

Lemma best_match_map_cols (cols cands : list string) :
  best_match_column (map f cols) cands = f <$> best_match_column cols cands.
Proof.
  unfold best_match_column.
  rewrite !first_exact_spec, spec_exact_pass_map_cols.
  destruct (spec_exact_pass cols cands); [done|]. simpl.
  rewrite find_map. f_equal. apply find_ext_eq, loose_hit_map_col.
Qed.

End SameNormalForm.

(** X4. For labels and candidates written in ASCII, the matcher does not
    see the case of letters: writing the candidates in upper or lower case
    changes nothing, and writing the observed labels in upper or lower case
    gives the same label, in that case. *)
Theorem best_match_column_case_insensitive (existing_cols candidates : list string) :
  best_match_column existing_cols (map upper candidates)
  = best_match_column existing_cols candidates /\
  best_match_column existing_cols (map lower candidates)
  = best_match_column existing_cols candidates /\
  best_match_column (map upper existing_cols) candidates
  = upper <$> best_match_column existing_cols candidates /\
  best_match_column (map lower existing_cols) candidates
  = lower <$> best_match_column existing_cols candidates.
Proof.
  repeat split.
  - apply best_match_map_cands, normalize_upper.
  - apply best_match_map_cands, normalize_lower.
  - apply best_match_map_cols, normalize_upper.
  - apply best_match_map_cols, normalize_lower.
Qed.

(* =================================================================== *)
(** ** Root id: its shape, and the root id of a root id *)
(* =================================================================== *)

Lemma to_upper_of_lower (c : ascii) : to_upper (to_lower c) = to_upper c.
Proof. destruct c as [[] [] [] [] [] [] [] []]; reflexivity. Qed.

Lemma to_upper_digit (c : ascii) : is_digit c = true -> to_upper c = c.
Proof.
  destruct c as [[] [] [] [] [] [] [] []]; intros H;
    first [reflexivity | discriminate H].
Qed.

Lemma is_space_digit (c : ascii) : is_digit c = true -> is_space c = false.
Proof.
  destruct c as [[] [] [] [] [] [] [] []]; intros H;
    first [reflexivity | discriminate H].
Qed.

Lemma upper_app (a b : string) : upper (a +:+ b) = upper a +:+ upper b.
Proof.
  unfold upper. induction a as [|c a IH]; [done|]. simpl. by rewrite IH.
Qed.

Lemma upper_all_digits (s : string) : all_digits s = true -> upper s = s.
Proof.
  unfold upper. induction s as [|c s IH]; [done|]. simpl.
  intros [Hc Hs]%andb_true_iff. by rewrite (to_upper_digit c Hc), (IH Hs).
Qed.

Lemma all_digits_take_while (s : string) :
  all_digits (take_while is_digit s) = true.
Proof.
  induction s as [|c s IH]; [done|]. simpl.
  destruct (is_digit c) eqn:Hc; [|done]. simpl. by rewrite Hc, IH.
Qed.

Lemma take_while_all_digits (s : string) :
  all_digits s = true -> take_while is_digit s = s.
Proof.
  induction s as [|c s IH]; [done|]. simpl.
  intros [Hc Hs]%andb_true_iff. by rewrite Hc, (IH Hs).
Qed.

Lemma take_while_starts_with_digit (s : string) :
  starts_with_digit s = true -> take_while is_digit s <> "".
Proof. destruct s as [|c s]; [done|]. simpl. by intros ->. Qed.

Lemma upper_token_prefix (token s : string) :
  ci_startswith token s = true ->
  upper (first_n (String.length token) s) = upper token.
Proof.
  unfold ci_startswith, startswith, upper, lower. revert s.
  induction token as [|a token IH]; intros [|b s]; simpl; try done.
  destruct (ascii_dec (to_lower a) (to_lower b)) as [Hab|]; [|done].
  intros H. rewrite (IH s H). f_equal.
  by rewrite <- (to_upper_of_lower b), <- Hab, to_upper_of_lower.
Qed.

Lemma spec_pattern_match_shape (s m : string) :
  spec_pattern_match ["DSH"; "PED"] s = Some m ->
  exists digits,
    digits <> "" /\ all_digits digits = true /\
    (upper m = "DSH" +:+ digits \/ upper m = "PED" +:+ digits).
Proof.
  unfold spec_pattern_match. cbn [List.find]. unfold token_matches.
  change (String.length "DSH") with 3%nat.
  change (String.length "PED") with 3%nat.
  assert (Htok : forall token, ci_startswith token s = true ->
            String.length token = 3%nat ->
            upper (first_n 3 s +:+ take_while is_digit (skip_n 3 s))
            = upper token +:+ take_while is_digit (skip_n 3 s)).
  { intros token Htoken Hlen. rewrite upper_app, <- Hlen.
    rewrite (upper_token_prefix token s Htoken).
    by rewrite (upper_all_digits _ (all_digits_take_while _)). }
  destruct (ci_startswith "DSH" s) eqn:Hdsh;
    [destruct (starts_with_digit (skip_n 3 s)) eqn:Hd|]; cbn [andb].
  - intros H.
    change (Some (first_n 3 s +:+ take_while is_digit (skip_n 3 s)) = Some m)
      in H.
    replace m with (first_n 3 s +:+ take_while is_digit (skip_n 3 s))
      by congruence.
    exists (take_while is_digit (skip_n 3 s)).
    split; [by apply take_while_starts_with_digit|].
    split; [apply all_digits_take_while|]. left.
    by rewrite (Htok "DSH").
  - by destruct (ci_startswith "PED" s).
  - destruct (ci_startswith "PED" s) eqn:Hped; [|done].
    destruct (starts_with_digit (skip_n 3 s)) eqn:Hd; [|done]. cbn [andb].
    intros H.
    change (Some (first_n 3 s +:+ take_while is_digit (skip_n 3 s)) = Some m)
      in H.
    replace m with (first_n 3 s +:+ take_while is_digit (skip_n 3 s))
      by congruence.
    exists (take_while is_digit (skip_n 3 s)).
    split; [by apply take_while_starts_with_digit|].
    split; [apply all_digits_take_while|]. right.
    by rewrite (Htok "PED").
Qed.

Lemma extract_root_id_match (id_val : cell) (root : string) :
  extract_root_id id_val = Some root ->
  exists s m, spec_pattern_match ["DSH"; "PED"] s = Some m /\ root = upper m.
Proof.
  unfold extract_root_id. rewrite match_root_regex.
  destruct (spec_pattern_match _ _) as [m|] eqn:Hm; [|done].
  intros [= <-]. by eexists _, m.
Qed.

Lemma root_id_shape (id_val : cell) (root : string) :
  extract_root_id id_val = Some root ->
  exists digits,
    digits <> "" /\ all_digits digits = true /\
    (root = "DSH" +:+ digits \/ root = "PED" +:+ digits).
Proof.
  intros (s & m & Hm & ->)%extract_root_id_match.
  by apply spec_pattern_match_shape in Hm.
Qed.

(** X5. A root id is always "DSH" or "PED" (in upper case) followed by one
    or more decimal digits and nothing else. *)
Theorem extract_root_id_shape (id_val : cell) (root : string) :
  extract_root_id id_val = Some root ->
  exists digits,
    digits <> "" /\ all_digits digits = true /\
    (root = "DSH" +:+ digits \/ root = "PED" +:+ digits).
Proof. apply root_id_shape. Qed.

Lemma ends_clean_all_digits (digits : string) :
  all_digits digits = true -> ends_clean digits = true.
Proof.
  induction digits as [|d digits IH]; [done|].
  intros [Hd Hall]%andb_true_iff.
  destruct digits as [|e digits]; [|by apply IH].
  simpl. by rewrite (is_space_digit d Hd).
Qed.

Lemma ends_clean_app_digits (token digits : string) :
  all_digits digits = true -> digits <> "" ->
  ends_clean (token +:+ digits) = true.
Proof.
  intros Hall Hne. induction token as [|c token IH];
    [by apply ends_clean_all_digits|].
  change (String c token +:+ digits) with (String c (token +:+ digits)).
  destruct (token +:+ digits) as [|e rest] eqn:Happ; [|exact IH].
  destruct token; [done | discriminate Happ].
Qed.

Lemma startswith_app (x y : string) : startswith x (x +:+ y) = true.
Proof.
  unfold startswith. induction x as [|c x IH]; [apply startswith_nil|].
  simpl. by destruct (ascii_dec c c).
Qed.

Lemma map_chars_app (f : ascii -> ascii) (x y : string) :
  map_chars f (x +:+ y) = map_chars f x +:+ map_chars f y.
Proof. induction x as [|c x IH]; [done|]. simpl. by rewrite IH. Qed.

Lemma ci_startswith_app (x y : string) : ci_startswith x (x +:+ y) = true.
Proof.
  unfold ci_startswith, lower. rewrite map_chars_app. apply startswith_app.
Qed.

Lemma skip_n_app (x y : string) : skip_n (String.length x) (x +:+ y) = y.
Proof. induction x as [|c x IH]; [by destruct y | exact IH]. Qed.

Lemma first_n_app (x y : string) : first_n (String.length x) (x +:+ y) = x.
Proof.
  induction x as [|c x IH]; [by destruct y|]. simpl. by rewrite IH.
Qed.

Lemma root_shape_fixed (token digits : string) :
  token = "DSH" \/ token = "PED" ->
  digits <> "" -> all_digits digits = true ->
  extract_root_id (CStr (token +:+ digits)) = Some (token +:+ digits).
Proof.
  intros Htoken Hne Hall. unfold extract_root_id.
  assert (Hstrip : strip (token +:+ digits) = token +:+ digits).
  { unfold strip. rewrite lstrip_clean by (by destruct Htoken as [->| ->]).
    by apply rstrip_clean, ends_clean_app_digits. }
  rewrite Hstrip, match_root_regex. unfold spec_pattern_match.
  assert (Hd : starts_with_digit digits = true).
  { destruct digits as [|d digits]; [done|]. simpl.
    by apply andb_true_iff in Hall as [-> _]. }
  assert (Hself : token_matches (token +:+ digits) token = true).
  { unfold token_matches. by rewrite ci_startswith_app, skip_n_app, Hd. }
  assert (Hfind : List.find (token_matches (token +:+ digits)) ["DSH"; "PED"]
                  = Some token).
  { destruct Htoken as [->| ->]; cbn [List.find].
    - by rewrite Hself.
    - rewrite Hself.
      replace (token_matches ("PED" +:+ digits) "DSH") with false; [done|].
      unfold token_matches. by destruct digits. }
  rewrite Hfind, first_n_app, skip_n_app, (take_while_all_digits _ Hall).
  rewrite upper_app, (upper_all_digits _ Hall).
  by destruct Htoken as [->| ->].
Qed.

(** X6. Extraction is idempotent: the root id of a root id is that root id
    (a table of root ids run through the extraction again is unchanged). *)
Theorem extract_root_id_fixed_point (id_val : cell) (root : string) :
  extract_root_id id_val = Some root ->
  extract_root_id (CStr root) = Some root.
Proof.
  intros (digits & Hne & Hall & [->| ->])%root_id_shape;
    apply root_shape_fixed; auto.
Qed.

(* =================================================================== *)
(** ** Reading a sheet: blank rows and columns *)
(* =================================================================== *)

Lemma existsb_notna_column (df : DataFrame) (c : string) :
  existsb notna (column df c) = true <->
  exists r, r ∈ rows df /\ notna (rget r c) = true.
Proof.
  unfold column. rewrite existsb_exists. split.
  - intros (v & Hv & Hna). apply in_map_iff in Hv as (r & <- & Hr).
    exists r. split; [by apply list_elem_of_In | done].
  - intros (r & Hr & Hna). exists (rget r c). split; [|done].
    apply in_map_iff. exists r. split; [done | by apply list_elem_of_In].
Qed.

Lemma existsb_notna_row (cols : list string) (r : row) :
  existsb (fun c => notna (rget r c)) cols = true <->
  exists c, c ∈ cols /\ notna (rget r c) = true.
Proof.
  rewrite existsb_exists.
  split; intros (c & Hc & Hna); exists c; split; try done;
    by apply list_elem_of_In.
Qed.

Lemma read_with_auto_header_Some (path : string) (df : DataFrame) :
  read_with_auto_header path = Some df ->
  exists preview raw,
    read_excel path None (Some 20%nat) = Some preview /\
    read_excel path (Some (header_index preview)) None = Some raw /\
    df = dropna_rows (dropna_columns raw).
Proof.
  unfold read_with_auto_header.
  destruct (read_excel path None _) as [preview|]; [|done].
  destruct (read_excel path (Some _) None) as [raw|] eqn:Hraw; [|done].
  intros [= <-]. by exists preview, raw.
Qed.

Lemma read_with_auto_header_facts (path : string) (df : DataFrame) :
  read_with_auto_header path = Some df ->
  (forall c, c ∈ columns df ->
     exists r, r ∈ rows df /\ notna (rget r c) = true) /\
  (forall r, r ∈ rows df ->
     exists c, c ∈ columns df /\ notna (rget r c) = true) /\
  exists preview raw,
    read_excel path None (Some 20%nat) = Some preview /\
    read_excel path (Some (header_index preview)) None = Some raw /\
    columns df `sublist_of` columns raw /\
    forall r, r ∈ rows df ->
      exists r0, r0 ∈ rows raw /\ r = project (columns df) r0.
Proof.
  intros (preview & raw & Hprev & Hraw & ->)%read_with_auto_header_Some.
  set (keep := filter (fun c => existsb notna (column raw c) = true)
                      (columns raw)).
  assert (Hcols : columns (dropna_rows (dropna_columns raw)) = keep) by done.
  assert (Hrows : forall r,
    r ∈ rows (dropna_rows (dropna_columns raw)) <->
    (exists c, c ∈ keep /\ notna (rget r c) = true) /\
    exists r0, r0 ∈ rows raw /\ r = project keep r0).
  { intros r. unfold dropna_rows, dropna_columns, select_columns. simpl.
    fold keep. rewrite list_elem_of_filter, existsb_notna_row.
    rewrite list_elem_of_In, in_map_iff. split.
    - intros [Hc (r0 & <- & Hr0)]. split; [done|]. exists r0.
      split; [by apply list_elem_of_In | done].
    - intros [Hc (r0 & Hr0 & ->)]. split; [done|]. exists r0.
      split; [done | by apply list_elem_of_In]. }
  rewrite Hcols. split; [|split].
  - intros c Hc. pose proof Hc as Hc'.
    apply list_elem_of_filter in Hc' as [Hna _].
    apply existsb_notna_column in Hna as (r0 & Hr0 & Hna).
    assert (Hget : notna (rget (project keep r0) c) = true).
    { rewrite rget_project. by rewrite decide_True. }
    exists (project keep r0). split; [|done].
    apply Hrows. split; [by exists c | by exists r0].
  - intros r Hr. by apply Hrows in Hr as [Hc _].
  - exists preview, raw. split; [done|]. split; [done|].
    split; [apply sublist_filter|].
    intros r Hr. by apply Hrows in Hr as [_ Hr0].
Qed.

(** X7. The table [read_with_auto_header] returns has no column that is
    blank in every row and no row that is blank in every column, although
    the blank columns are dropped before the blank rows; its labels are
    labels of the sheet as read and its rows are rows of that sheet cut
    down to the labels that stay. *)
Theorem read_with_auto_header_no_blanks (path : string) (df : DataFrame) :
  read_with_auto_header path = Some df ->
  (forall c, c ∈ columns df ->
     exists r, r ∈ rows df /\ notna (rget r c) = true) /\
  (forall r, r ∈ rows df ->
     exists c, c ∈ columns df /\ notna (rget r c) = true) /\
  exists preview raw,
    read_excel path None (Some 20%nat) = Some preview /\
    read_excel path (Some (header_index preview)) None = Some raw /\
    columns df `sublist_of` columns raw /\
    forall r, r ∈ rows df ->
      exists r0, r0 ∈ rows raw /\ r = project (columns df) r0.
Proof. apply read_with_auto_header_facts. Qed.

Lemma best_match_no_columns (cands : list string) :
  best_match_column [] cands = None.
Proof. by apply best_match_None_iff; intros c Hc; apply elem_of_nil in Hc. Qed.

(** X8. A sheet without a filled data row is skipped as lacking its key
    columns, whatever its header says: with no row left, every column
    counts as blank and is dropped before the columns are matched. *)
Theorem load_file_no_rows_skipped (f : string) (df : DataFrame) :
  read_with_auto_header f = Some df ->
  rows df = [] ->
  load_file f = inr (WarnMissingColumns (path_basename f) None None None).
Proof.
  intros Hread Hrows.
  assert (Hcols : columns df = []).
  { destruct (read_with_auto_header_facts f df Hread) as (Hc & _).
    destruct (columns df) as [|c cols]; [done|].
    destruct (Hc c) as (r & Hr & _); [by left|].
    rewrite Hrows in Hr. by apply elem_of_nil in Hr. }
  unfold load_file. rewrite Hread, Hcols, !best_match_no_columns. done.
Qed.

(* =================================================================== *)
(** ** Record loader: the alias columns *)
(* =================================================================== *)

Lemma resolved_true (o : option string) :
  resolved o = true -> exists c, o = Some c /\ truthy c = true.
Proof. destruct o as [c|]; [|done]. intros H. by exists c. Qed.

Lemma column_add_alias_eq (alias src : string) (df : DataFrame) :
  truthy src = true ->
  column (add_alias alias (Some src) df) alias = column df src.
Proof.
  intros Hsrc. unfold add_alias. rewrite Hsrc.
  apply column_set_column_eq, column_length.
Qed.

Lemma column_add_alias_ne (alias c : string) (src : option string)
    (df : DataFrame) :
  c <> alias -> column (add_alias alias src df) c = column df c.
Proof. intros Hne. by apply add_alias_frame. Qed.

Lemma columns_add_alias_mono (alias c : string) (src : option string)
    (df : DataFrame) :
  c ∈ columns df -> c ∈ columns (add_alias alias src df).
Proof. apply add_alias_frame. Qed.

Lemma columns_add_alias_in (alias src : string) (df : DataFrame) :
  truthy src = true -> alias ∈ columns (add_alias alias (Some src) df).
Proof.
  intros Hsrc. unfold add_alias. rewrite Hsrc. simpl.
  apply elem_of_with_label. by left.
Qed.

Lemma column_set_scalar_ne (alias c : string) (v : cell) (df : DataFrame) :
  c <> alias -> column (set_scalar alias v df) c = column df c.
Proof.
  intros Hne. unfold set_scalar.
  apply column_set_column_ne; [done | apply length_replicate].
Qed.

Lemma best_match_not_label (cols cands : list string) (c label : string) :
  best_match_column cols cands = Some c ->
  loose_hit cands label = false -> c <> label.
Proof.
  intros Hbest Hmiss ->. apply best_match_Some_hit in Hbest as [_ Hhit].
  congruence.
Qed.

Lemma possible_optional_nonempty (key : string) :
  key = "entity" \/ key = "pharmacy" ->
  Forall (fun cand => normalize cand <> "") (possible key).
Proof.
  intros [->| ->].
  - replace (possible "entity")
      with ["Entity Name"; "Covered Entity Name"; "Covered Entity"; "Entity"]
      by (vm_compute; reflexivity).
    repeat constructor; by vm_compute.
  - replace (possible "pharmacy")
      with ["Pharmacy Name"; "Pharmacy"; "Doing Business As"; "DBA"]
      by (vm_compute; reflexivity).
    repeat constructor; by vm_compute.
Qed.

(** The tables between the alias assignments of the loader. *)
Lemma load_file_inl (f : string) (df0 df : DataFrame) :
  read_with_auto_header f = Some df0 ->
  load_file f = inl df ->
  exists cid cb ct,
    best_match_column (columns df0) (possible "id") = Some cid /\
    best_match_column (columns df0) (possible "begin") = Some cb /\
    best_match_column (columns df0) (possible "term") = Some ct /\
    truthy cid = true /\ truthy cb = true /\ truthy ct = true /\
    df = set_scalar "source_file" (CStr (path_basename f))
           (add_alias "PharmacyName"
              (best_match_column (columns df0) (possible "pharmacy"))
              (add_alias "EntityName"
                 (best_match_column (columns df0) (possible "entity"))
                 (add_alias "TermDate" (Some ct)
                    (add_alias "BeginDate" (Some cb)
                       (add_alias "ID" (Some cid) df0))))).
Proof.
  intros Hread. unfold load_file. rewrite Hread.
  destruct (resolved (best_match_column _ (possible "id"))) eqn:Rid;
    [|done].
  destruct (resolved (best_match_column _ (possible "begin"))) eqn:Rb;
    [|done].
  destruct (resolved (best_match_column _ (possible "term"))) eqn:Rt;
    [|done].
  cbn [negb orb]. intros [= <-].
  apply resolved_true in Rid as (cid & Hid & Tid).
  apply resolved_true in Rb as (cb & Hb & Tb).
  apply resolved_true in Rt as (ct & Ht & Tt).
  exists cid, cb, ct. by rewrite Hid, Hb, Ht.
Qed.

Lemma load_file_aliases_aux (f : string) (df0 df : DataFrame) :
  read_with_auto_header f = Some df0 ->
  load_file f = inl df ->
  exists cid cb ct,
    best_match_column (columns df0) (possible "id") = Some cid /\
    best_match_column (columns df0) (possible "begin") = Some cb /\
    best_match_column (columns df0) (possible "term") = Some ct /\
    column df "ID" = column df0 cid /\
    column df "BeginDate" = column df0 cb /\
    column df "TermDate" = column df0 ct /\
    (forall ce,
        best_match_column (columns df0) (possible "entity") = Some ce ->
        column df "EntityName" = column df0 ce) /\
    (forall cp,
        best_match_column (columns df0) (possible "pharmacy") = Some cp ->
        column df "PharmacyName" = column df0 cp) /\
    Forall (fun c => c ∈ columns df)
           ["ID"; "BeginDate"; "TermDate"; "source_file"].
Proof.
  intros Hread Hload.
  destruct (load_file_inl f df0 df Hread Hload)
    as (cid & cb & ct & Hid & Hb & Ht & Tid & Tb & Tt & ->).
  exists cid, cb, ct. do 3 (split; [done|]).
  assert (Hcb : cb <> "ID")
    by (apply (best_match_not_label _ _ _ _ Hb); by vm_compute).
  assert (Hct1 : ct <> "ID")
    by (apply (best_match_not_label _ _ _ _ Ht); by vm_compute).
  assert (Hct2 : ct <> "BeginDate")
    by (apply (best_match_not_label _ _ _ _ Ht); by vm_compute).
  set (d1 := add_alias "ID" (Some cid) df0).
  set (d2 := add_alias "BeginDate" (Some cb) d1).
  set (d3 := add_alias "TermDate" (Some ct) d2).
  set (oe := best_match_column (columns df0) (possible "entity")).
  set (op := best_match_column (columns df0) (possible "pharmacy")).
  set (d4 := add_alias "EntityName" oe d3).
  set (d5 := add_alias "PharmacyName" op d4).
  assert (H1 : column d1 "ID" = column df0 cid)
    by by apply column_add_alias_eq.
  assert (H2 : column d2 "BeginDate" = column df0 cb).
  { unfold d2. rewrite column_add_alias_eq by done.
    unfold d1. by rewrite column_add_alias_ne. }
  assert (H3 : column d3 "TermDate" = column df0 ct).
  { unfold d3. rewrite column_add_alias_eq by done.
    unfold d2, d1. by rewrite !column_add_alias_ne. }
  split; [|split; [|split; [|split; [|split]]]].
  - rewrite column_set_scalar_ne by done. unfold d5, d4, d3, d2.
    by rewrite !column_add_alias_ne.
  - rewrite column_set_scalar_ne by done. unfold d5, d4, d3.
    by rewrite !column_add_alias_ne.
  - rewrite column_set_scalar_ne by done. unfold d5, d4.
    by rewrite !column_add_alias_ne.
  - intros ce He.
    assert (Tce : truthy ce = true).
    { pose proof (best_match_nonempty _ _ _
        (possible_optional_nonempty "entity" (or_introl eq_refl)) He).
      by destruct ce. }
    assert (ce <> "ID")
      by (apply (best_match_not_label _ _ _ _ He); by vm_compute).
    assert (ce <> "BeginDate")
      by (apply (best_match_not_label _ _ _ _ He); by vm_compute).
    assert (ce <> "TermDate")
      by (apply (best_match_not_label _ _ _ _ He); by vm_compute).
    rewrite column_set_scalar_ne by done. unfold d5.
    rewrite column_add_alias_ne by done. unfold d4. rewrite He.
    rewrite column_add_alias_eq by done. unfold d3, d2, d1.
    by rewrite !column_add_alias_ne.
  - intros cp Hp.
    assert (Tcp : truthy cp = true).
    { pose proof (best_match_nonempty _ _ _
        (possible_optional_nonempty "pharmacy" (or_intror eq_refl)) Hp).
      by destruct cp. }
    assert (cp <> "ID")
      by (apply (best_match_not_label _ _ _ _ Hp); by vm_compute).
    assert (cp <> "BeginDate")
      by (apply (best_match_not_label _ _ _ _ Hp); by vm_compute).
    assert (cp <> "TermDate")
      by (apply (best_match_not_label _ _ _ _ Hp); by vm_compute).
    assert (cp <> "EntityName")
      by (apply (best_match_not_label _ _ _ _ Hp); by vm_compute).
    rewrite column_set_scalar_ne by done. unfold d5. rewrite Hp.
    rewrite column_add_alias_eq by done. unfold d4, d3, d2, d1.
    by rewrite !column_add_alias_ne.
  - assert (Hin1 : "ID" ∈ columns d1) by by apply columns_add_alias_in.
    assert (Hin2 : "BeginDate" ∈ columns d2) by by apply columns_add_alias_in.
    assert (Hin3 : "TermDate" ∈ columns d3) by by apply columns_add_alias_in.
    assert (Hup : forall c, c ∈ columns d3 ->
              c ∈ columns (set_scalar "source_file" (CStr (path_basename f)) d5)).
    { intros c Hc. unfold set_scalar. simpl. apply elem_of_with_label. right.
      by apply columns_add_alias_mono, columns_add_alias_mono. }
    repeat constructor.
    + apply Hup. by apply columns_add_alias_mono, columns_add_alias_mono.
    + apply Hup. by apply columns_add_alias_mono.
    + by apply Hup.
    + unfold set_scalar. simpl. apply elem_of_with_label. by left.
Qed.

(** X9. For an accepted file the alias columns are exact copies of the
    resolved columns of the table as read: ID of the id column, BeginDate of
    the begin column, TermDate of the term column, EntityName and
    PharmacyName of the entity and pharmacy columns when these are found
    (no resolved label can be one of the alias labels written before it is
    read); and the table has the labels ID, BeginDate, TermDate and
    source_file. *)
Theorem load_file_aliases_are_copies (f : string) (df0 df : DataFrame) :
  read_with_auto_header f = Some df0 ->
  load_file f = inl df ->
  exists cid cb ct,
    best_match_column (columns df0) (possible "id") = Some cid /\
    best_match_column (columns df0) (possible "begin") = Some cb /\
    best_match_column (columns df0) (possible "term") = Some ct /\
    column df "ID" = column df0 cid /\
    column df "BeginDate" = column df0 cb /\
    column df "TermDate" = column df0 ct /\
    (forall ce,
        best_match_column (columns df0) (possible "entity") = Some ce ->
        column df "EntityName" = column df0 ce) /\
    (forall cp,
        best_match_column (columns df0) (possible "pharmacy") = Some cp ->
        column df "PharmacyName" = column df0 cp) /\
    Forall (fun c => c ∈ columns df)
           ["ID"; "BeginDate"; "TermDate"; "source_file"].
Proof. apply load_file_aliases_aux. Qed.

(* =================================================================== *)
(** ** Configured prefixes: their case *)
(* =================================================================== *)

Lemma upper_lower (s : string) : upper (lower s) = upper s.
Proof.
  unfold upper, lower. induction s as [|c s IH]; [done|]. simpl.
  by rewrite to_upper_of_lower, IH.
Qed.

Lemma filter_prefixes_same_upper (ps qs : list string) (merged : DataFrame) :
  map upper ps = map upper qs ->
  filter_prefixes ps merged = filter_prefixes qs merged.
Proof. intros H. unfold filter_prefixes. by rewrite H. Qed.

Lemma process_folder_same_upper (ps qs : list string) (input_dir : string)
    (dedupe_strategy : string) (today_override : option string)
    (keep_all_columns : bool) :
  map upper ps = map upper qs ->
  process_folder input_dir ps dedupe_strategy today_override keep_all_columns
  = process_folder input_dir qs dedupe_strategy today_override keep_all_columns.
Proof.
  intros H. unfold process_folder. destruct (input_files input_dir); [done|].
  destruct (load_loop _ _ _) as [frames log]. destruct frames; [done|].
  f_equal. unfold process_frames, merge_frames.
  destruct (coerce_dates _) as [e|dated]; [done|].
  by rewrite (filter_prefixes_same_upper ps qs _ H).
Qed.

(** X10. The case of the configured prefixes does not matter: the run
    with the prefixes written in upper case, or in lower case, is the run
    with the prefixes as given. *)
Theorem process_folder_prefix_case (input_dir : string) (prefixes : list string)
    (dedupe_strategy : string) (today_override : option string)
    (keep_all_columns : bool) :
  process_folder input_dir (map upper prefixes) dedupe_strategy today_override
    keep_all_columns
  = process_folder input_dir prefixes dedupe_strategy today_override
      keep_all_columns /\
  process_folder input_dir (map lower prefixes) dedupe_strategy today_override
    keep_all_columns
  = process_folder input_dir prefixes dedupe_strategy today_override
      keep_all_columns.
Proof.
  split; apply process_folder_same_upper; rewrite map_map; apply map_ext;
    intros p; [apply upper_idem | apply upper_lower].
Qed.

(* =================================================================== *)
(** ** The reference date *)
(* =================================================================== *)

Lemma midnight_le (k t : Z) : (k * DAY_NS <=? t) = (k <=? t / DAY_NS).
Proof.
  assert (0 < DAY_NS) by done.
  destruct (Z.leb_spec k (t / DAY_NS)) as [Hle|Hlt].
  - apply Z.leb_le. pose proof (Z.mul_div_le t DAY_NS ltac:(done)). nia.
  - apply Z.leb_gt.
    pose proof (Z.mul_succ_div_gt t DAY_NS ltac:(done)). nia.
Qed.

Lemma reference_date_midnight (today_override : option string)
    (today : timestamp) :
  reference_date today_override = inr today ->
  exists k, wall today = k * DAY_NS.
Proof.
  unfold reference_date.
  assert (Hnow : exists k, wall (naive (date_today * DAY_NS)) = k * DAY_NS)
    by by exists date_today.
  destruct today_override as [s|]; [|by intros [= <-]].
  destruct (truthy s); [|by intros [= <-]].
  destruct (parse_datetime (CStr s)) as [t|]; [|done].
  intros [= <-]. exists (wall t / DAY_NS). simpl.
  pose proof (Z.div_mod (wall t) DAY_NS ltac:(done)). lia.
Qed.

(** X11. The reference date is always a midnight, be it today's date or a
    normalised override, so the activity test only sees the calendar day of
    a TermDate: a TermDate passes exactly when its day is not before the
    reference day, whatever its time of day. An empty override text counts
    as no override. *)
Theorem reference_date_is_midnight (today_override : option string)
    (today : timestamp) :
  reference_date today_override = inr today ->
  wall today mod DAY_NS = 0 /\
  (forall t : timestamp,
      ts_ge (wall today) (CTs t)
      = (wall today / DAY_NS <=? wall t / DAY_NS)) /\
  reference_date (Some "") = reference_date None.
Proof.
  intros [k Hk]%reference_date_midnight. rewrite Hk.
  split; [by apply Z.mod_mul|]. split; [|done].
  intros t. simpl. rewrite Z.div_mul by done. apply midnight_le.
Qed.

(* =================================================================== *)
(** ** Deduplication: order of the survivors, a second pass *)
(* =================================================================== *)

Lemma sort_rows_sorted_id (l : list row) :
  StronglySorted (fun a b => row_le a b = true) l -> sort_rows l = l.
Proof.
  induction 1 as [|r l Hl IH Hr]; [done|]. simpl. rewrite IH.
  destruct l as [|x l]; [done|]. simpl.
  apply Forall_cons in Hr as [-> _]. done.
Qed.

Lemma drop_dups_from_NoDup_id (seen : list cell) (l : list row) :
  NoDup (map (fun r => rget r "RootID") l) ->
  Forall (fun r => rget r "RootID" ∉ seen) l ->
  drop_dups_from seen l = l.
Proof.
  revert seen. induction l as [|r l IH]; intros seen Hnd Hseen; [done|].
  simpl in *. apply NoDup_cons in Hnd as [Hr Hnd].
  apply Forall_cons in Hseen as [Hrs Hseen].
  rewrite bool_decide_eq_false_2 by done. f_equal. apply IH; [done|].
  apply Forall_forall. intros x Hx. apply not_elem_of_cons. split.
  - intros Heq. apply Hr. rewrite <- Heq.
    apply list_elem_of_In, in_map_iff. exists x.
    split; [done | by apply list_elem_of_In].
  - rewrite Forall_forall in Hseen. by apply Hseen.
Qed.

Lemma drop_dups_nil_id (l : list row) :
  NoDup (map (fun r => rget r "RootID") l) -> drop_dups_from [] l = l.
Proof.
  intros H. apply drop_dups_from_NoDup_id; [done|].
  apply Forall_forall. intros x _. apply not_elem_of_nil.
Qed.

Lemma sublist_StronglySorted {A} (R : A -> A -> Prop) (l k : list A) :
  l `sublist_of` k -> StronglySorted R k -> StronglySorted R l.
Proof.
  induction 1 as [|x l k Hlk IH|x l k Hlk IH]; intros Hk; [done| |].
  - apply StronglySorted_inv in Hk as [Hk Hx]. constructor; [by apply IH|].
    apply Forall_forall. intros y Hy. rewrite Forall_forall in Hx.
    apply Hx. by eapply elem_of_sublist.
  - apply StronglySorted_inv in Hk as [Hk _]. by apply IH.
Qed.

Lemma dedupe_latest_sorted (merged : DataFrame) :
  StronglySorted (fun a b => row_le a b = true)
    (rows (dedupe "latest-begin" merged)).
Proof.
  rewrite rows_dedupe_latest.
  eapply sublist_StronglySorted;
    [apply drop_dups_from_sublist | apply sort_rows_sorted].
Qed.

(** X12. Deduplicating twice is deduplicating once, for every strategy:
    a table that was deduplicated comes back unchanged. *)
Theorem dedupe_idempotent (dedupe_strategy : string) (merged : DataFrame) :
  dedupe dedupe_strategy (dedupe dedupe_strategy merged)
  = dedupe dedupe_strategy merged.
Proof.
  pose proof (NoDup_dedupe dedupe_strategy merged) as Hnd.
  destruct (String.eqb_spec dedupe_strategy "latest-begin") as [->|Hne].
  - pose proof (dedupe_latest_sorted merged) as Hsorted.
    destruct (dedupe "latest-begin" merged) as [cols rs] eqn:Hd.
    unfold dedupe, drop_duplicates, sort_values. simpl in *.
    by rewrite (sort_rows_sorted_id rs Hsorted), (drop_dups_nil_id rs Hnd).
  - rewrite !(rows_dedupe_other dedupe_strategy _ Hne).
    rewrite (rows_dedupe_other dedupe_strategy _ Hne) in Hnd.
    destruct (drop_duplicates merged) as [cols rs] eqn:Hd.
    unfold drop_duplicates. simpl in *. by rewrite (drop_dups_nil_id rs Hnd).
Qed.

(* =================================================================== *)
(** ** The returned table: where it comes from *)
(* =================================================================== *)

(** Membership in a list of literal labels. *)
Ltac in_list :=
  repeat match goal with
         | H : _ ∈ _ :: _ |- _ => apply list_elem_of_In in H; simpl in H
         end;
  try apply list_elem_of_In; simpl;
  intuition (subst; auto; try discriminate; try congruence).

Lemma concat_columns_from (frames : list DataFrame) (acc : list string)
    (c : string) :
  c ∈ fold_left
        (fun acc df => acc ++ filter (fun c => c ∉ acc) (columns df))
        frames acc
  <-> c ∈ acc \/ exists df, df ∈ frames /\ c ∈ columns df.
Proof.
  revert acc. induction frames as [|df frames IH]; intros acc; simpl.
  - split; [by left|]. intros [H|(df & Hdf & _)]; [done|].
    by apply elem_of_nil in Hdf.
  - rewrite IH, elem_of_app, list_elem_of_filter. split.
    + intros [[H|[_ H]]|(df' & Hdf' & H)].
      * by left.
      * right. exists df. split; [by left | done].
      * right. exists df'. split; [by right | done].
    + intros [H|(df' & Hdf' & H)]; [by left; left|].
      apply elem_of_cons in Hdf' as [->|Hdf'].
      * destruct (decide (c ∈ acc)); [by left; left | by left; right].
      * right. by exists df'.
Qed.

Lemma concat_columns_elem (frames : list DataFrame) (c : string) :
  c ∈ concat_columns frames <-> exists df, df ∈ frames /\ c ∈ columns df.
Proof.
  unfold concat_columns. rewrite concat_columns_from. split; [|by right].
  intros [H|H]; [by apply elem_of_nil in H | done].
Qed.

Lemma load_file_inl_read (f : string) (df : DataFrame) :
  load_file f = inl df -> exists df0, read_with_auto_header f = Some df0.
Proof.
  unfold load_file. destruct (read_with_auto_header f) as [df0|]; [|done].
  intros _. by exists df0.
Qed.

Lemma loaded_labels (f : string) (df : DataFrame) :
  load_file f = inl df ->
  Forall (fun c => c ∈ columns df)
         ["ID"; "BeginDate"; "TermDate"; "source_file"].
Proof.
  intros Hload. destruct (load_file_inl_read f df Hload) as [df0 Hread].
  destruct (load_file_aliases_aux f df0 df Hread Hload)
    as (? & ? & ? & _ & _ & _ & _ & _ & _ & _ & _ & H). exact H.
Qed.

(** How a returned table is made. *)
Lemma process_folder_inr (input_dir : string) (prefixes : list string)
    (dedupe_strategy : string) (today_override : option string)
    (keep_all_columns : bool) (out : DataFrame) :
  snd (process_folder input_dir prefixes dedupe_strategy today_override
         keep_all_columns) = inr out ->
  exists frames dated today,
    frames = omap frame_of (input_files input_dir) /\
    (exists f df, df ∈ frames /\ load_file f = inl df) /\
    (forall df, df ∈ frames -> exists f, load_file f = inl df) /\
    coerce_dates (pd_concat frames) = inr dated /\
    reference_date today_override = inr today /\
    out = output keep_all_columns
            (dedupe dedupe_strategy
               (filter_active (wall today)
                  (filter_prefixes prefixes (prepare dated)))).
Proof.
  unfold process_folder. destruct (input_files input_dir) as [|f0 files];
    [done|].
  rewrite load_loop_spec. cbn [app].
  destruct (omap frame_of (f0 :: files)) as [|df0 frames] eqn:Hframes;
    [done|].
  cbn [snd]. intros Hout.
  apply process_frames_output in Hout
    as (dated & today & Hdated & Htoday & _ & _ & ->).
  assert (Hall : forall df, df ∈ df0 :: frames -> exists f, load_file f = inl df).
  { intros df Hdf. rewrite <- Hframes in Hdf.
    apply list_elem_of_omap in Hdf as (f & _ & Hf). exists f.
    unfold frame_of in Hf. by destruct (load_file f) as [d|]; simplify_eq. }
  exists (df0 :: frames), dated, today. split; [done|]. split; [|done].
  destruct (Hall df0) as [f Hf]; [by left|]. exists f, df0.
  split; [by left | done].
Qed.

Lemma prepared_labels (frames : list DataFrame) (dated : DataFrame)
    (c : string) :
  (exists f df, df ∈ frames /\ load_file f = inl df) ->
  coerce_dates (pd_concat frames) = inr dated ->
  c ∈ ["RootID"; "ID"; "BeginDate"; "TermDate"; "source_file"] ->
  c ∈ columns (prepare dated).
Proof.
  intros (f & df & Hdf & Hload) Hdated Hc. rewrite columns_prepare.
  destruct (coerce_dates_frame _ _ Hdated) as (-> & _).
  rewrite !elem_of_with_label.
  destruct (decide (c = "RootID")) as [->|Hne]; [by left|].
  do 3 right. simpl. apply concat_columns_elem. exists df. split; [done|].
  pose proof (loaded_labels f df Hload) as Hl.
  rewrite Forall_forall in Hl. apply Hl. in_list.
Qed.

Lemma project_project (cols1 cols2 : list string) (r : row) :
  (forall c, c ∈ cols1 -> c ∈ cols2) ->
  project cols1 (project cols2 r) = project cols1 r.
Proof.
  intros Hsub. apply map_eq. intros k. apply option_eq. intros v.
  unfold project. rewrite !map_lookup_filter_Some. simpl. split.
  - by intros [[Hv _] Hk].
  - intros [Hv Hk]. split; [|done]. split; [done | by apply Hsub].
Qed.

Lemma with_label_elem (c : string) (cols : list string) :
  c ∈ cols -> with_label c cols = cols.
Proof. intros Hc. unfold with_label. by rewrite bool_decide_eq_true_2. Qed.

Lemma filter_iff_elem {A} (P Q : A -> Prop) `{!forall x, Decision (P x)}
    `{!forall x, Decision (Q x)} (l : list A) :
  (forall x, x ∈ l -> P x <-> Q x) -> filter P l = filter Q l.
Proof.
  induction l as [|x l IH]; intros Hiff; [done|].
  rewrite !filter_cons, IH by (intros y Hy; apply Hiff; by right).
  destruct (decide (P x)) as [HP|HP], (decide (Q x)) as [HQ|HQ]; try done;
    exfalso; [apply HQ | apply HP]; by apply (Hiff x); [left|].
Qed.

(** The labels after the root id is attached, and the two parts of the
    column list that [output] builds from them. *)
Lemma key_first_labels (labels : list string) :
  "ID" ∈ labels -> "BeginDate" ∈ labels -> "TermDate" ∈ labels ->
  filter (fun c => c ∈ with_label "RootID" labels) KEY_FIRST
  = ["RootID"; "ID"]
    ++ filter (fun c => c ∈ labels) ["EntityName"; "PharmacyName"]
    ++ ["BeginDate"; "TermDate"].
Proof.
  intros Hid Hbegin Hterm. unfold KEY_FIRST.
  assert (Hin : forall c, c ∈ labels -> c ∈ with_label "RootID" labels)
    by (intros c Hc; apply elem_of_with_label; by right).
  assert (Hout : forall c, c <> "RootID" -> c ∉ labels ->
                           c ∉ with_label "RootID" labels)
    by (intros c Hne Hc [?|?]%elem_of_with_label; done).
  rewrite filter_cons_True by (apply elem_of_with_label; by left).
  rewrite filter_cons_True by by apply Hin.
  destruct (decide ("EntityName" ∈ labels)) as [He|He],
           (decide ("PharmacyName" ∈ labels)) as [Hp|Hp].
  - rewrite !filter_cons_True by first [done | by apply Hin]. done.
  - rewrite (filter_cons_True _ "EntityName") by by apply Hin.
    rewrite (filter_cons_False _ "PharmacyName") by by apply Hout.
    rewrite (filter_cons_True _ "EntityName") by done.
    rewrite (filter_cons_False _ "PharmacyName") by done.
    rewrite !filter_cons_True by by apply Hin. done.
  - rewrite (filter_cons_False _ "EntityName") by by apply Hout.
    rewrite (filter_cons_True _ "PharmacyName") by by apply Hin.
    rewrite (filter_cons_False _ "EntityName") by done.
    rewrite (filter_cons_True _ "PharmacyName") by done.
    rewrite !filter_cons_True by by apply Hin. done.
  - rewrite (filter_cons_False _ "EntityName") by by apply Hout.
    rewrite (filter_cons_False _ "PharmacyName") by by apply Hout.
    rewrite (filter_cons_False _ "EntityName") by done.
    rewrite (filter_cons_False _ "PharmacyName") by done.
    rewrite !filter_cons_True by by apply Hin. done.
Qed.

Lemma rest_labels (labels : list string) :
  filter (fun c => c ∉ filter (fun c => c ∈ with_label "RootID" labels) KEY_FIRST)
         (with_label "RootID" labels)
  = filter (fun c => c ∉ KEY_FIRST) labels.
Proof.
  rewrite (filter_iff_elem _ (fun c => c ∉ KEY_FIRST)).
  - unfold with_label. case_bool_decide as Hroot; [done|].
    rewrite filter_app, filter_cons_False, filter_nil, app_nil_r; [done|].
    intros Hnot. apply Hnot. unfold KEY_FIRST. by left.
  - intros c Hc. rewrite list_elem_of_filter. split.
    + intros Hnot Hk. by apply Hnot.
    + intros Hnot [_ Hk]. by apply Hnot.
Qed.

(** X13. The columns of the returned table. First come RootID and ID, then
    EntityName and PharmacyName when one of the loaded tables has them,
    then BeginDate and TermDate; when all columns are kept, every other
    label of the loaded tables follows, in the order in which the tables
    bring them, source_file among them; otherwise nothing follows. *)
Theorem process_folder_columns (input_dir : string) (prefixes : list string)
    (dedupe_strategy : string) (today_override : option string)
    (keep_all_columns : bool) (out : DataFrame) :
  snd (process_folder input_dir prefixes dedupe_strategy today_override
         keep_all_columns) = inr out ->
  exists labels,
    labels = concat_columns (omap frame_of (input_files input_dir)) /\
    (forall c, c ∈ labels <->
       exists f df, f ∈ input_files input_dir /\ load_file f = inl df /\
                    c ∈ columns df) /\
    Forall (fun c => c ∈ labels) ["ID"; "BeginDate"; "TermDate"; "source_file"] /\
    columns out
    = ["RootID"; "ID"]
      ++ filter (fun c => c ∈ labels) ["EntityName"; "PharmacyName"]
      ++ ["BeginDate"; "TermDate"]
      ++ (if keep_all_columns
          then filter (fun c => c ∉ KEY_FIRST) labels
          else []).
Proof.
  intros (frames & dated & today & Hframes & Hsome & _ & Hdated & _ & ->)
    %process_folder_inr.
  exists (concat_columns frames). split; [by rewrite Hframes|].
  assert (Hlab : Forall (fun c => c ∈ concat_columns frames)
                   ["ID"; "BeginDate"; "TermDate"; "source_file"]).
  { destruct Hsome as (f & df & Hdf & Hload).
    eapply Forall_impl; [apply (loaded_labels f df Hload)|].
    intros c Hc. apply concat_columns_elem. by exists df. }
  split; [|split; [done|]].
  { intros c. rewrite concat_columns_elem, Hframes. split.
    - intros (df & Hdf & Hc).
      apply list_elem_of_omap in Hdf as (f & Hf & Hdf). exists f, df.
      split; [done|]. split; [|done]. unfold frame_of in Hdf.
      by destruct (load_file f); simplify_eq.
    - intros (f & df & Hf & Hload & Hc). exists df. split; [|done].
      apply list_elem_of_omap. exists f. split; [done|].
      unfold frame_of. by rewrite Hload. }
  pose proof Hlab as Hlab'.
  apply Forall_cons in Hlab' as [Hid Hlab'].
  apply Forall_cons in Hlab' as [Hbegin Hlab'].
  apply Forall_cons in Hlab' as [Hterm _].
  set (deduped := dedupe dedupe_strategy _).
  assert (Hcols : columns deduped
                  = with_label "RootID" (concat_columns frames)).
  { unfold deduped. rewrite columns_dedupe.
    change (columns (prepare dated) = with_label "RootID" (concat_columns frames)).
    rewrite columns_prepare.
    destruct (coerce_dates_frame _ _ Hdated) as (-> & _).
    change (columns (pd_concat frames)) with (concat_columns frames).
    rewrite (with_label_elem "BeginDate") by done.
    by rewrite (with_label_elem "TermDate"). }
  unfold output. rewrite Hcols, (key_first_labels _ Hid Hbegin Hterm).
  destruct keep_all_columns; cbn [select_columns columns].
  - rewrite <- (key_first_labels _ Hid Hbegin Hterm), rest_labels.
    rewrite (key_first_labels _ Hid Hbegin Hterm).
    by rewrite <- !app_assoc.
  - by rewrite app_nil_r.
Qed.

(** X14. Keeping all columns changes neither the rows nor their order nor
    the warnings nor the way the run ends: the slim table is the full table
    cut down to its leading canonical columns. *)
Theorem keep_all_columns_only_adds_columns (input_dir : string)
    (prefixes : list string) (dedupe_strategy : string)
    (today_override : option string) :
  fst (process_folder input_dir prefixes dedupe_strategy today_override true)
  = fst (process_folder input_dir prefixes dedupe_strategy today_override false)
  /\
  match
    snd (process_folder input_dir prefixes dedupe_strategy today_override true),
    snd (process_folder input_dir prefixes dedupe_strategy today_override false)
  with
  | inr full, inr slim =>
      columns slim `prefix_of` columns full /\
      rows slim = map (project (columns slim)) (rows full)
  | inl e, inl e' => e = e'
  | _, _ => False
  end.
Proof.
  unfold process_folder. destruct (input_files input_dir); [done|].
  destruct (load_loop _ _ _) as [frames log]. destruct frames as [|df frames];
    [done|].
  cbn [fst snd]. split; [done|]. unfold process_frames.
  destruct (merge_frames _ _ _) as [e|merged]; [done|]. cbv zeta.
  set (deduped := dedupe dedupe_strategy merged). unfold output.
  set (key := filter (fun c => c ∈ columns deduped) KEY_FIRST).
  set (rest := filter (fun c => c ∉ key) (columns deduped)).
  unfold select_columns. cbn [columns rows]. split; [by exists rest|].
  rewrite map_map. apply map_ext. intros r. symmetry.
  apply project_project. intros c Hc. apply elem_of_app. by left.
Qed.

Lemma rows_select_columns (cols : list string) (df : DataFrame) :
  rows (select_columns cols df) = map (project cols) (rows df).
Proof. reflexivity. Qed.

Lemma output_rows_origin (keep_all_columns : bool) (dedupe_strategy : string)
    (prefixes : list string) (today : Z) (frames : list DataFrame)
    (dated : DataFrame) (r : row) :
  (exists f df, df ∈ frames /\ load_file f = inl df) ->
  coerce_dates (pd_concat frames) = inr dated ->
  r ∈ rows (output keep_all_columns
              (dedupe dedupe_strategy
                 (filter_active today
                    (filter_prefixes prefixes (prepare dated))))) ->
  exists r1,
    r1 ∈ rows dated /\
    rget r "RootID" = root_cell (rget r1 "ID") /\
    rget r "ID" = rget r1 "ID" /\
    rget r "BeginDate" = rget r1 "BeginDate" /\
    rget r "TermDate" = rget r1 "TermDate".
Proof.
  intros Hsome Hdated. set (deduped := dedupe dedupe_strategy _).
  rewrite output_select. simpl rows. intros Hr.
  apply list_elem_of_In, in_map_iff in Hr as (r0 & <- & Hr0).
  apply list_elem_of_In, elem_of_dedupe, filtered_row_iff in Hr0 as [Hr0 _].
  rewrite rows_prepare in Hr0.
  apply list_elem_of_In, in_map_iff in Hr0 as (r1 & <- & Hr1).
  exists r1. split; [by apply list_elem_of_In|].
  assert (Hget : forall c, c ∈ ["RootID"; "ID"; "BeginDate"; "TermDate"] ->
    rget (project (output_columns keep_all_columns deduped) (prepare_row r1)) c
    = rget (prepare_row r1) c).
  { intros c Hc. rewrite rget_project. rewrite decide_True; [done|].
    apply output_columns_key; [unfold KEY_FIRST; in_list|].
    unfold deduped. rewrite columns_dedupe.
    change (c ∈ columns (prepare dated)).
    apply (prepared_labels frames); [done | done | in_list]. }
  destruct (prepare_row_fields r1) as (Hroot & Hother).
  rewrite !Hget by in_list. by rewrite Hroot, !Hother.
Qed.

(** X15. In every returned row the RootID is the root id of that row's own
    ID (trimmed, upper-cased), and it is "DSH" or "PED" followed by digits,
    whichever prefixes are configured: configuring other prefixes can only
    empty the table, never bring other ids in. *)
Theorem process_folder_root_of_id (input_dir : string) (prefixes : list string)
    (dedupe_strategy : string) (today_override : option string)
    (keep_all_columns : bool) (out : DataFrame) :
  snd (process_folder input_dir prefixes dedupe_strategy today_override
         keep_all_columns) = inr out ->
  forall r, r ∈ rows out ->
    exists root digits,
      rget r "RootID" = CStr root /\
      extract_root_id (CStr (strip (upper (py_str (rget r "ID"))))) = Some root /\
      digits <> "" /\ all_digits digits = true /\
      (root = "DSH" +:+ digits \/ root = "PED" +:+ digits).
Proof.
  intros (frames & dated & today & _ & Hsome & _ & Hdated & _ & ->)
    %process_folder_inr r Hr.
  pose proof Hr as Hr'.
  apply (output_rows_origin _ _ _ _ _ _ _ Hsome Hdated) in Hr'
    as (r1 & _ & Hroot & Hid & _).
  rewrite output_select in Hr. simpl rows in Hr.
  apply list_elem_of_In, in_map_iff in Hr as (r0 & Heq & Hr0).
  apply list_elem_of_In, elem_of_dedupe, filtered_row_iff in Hr0
    as (_ & (root & Hr0root & _) & _).
  assert (Hcell : rget r "RootID" = CStr root).
  { rewrite <- Heq, rget_project. rewrite decide_True; [done|].
    apply output_columns_key; [unfold KEY_FIRST; in_list|].
    rewrite columns_dedupe.
    change ("RootID" ∈ columns (prepare dated)).
    apply (prepared_labels frames); [done | done | in_list]. }
  rewrite Hcell in Hroot. rewrite Hid. unfold root_cell in Hroot.
  destruct (extract_root_id _) as [root'|] eqn:Hext; [|done].
  injection Hroot as <-.
  destruct (root_id_shape _ _ Hext) as (digits & Hne & Hall & Hshape).
  by exists root, digits.
Qed.

Lemma sorted_distinct_roots (l : list row) :
  StronglySorted (fun a b => row_le a b = true) l ->
  NoDup (map (fun r => rget r "RootID") l) ->
  Forall (fun r => exists x, rget r "RootID" = CStr x) l ->
  StronglySorted
    (fun a b => exists x y, rget a "RootID" = CStr x /\
                            rget b "RootID" = CStr y /\
                            String.compare x y = Lt) l.
Proof.
  induction 1 as [|r l Hl IH Hr]; intros Hnd Hstr; [constructor|].
  simpl in Hnd. apply NoDup_cons in Hnd as [Hnot Hnd].
  apply Forall_cons in Hstr as [[x Hx] Hstr].
  constructor; [by apply IH|].
  apply Forall_forall. intros b Hb.
  rewrite Forall_forall in Hr, Hstr.
  destruct (Hstr b Hb) as [y Hy]. exists x, y. split; [done|]. split; [done|].
  specialize (Hr b Hb). unfold row_le, key_cmp, root_key in Hr.
  rewrite Hx, Hy in Hr. simpl in Hr.
  destruct (String.compare x y) eqn:Hcmp; [|done|done].
  apply String.compare_eq_iff in Hcmp as ->. destruct Hnot.
  rewrite Hx, <- Hy. apply list_elem_of_In, in_map_iff. exists b.
  split; [done | by apply list_elem_of_In].
Qed.

Lemma StronglySorted_map {A B} (R : A -> A -> Prop) (S : B -> B -> Prop)
    (g : A -> B) (l : list A) :
  (forall a b, R a b -> S (g a) (g b)) ->
  StronglySorted R l -> StronglySorted S (map g l).
Proof.
  intros HRS. induction 1 as [|a l Hl IH Ha]; simpl; constructor; [done|].
  apply Forall_forall. intros b Hb.
  apply list_elem_of_In, in_map_iff in Hb as (b0 & <- & Hb0).
  rewrite Forall_forall in Ha. apply HRS, Ha. by apply list_elem_of_In.
Qed.

(** X16. Under "latest-begin" the returned rows are in strictly ascending
    order of RootID (as text, by code point). *)
Theorem latest_begin_output_ascending (input_dir : string)
    (prefixes : list string) (today_override : option string)
    (keep_all_columns : bool) (out : DataFrame) :
  snd (process_folder input_dir prefixes "latest-begin" today_override
         keep_all_columns) = inr out ->
  StronglySorted
    (fun a b => exists x y, rget a "RootID" = CStr x /\
                            rget b "RootID" = CStr y /\
                            String.compare x y = Lt)
    (rows out).
Proof.
  intros (frames & dated & today & _ & Hsome & _ & Hdated & _ & ->)
    %process_folder_inr.
  set (filtered := filter_active _ _).
  rewrite output_select, rows_select_columns.
  set (cols := output_columns keep_all_columns _).
  assert (Hget : forall r, rget (project cols r) "RootID" = rget r "RootID").
  { intros r. rewrite rget_project. rewrite decide_True; [done|].
    apply output_columns_key; [unfold KEY_FIRST; in_list|].
    rewrite columns_dedupe.
    change ("RootID" ∈ columns (prepare dated)).
    apply (prepared_labels frames); [done | done | in_list]. }
  eapply StronglySorted_map; [|apply sorted_distinct_roots].
  - intros a b (x & y & Ha & Hb & Hlt). exists x, y. by rewrite !Hget.
  - apply dedupe_latest_sorted.
  - apply NoDup_dedupe.
  - apply Forall_forall. intros r Hr.
    apply elem_of_dedupe, filtered_row_iff in Hr as (_ & (x & Hx & _) & _).
    by exists x.
Qed.

(* =================================================================== *)
(** ** Strategies other than "latest-begin" *)
(* =================================================================== *)

Lemma process_folder_merged (input_dir : string) (prefixes : list string)
    (dedupe_strategy : string) (today_override : option string)
    (keep_all_columns : bool) (out : DataFrame) :
  snd (process_folder input_dir prefixes dedupe_strategy today_override
         keep_all_columns) = inr out ->
  exists merged,
    merge_frames (omap frame_of (input_files input_dir)) prefixes
      today_override = inr merged /\
    out = output keep_all_columns (dedupe dedupe_strategy merged).
Proof.
  unfold process_folder. destruct (input_files input_dir) as [|f0 files];
    [done|].
  rewrite load_loop_spec. cbn [app].
  destruct (omap frame_of (f0 :: files)) as [|df0 frames]; [done|].
  cbn [snd]. unfold process_frames.
  destruct (merge_frames _ _ _) as [e|merged]; [done|].
  intros [= <-]. by exists merged.
Qed.

Lemma process_folder_error_any_strategy (input_dir : string)
    (prefixes : list string) (s1 s2 : string)
    (today_override : option string) (keep_all_columns : bool) (e : exn) :
  snd (process_folder input_dir prefixes s1 today_override keep_all_columns)
  = inl e ->
  snd (process_folder input_dir prefixes s2 today_override keep_all_columns)
  = inl e.
Proof.
  unfold process_folder. destruct (input_files input_dir); [done|].
  destruct (load_loop _ _ _) as [frames log]. destruct frames; [done|].
  cbn [snd]. unfold process_frames.
  by destruct (merge_frames _ _ _) as [e'|merged].
Qed.

(** C10. Every strategy other than the exact text "latest-begin" keeps the
    first row of every RootID and sorts nothing. The deduplication step
    keeps exactly the rows that no row with the same RootID precedes, in
    their order; the table [process_folder] returns holds exactly these
    rows of the filtered table, in that order, cut down to the output
    columns; the run is the run of "first"; and an error it ends with is the
    error every other strategy ends with, so no strategy text makes it
    fail. *)
Theorem other_strategy_keeps_first (dedupe_strategy : string) :
  dedupe_strategy <> "latest-begin" ->
  (forall merged,
      dedupe dedupe_strategy merged = drop_duplicates merged /\
      rows (dedupe dedupe_strategy merged) `sublist_of` rows merged /\
      (forall r,
          r ∈ rows (dedupe dedupe_strategy merged) <->
          exists before after,
            rows merged = before ++ r :: after /\
            Forall (fun r' => rget r' "RootID" <> rget r "RootID") before)) /\
  (forall input_dir prefixes today_override keep_all_columns out,
      snd (process_folder input_dir prefixes dedupe_strategy today_override
             keep_all_columns) = inr out ->
      exists merged kept,
        merge_frames (omap frame_of (input_files input_dir)) prefixes
          today_override = inr merged /\
        rows out = map (project (columns out)) kept /\
        kept `sublist_of` rows merged /\
        NoDup (map (fun r => rget r "RootID") kept) /\
        (forall r,
            r ∈ kept <->
            exists before after,
              rows merged = before ++ r :: after /\
              Forall (fun r' => rget r' "RootID" <> rget r "RootID") before)) /\
  (forall input_dir prefixes today_override keep_all_columns,
      process_folder input_dir prefixes dedupe_strategy today_override
        keep_all_columns
      = process_folder input_dir prefixes "first" today_override
          keep_all_columns) /\
  (forall input_dir prefixes today_override keep_all_columns other e,
      snd (process_folder input_dir prefixes dedupe_strategy today_override
             keep_all_columns) = inl e ->
      snd (process_folder input_dir prefixes other today_override
             keep_all_columns) = inl e).
Proof.
  intros Hne.
  assert (Hfirst : forall merged r,
    r ∈ drop_dups_from [] (rows merged) <->
    exists before after,
      rows merged = before ++ r :: after /\
      Forall (fun r' => rget r' "RootID" <> rget r "RootID") before).
  { intros merged r. rewrite drop_dups_from_elem. split.
    - intros (b & a & H & _ & Hb). by exists b, a.
    - intros (b & a & H & Hb). exists b, a.
      split; [done|]. split; [apply not_elem_of_nil | done]. }
  split; [|split; [|split]].
  - intros merged. rewrite (rows_dedupe_other _ _ Hne).
    split; [done|]. split; [apply drop_dups_from_sublist|].
    intros r. apply Hfirst.
  - intros input_dir prefixes today_override keep_all_columns out
      (merged & Hmerged & ->)%process_folder_merged.
    exists merged, (drop_dups_from [] (rows merged)).
    split; [done|]. rewrite output_select, (rows_dedupe_other _ _ Hne).
    split; [done|]. split; [apply drop_dups_from_sublist|].
    split; [apply drop_dups_from_NoDup|]. intros r. apply Hfirst.
  - intros input_dir prefixes today_override keep_all_columns.
    unfold process_folder. destruct (input_files input_dir); [done|].
    destruct (load_loop _ _ _) as [frames log]. destruct frames; [done|].
    f_equal. unfold process_frames.
    destruct (merge_frames _ _ _) as [e|merged]; [done|]. cbv zeta.
    by rewrite (rows_dedupe_other dedupe_strategy _ Hne).
  - intros input_dir prefixes today_override keep_all_columns other e.
    apply process_folder_error_any_strategy.
Qed.

(* =================================================================== *)
(** ** Date coercion *)
(* =================================================================== *)





(* =================================================================== *)
(** ** Paths: the name recorded in [source_file] *)
(* =================================================================== *)

Lemma append_assoc (x y z : string) : (x +:+ y) +:+ z = x +:+ (y +:+ z).
Proof.
  induction x as [|c x IH]; [done|].
  change (String c ((x +:+ y) +:+ z) = String c (x +:+ (y +:+ z))).
  by rewrite IH.
Qed.

Lemma rev_onto_append (acc s : string) :
  rev_onto acc s = rev_onto "" s +:+ acc.
Proof.
  revert acc. induction s as [|c s IH]; intros acc; [done|].
  change (rev_onto (String c acc) s = rev_onto (String c "") s +:+ acc).
  rewrite (IH (String c acc)), (IH (String c "")).
  by rewrite append_assoc.
Qed.

Lemma rev_onto_rev_onto (acc s : string) :
  rev_onto "" (rev_onto acc s) = rev_onto s acc.
Proof.
  revert acc. induction s as [|c s IH]; intros acc; [done|].
  change (rev_onto "" (rev_onto (String c acc) s) = rev_onto (String c s) acc).
  by rewrite IH.
Qed.

Lemma reversed_involutive (s : string) : reversed (reversed s) = s.
Proof. unfold reversed. by rewrite rev_onto_rev_onto. Qed.

Lemma startswith_cons (a b : ascii) (p s : string) :
  startswith (String a p) (String b s)
  = if ascii_dec a b then startswith p s else false.
Proof. reflexivity. Qed.

Lemma ci_startswith_cons (a b : ascii) (p s : string) :
  ci_startswith (String a p) (String b s)
  = if ascii_dec (to_lower a) (to_lower b) then ci_startswith p s else false.
Proof. reflexivity. Qed.

Lemma endswith_slash (dir : string) :
  endswith "/" dir = true -> exists p, dir = p +:+ "/".
Proof.
  unfold endswith. change (reversed "/") with "/".
  destruct (reversed dir) as [|c q] eqn:Hrev; [done|].
  rewrite startswith_cons.
  destruct (ascii_dec "/" c) as [<-|]; [|done]. intros _.
  assert (Hdir : dir = reversed (String "/" q))
    by (rewrite <- Hrev; symmetry; apply reversed_involutive).
  exists (reversed q). rewrite Hdir.
  change (rev_onto "/" q = rev_onto "" q +:+ "/"). apply rev_onto_append.
Qed.

Lemma contains_slash_cons (c : ascii) (s : string) :
  contains "/" (String c s) = false ->
  c <> "/"%char /\ contains "/" s = false.
Proof.
  change (contains "/" (String c s))
    with (startswith "/" (String c s) || contains "/" s)%bool.
  intros [Hc Hs]%orb_false_iff. split; [|done]. intros ->.
  unfold startswith in Hc. simpl in Hc. by destruct s.
Qed.

Lemma contains_slash_app (x y : string) :
  contains "/" (x +:+ "/" +:+ y) = true.
Proof.
  induction x as [|c x IH].
  - change (contains "/" ("" +:+ "/" +:+ y))
      with (startswith "/" (String "/" y) || contains "/" y)%bool.
    unfold startswith. simpl. by destruct y.
  - change (contains "/" (String c x +:+ "/" +:+ y))
      with (startswith "/" (String c (x +:+ "/" +:+ y))
            || contains "/" (x +:+ "/" +:+ y))%bool.
    rewrite IH. apply orb_true_r.
Qed.

Lemma path_basename_plain (f : string) :
  contains "/" f = false -> path_basename f = f.
Proof.
  destruct f as [|c f]; [done|].
  intros [Hc Hf]%contains_slash_cons. simpl. rewrite Hf.
  by destruct (Ascii.eqb_spec c "/").
Qed.

Lemma path_basename_after_slash (p f : string) :
  contains "/" f = false -> path_basename (p +:+ "/" +:+ f) = f.
Proof.
  intros Hf. induction p as [|c p IH].
  - change ("" +:+ "/" +:+ f) with (String "/" f). simpl. by rewrite Hf.
  - change (String c p +:+ "/" +:+ f) with (String c (p +:+ "/" +:+ f)).
    cbn [path_basename]. by rewrite contains_slash_app.
Qed.

(** X17. For a directory entry (a name without "/") the base name of the
    joined path is the entry itself, whatever the directory text: the
    source_file column records the file name as the directory lists it. *)
Theorem path_basename_of_join (input_dir f : string) :
  contains "/" f = false ->
  path_basename (path_join input_dir f) = f.
Proof.
  intros Hf. unfold path_join.
  destruct (startswith "/" f) eqn:Habs; [by apply path_basename_plain|].
  destruct input_dir as [|c dir]; [by apply path_basename_plain|].
  cbn [truthy negb orb].
  destruct (endswith "/" (String c dir)) eqn:Hend.
  - apply endswith_slash in Hend as [p ->].
    rewrite append_assoc. by apply path_basename_after_slash.
  - by apply path_basename_after_slash.
Qed.

(* =================================================================== *)
(** ** Root id of cells that are not text *)
(* =================================================================== *)

Lemma digit_not_token_start (c : ascii) :
  is_digit c = true \/ c = "-"%char ->
  is_space c = false /\ to_lower c <> "d"%char /\ to_lower c <> "p"%char.
Proof.
  intros [H| ->]; [|by vm_compute].
  destruct c as [[] [] [] [] [] [] [] []];
    first [discriminate H | by vm_compute].
Qed.

Lemma no_root_id_from (c : ascii) (s : string) :
  is_digit c = true \/ c = "-"%char ->
  extract_root_id (CStr (String c s)) = None.
Proof.
  intros Hc. destruct (digit_not_token_start c Hc) as (Hsp & Hd & Hp).
  unfold extract_root_id, strip. cbn [lstrip]. rewrite Hsp.
  rewrite (rstrip_cons_keep c s Hsp), match_root_regex.
  unfold spec_pattern_match. cbn [List.find]. unfold token_matches.
  replace (ci_startswith "DSH" (String c (rstrip s))) with false.
  - replace (ci_startswith "PED" (String c (rstrip s))) with false; [done|].
    rewrite ci_startswith_cons. change (to_lower "P") with "p"%char.
    by destruct (ascii_dec "p" (to_lower c)).
  - rewrite ci_startswith_cons. change (to_lower "D") with "d"%char.
    by destruct (ascii_dec "d" (to_lower c)).
Qed.

Lemma string_of_uint_head (d : Decimal.uint) :
  d <> Decimal.Nil ->
  exists c s, NilEmpty.string_of_uint d = String c s /\ is_digit c = true.
Proof. destruct d; intros H; try done; by eexists _, _. Qed.

Lemma string_of_int_head (n : Z) :
  exists c s,
    NilZero.string_of_int (Z.to_int n) = String c s /\
    (is_digit c = true \/ c = "-"%char).
Proof.
  assert (Huint : forall d,
    exists c s, NilZero.string_of_uint d = String c s /\ is_digit c = true).
  { intros d. unfold NilZero.string_of_uint.
    destruct d; try (by eexists _, _). }
  destruct (Z.to_int n) as [d|d]; simpl.
  - destruct (Huint d) as (c & s & -> & Hc). exists c, s. by split; [|left].
  - eexists _, _. split; [done | by right].
Qed.

(** X18. A cell that is not text never gives a root id: neither a blank
    cell nor any whole number, so an ID column of numbers yields no rows. *)
Theorem extract_root_id_not_text (n : Z) :
  extract_root_id CNull = None /\
  extract_root_id (CInt n) = None /\
  root_cell CNull = CNull /\
  root_cell (CInt n) = CNull.
Proof.
  destruct (string_of_int_head n) as (c & s & Hs & Hc).
  assert (Hint : extract_root_id (CInt n) = None).
  { unfold extract_root_id. cbn [notna py_str]. rewrite Hs.
    apply (no_root_id_from c s Hc). }
  split; [done|]. split; [done|]. split; [done|].
  unfold root_cell. cbn [py_str]. rewrite Hs.
  assert (Hup : exists c' s', strip (upper (String c s)) = String c' s' /\
                  (is_digit c' = true \/ c' = "-"%char)).
  { assert (Hcu : to_upper c = c).
    { destruct Hc as [Hc| ->]; [by apply to_upper_digit | done]. }
    destruct (digit_not_token_start c Hc) as (Hsp & _).
    unfold strip, upper. cbn [map_chars lstrip]. rewrite Hcu, Hsp.
    rewrite (rstrip_cons_keep c _ Hsp). by eexists _, _. }
  destruct Hup as (c' & s' & -> & Hc').
  by rewrite (no_root_id_from c' s' Hc').
Qed.

End Program.

(* ===================================================================== *)
(** ** Concrete runs *)
(* ===================================================================== *)

Definition mk_row (cells : list (string * cell)) : row := list_to_map cells.

Definition day (d : Z) : cell := CTs (naive (d * DAY_NS)).

Definition demo_str_of_timestamp (t : timestamp) : string := "Timestamp".

(** 2024-06-01 is day 19875 after the epoch. *)
Definition demo_parse_datetime (v : cell) : option timestamp :=
  match v with
  | CStr "2024-06-01" => Some (naive (19875 * DAY_NS))
  | _ => None
  end.

(** The column conversion of the runs below: aware timestamps whose UTC
    offsets (in seconds) do not agree are an error; otherwise a timestamp
    stays what it is, the one text [demo_parse_datetime] knows is read, and
    anything else is NaT. *)
Definition utc_offsets (series : list cell) : list Z :=
  omap (fun v => match v with CTs t => tz t | _ => None end) series.

Definition mixed_offsets (series : list cell) : bool :=
  match utc_offsets series with
  | [] => false
  | o :: os => negb (forallb (Z.eqb o) os)
  end.

Definition demo_to_datetime (series : list cell)
  : pandas_error + (nat -> option timestamp) :=
  if mixed_offsets series then inl PdValueError
  else inr (fun i => match series !! i with
                     | Some (CTs t) => Some t
                     | Some v => demo_parse_datetime v
                     | None => None
                     end).

Definition sheet_a : DataFrame :=
  {| columns := ["340B ID"; "Entity Name"; "Contract Begin Date";
                 "Contract Term Date"];
     rows := [ mk_row [("340B ID", CStr "DSH001234");
                       ("Entity Name", CStr "General Hospital");
                       ("Contract Begin Date", day 19000)];
               mk_row [("340B ID", CStr "PED77");
                       ("Entity Name", CStr "Kids Clinic");
                       ("Contract Begin Date", day 19100);
                       ("Contract Term Date", day 20000)] ] |}.

Definition sheet_b : DataFrame :=
  {| columns := ["340BID"; "Pharmacy"; "Begin Date"; "Term Date"];
     rows := [ mk_row [("340BID", CStr "PED88");
                       ("Pharmacy", CStr "Corner Drugs");
                       ("Begin Date", day 18000);
                       ("Term Date", day 19874)];
               mk_row [("340BID", CStr " dsh001234-A");
                       ("Pharmacy", CStr "Main Street Rx");
                       ("Begin Date", day 19500)] ] |}.

(** A sheet that has both a "340B ID" and an "ID" column. *)
Definition sheet_c : DataFrame :=
  {| columns := ["340B ID"; "ID"; "Contract Begin Date"; "Contract Term Date"];
     rows := [ mk_row [("340B ID", CStr "DSH001234");
                       ("ID", CInt 42);
                       ("Contract Begin Date", day 19000);
                       ("Contract Term Date", day 20000)] ] |}.

(** A sheet whose begin dates carry two different UTC offsets. *)
Definition sheet_d : DataFrame :=
  {| columns := ["340B ID"; "Begin Date"; "Term Date"];
     rows := [ mk_row [("340B ID", CStr "DSH5");
                       ("Begin Date",
                        CTs {| wall := 19000 * DAY_NS; tz := Some 3600 |});
                       ("Term Date", day 20000)];
               mk_row [("340B ID", CStr "PED6");
                       ("Begin Date",
                        CTs {| wall := 19100 * DAY_NS; tz := Some 7200 |});
                       ("Term Date", day 20000)] ] |}.

(** The raw grid of a sheet whose labels stand in row [at]: positions as
    labels, [at] rows of title text, the label row, then the data. *)
Definition raw_grid (at_row : nat) (sheet : DataFrame) : DataFrame :=
  let positions := map (fun i => NilZero.string_of_uint (Nat.to_uint i))
                       (seq 0 (length (columns sheet))) in
  let as_row (cells : list cell) : row :=
    list_to_map (zip positions cells) in
  {| columns := positions;
     rows := replicate at_row (as_row [CStr "340B export"])
             ++ as_row (map CStr (columns sheet))
             :: map (fun r => as_row (map (rget r) (columns sheet))) (rows sheet) |}.

Definition demo_read_excel (path : string) (header : option nat)
    (nrows : option nat) : option DataFrame :=
  let sheet_at (at_row : nat) (sheet : DataFrame) :=
    match header with
    | None => Some (raw_grid at_row sheet)
    | Some h => if Nat.eqb h at_row then Some sheet else None
    end in
  if String.eqb path "in/a.xlsx" then sheet_at 0%nat sheet_a
  else if String.eqb path "in/b.XLSX" then sheet_at 3%nat sheet_b
  else if String.eqb path "in/c.xlsx" then sheet_at 0%nat sheet_c
  else if String.eqb path "tz/d.xlsx" then sheet_at 0%nat sheet_d
  else None.

Definition demo_listdir (dir : string) : list string :=
  if String.eqb dir "in"
  then ["a.xlsx"; "~$a.xlsx"; "b.XLSX"; "notes.txt"; "broken.xlsx"]
  else if String.eqb dir "tz" then ["d.xlsx"; "broken.xlsx"]
  else [].

Definition demo_process_folder :=
  process_folder demo_str_of_timestamp demo_parse_datetime demo_to_datetime
    demo_read_excel demo_listdir 19875.

(** The table of the run over the directory "in" with the default
    prefixes, "latest-begin" and the reference date 2024-06-01. *)
Definition demo_out : DataFrame :=
  match snd (demo_process_folder "in" ["DSH"; "PED"] "latest-begin"
               (Some "2024-06-01") false) with
  | inr out => out
  | inl _ => {| columns := []; rows := [] |}
  end.

Example demo_out_cells :
  (columns demo_out, map (fun r => map (rget r) (columns demo_out)) (rows demo_out))
  = (["RootID"; "ID"; "EntityName"; "PharmacyName"; "BeginDate"; "TermDate"],
     [ [CStr "DSH001234"; CStr " dsh001234-A"; CNull; CStr "Main Street Rx";
        day 19500; CNull];
       [CStr "PED77"; CStr "PED77"; CStr "Kids Clinic"; CNull;
        day 19100; day 20000] ]).
Proof. vm_compute. reflexivity. Qed.

Example demo_log :
  fst (demo_process_folder "in" ["DSH"; "PED"] "latest-begin"
         (Some "2024-06-01") false)
  = [WarnReadFailed "in/broken.xlsx"].
Proof. vm_compute. reflexivity. Qed.

Example demo_no_files :
  snd (demo_process_folder "elsewhere" ["DSH"; "PED"] "first" None false)
  = inl (SystemExit "No .xlsx files found in: elsewhere").
Proof. vm_compute. reflexivity. Qed.

(** The output invariants at the run above. *)
Lemma process_folder_output_invariants_demo :
  snd (process_folder demo_str_of_timestamp demo_parse_datetime demo_to_datetime
         demo_read_excel demo_listdir 19875
         "in" ["DSH"; "PED"] "latest-begin" (Some "2024-06-01") false)
  = inr demo_out /\
  exists today,
    reference_date demo_parse_datetime 19875 (Some "2024-06-01") = inr today /\
    (forall r,
        r ∈ rows demo_out ->
        (exists root, rget r "RootID" = CStr root /\
           exists p, p ∈ ["DSH"; "PED"] /\ startswith (upper p) root = true) /\
        (rget r "TermDate" = CNull \/
         exists t, rget r "TermDate" = CTs t /\ wall today <= wall t)) /\
    NoDup (map (fun r => rget r "RootID") (rows demo_out)).
Proof.
  split; [vm_compute; reflexivity|].
  apply (process_folder_output_invariants demo_str_of_timestamp
           demo_parse_datetime demo_to_datetime demo_read_excel demo_listdir 19875
           "in" ["DSH"; "PED"] "latest-begin" (Some "2024-06-01") false demo_out).
  vm_compute. reflexivity.
Defined.

(** A strategy text nobody defined, "newest": the run over the directory
    "in" keeps the first row of DSH001234 (the one of a.xlsx, begun on day
    19000) where "latest-begin" keeps the one begun on day 19500. *)
Definition demo_out_newest : DataFrame :=
  match snd (demo_process_folder "in" ["DSH"; "PED"] "newest"
               (Some "2024-06-01") false) with
  | inr out => out
  | inl _ => {| columns := []; rows := [] |}
  end.

Example demo_out_newest_cells :
  (columns demo_out_newest,
   map (fun r => map (rget r) (columns demo_out_newest)) (rows demo_out_newest))
  = (["RootID"; "ID"; "EntityName"; "PharmacyName"; "BeginDate"; "TermDate"],
     [ [CStr "DSH001234"; CStr "DSH001234"; CStr "General Hospital"; CNull;
        day 19000; CNull];
       [CStr "PED77"; CStr "PED77"; CStr "Kids Clinic"; CNull;
        day 19100; day 20000] ]).
Proof. vm_compute. reflexivity. Qed.

Lemma other_strategy_keeps_first_demo :
  "newest" <> "latest-begin" /\
  snd (process_folder demo_str_of_timestamp demo_parse_datetime
         demo_to_datetime demo_read_excel demo_listdir 19875
         "in" ["DSH"; "PED"] "newest" (Some "2024-06-01") false)
  = inr demo_out_newest /\
  (exists merged kept,
      merge_frames demo_str_of_timestamp demo_parse_datetime demo_to_datetime
        19875
        (omap (frame_of demo_str_of_timestamp demo_read_excel)
              (input_files demo_listdir "in"))
        ["DSH"; "PED"] (Some "2024-06-01") = inr merged /\
      rows demo_out_newest = map (project (columns demo_out_newest)) kept /\
      kept `sublist_of` rows merged /\
      NoDup (map (fun r => rget r "RootID") kept) /\
      (forall r,
          r ∈ kept <->
          exists before after,
            rows merged = before ++ r :: after /\
            Forall (fun r' => rget r' "RootID" <> rget r "RootID") before)) /\
  (forall input_dir prefixes today_override keep_all_columns,
      process_folder demo_str_of_timestamp demo_parse_datetime
        demo_to_datetime demo_read_excel demo_listdir 19875
        input_dir prefixes "newest" today_override keep_all_columns
      = process_folder demo_str_of_timestamp demo_parse_datetime
          demo_to_datetime demo_read_excel demo_listdir 19875
          input_dir prefixes "first" today_override keep_all_columns).
Proof.
  assert (Hne : "newest" <> "latest-begin") by discriminate.
  assert (Hrun :
    snd (process_folder demo_str_of_timestamp demo_parse_datetime
           demo_to_datetime demo_read_excel demo_listdir 19875
           "in" ["DSH"; "PED"] "newest" (Some "2024-06-01") false)
    = inr demo_out_newest) by (vm_compute; reflexivity).
  destruct (other_strategy_keeps_first demo_str_of_timestamp
              demo_parse_datetime demo_to_datetime demo_read_excel
              demo_listdir 19875 "newest" Hne) as (_ & Hkept & Hsame & _).
  split; [exact Hne|]. split; [exact Hrun|].
  split; [exact (Hkept _ _ _ _ _ Hrun) | exact Hsame].
Defined.

(** With the prefix set {ABC} configured, the pattern built from the
    configured tokens would find "ABC123" in the id "ABC123", but the
    program derives a blank RootID; with {DSH} configured the pattern would
    find nothing in "PED12", but the program derives "PED12". *)
Lemma root_id_not_from_configured_prefixes :
  spec_root_id ["ABC"] "ABC123" = Some "ABC123" /\
  column (prepare demo_str_of_timestamp
            {| columns := ["ID"]; rows := [mk_row [("ID", CStr "ABC123")]] |})
         "RootID" = [CNull] /\
  spec_root_id ["DSH"] "PED12" = None /\
  column (prepare demo_str_of_timestamp
            {| columns := ["ID"]; rows := [mk_row [("ID", CStr "PED12")]] |})
         "RootID" = [CStr "PED12"].
Proof. repeat split; vm_compute; reflexivity. Qed.


(** A column whose timestamps carry two different UTC offsets: the coercion
    raises, and so does the run over the directory "tz", after the warning
    for the file that cannot be read. *)
Example coerce_datetime_mixed_offsets :
  coerce_datetime demo_to_datetime (column sheet_d "Begin Date")
  = inl ValueError /\
  demo_process_folder "tz" ["DSH"; "PED"] "latest-begin" None false
  = ([WarnReadFailed "tz/broken.xlsx"], inl ValueError).
Proof. split; vm_compute; reflexivity. Qed.

(** C5. The loader accepts the sheet with the columns "340B ID", "ID",
    "Contract Begin Date" and "Contract Term Date"; the table it hands on
    has lost the original "ID" column (the cell 42): the alias ID, a copy
    of "340B ID", took its place. *)
Theorem alias_overwrites_original_column :
  read_with_auto_header demo_str_of_timestamp demo_read_excel "in/c.xlsx"
  = Some sheet_c /\
  column sheet_c "ID" = [CInt 42] /\
  exists df,
    load_file demo_str_of_timestamp demo_read_excel "in/c.xlsx" = inl df /\
    columns df = ["340B ID"; "ID"; "Contract Begin Date"; "Contract Term Date";
                  "BeginDate"; "TermDate"; "source_file"] /\
    column df "340B ID" = [CStr "DSH001234"] /\
    column df "ID" = [CStr "DSH001234"] /\
    column df "source_file" = [CStr "c.xlsx"].
Proof.
  split; [vm_compute; reflexivity|]. split; [vm_compute; reflexivity|].
  eexists. split; [vm_compute; reflexivity|].
  repeat split; vm_compute; reflexivity.
Qed.

(* ===================================================================== *)
(** ** Concrete runs for the properties above *)
(* ===================================================================== *)

(** The exact label "BEGIN  date" is answered although the earlier label
    "Start Date (old)" contains a candidate. *)
Lemma best_match_column_prefers_exact_demo :
  "BEGIN  date" ∈ ["Start Date (old)"; "BEGIN  date"] /\
  "Begin Date" ∈ ["Contract Begin Date"; "Begin Date"; "Start Date"] /\
  normalize "BEGIN  date" = normalize "Begin Date" /\
  exists c cand,
    best_match_column ["Start Date (old)"; "BEGIN  date"]
      ["Contract Begin Date"; "Begin Date"; "Start Date"] = Some c /\
    c ∈ ["Start Date (old)"; "BEGIN  date"] /\
    cand ∈ ["Contract Begin Date"; "Begin Date"; "Start Date"] /\
    normalize c = normalize cand.
Proof.
  assert (H1 : "BEGIN  date" ∈ ["Start Date (old)"; "BEGIN  date"])
    by (apply list_elem_of_In; simpl; tauto).
  assert (H2 : "Begin Date" ∈ ["Contract Begin Date"; "Begin Date"; "Start Date"])
    by (apply list_elem_of_In; simpl; tauto).
  assert (H3 : normalize "BEGIN  date" = normalize "Begin Date")
    by reflexivity.
  split; [exact H1|]. split; [exact H2|]. split; [exact H3|].
  exact (best_match_column_prefers_exact _ _ _ _ H1 H2 H3).
Defined.

Lemma extract_root_id_shape_demo :
  extract_root_id demo_str_of_timestamp (CStr " dsh001234-A") = Some "DSH001234"
  /\
  exists digits,
    digits <> "" /\ all_digits digits = true /\
    ("DSH001234" = "DSH" +:+ digits \/ "DSH001234" = "PED" +:+ digits).
Proof.
  assert (H : extract_root_id demo_str_of_timestamp (CStr " dsh001234-A")
              = Some "DSH001234") by (vm_compute; reflexivity).
  split; [exact H|].
  exact (extract_root_id_shape demo_str_of_timestamp _ _ H).
Defined.

Lemma extract_root_id_fixed_point_demo :
  extract_root_id demo_str_of_timestamp (CStr "ped77 (closed)") = Some "PED77"
  /\
  extract_root_id demo_str_of_timestamp (CStr "PED77") = Some "PED77".
Proof.
  assert (H : extract_root_id demo_str_of_timestamp (CStr "ped77 (closed)")
              = Some "PED77") by (vm_compute; reflexivity).
  split; [exact H|].
  exact (extract_root_id_fixed_point demo_str_of_timestamp _ _ H).
Defined.

Lemma read_with_auto_header_no_blanks_demo :
  read_with_auto_header demo_str_of_timestamp demo_read_excel "in/a.xlsx"
  = Some sheet_a /\
  ((forall c, c ∈ columns sheet_a ->
      exists r, r ∈ rows sheet_a /\ notna (rget r c) = true) /\
   (forall r, r ∈ rows sheet_a ->
      exists c, c ∈ columns sheet_a /\ notna (rget r c) = true) /\
   exists preview raw,
     demo_read_excel "in/a.xlsx" None (Some 20%nat) = Some preview /\
     demo_read_excel "in/a.xlsx"
       (Some (header_index demo_str_of_timestamp preview)) None = Some raw /\
     columns sheet_a `sublist_of` columns raw /\
     forall r, r ∈ rows sheet_a ->
       exists r0, r0 ∈ rows raw /\ r = project (columns sheet_a) r0).
Proof.
  assert (H : read_with_auto_header demo_str_of_timestamp demo_read_excel
                "in/a.xlsx" = Some sheet_a) by (vm_compute; reflexivity).
  split; [exact H|].
  exact (read_with_auto_header_no_blanks demo_str_of_timestamp demo_read_excel
           "in/a.xlsx" sheet_a H).
Defined.

(** A sheet that has its header and nothing below it. *)
Definition header_only_read_excel (path : string) (header : option nat)
    (nrows : option nat) : option DataFrame :=
  Some {| columns := match header with
                     | None => ["0"; "1"; "2"]
                     | Some _ => ["340B ID"; "Begin Date"; "Term Date"]
                     end;
          rows := match header with
                  | None => [mk_row [("0", CStr "340B ID");
                                     ("1", CStr "Begin Date");
                                     ("2", CStr "Term Date")]]
                  | Some _ => []
                  end |}.

Lemma load_file_no_rows_skipped_demo :
  read_with_auto_header demo_str_of_timestamp header_only_read_excel
    "in/empty.xlsx" = Some {| columns := []; rows := [] |} /\
  rows {| columns := []; rows := [] |} = [] /\
  load_file demo_str_of_timestamp header_only_read_excel "in/empty.xlsx"
  = inr (WarnMissingColumns (path_basename "in/empty.xlsx") None None None).
Proof.
  assert (H : read_with_auto_header demo_str_of_timestamp
                header_only_read_excel "in/empty.xlsx"
              = Some {| columns := []; rows := [] |})
    by (vm_compute; reflexivity).
  split; [exact H|]. split; [reflexivity|].
  exact (load_file_no_rows_skipped demo_str_of_timestamp
           header_only_read_excel "in/empty.xlsx" _ H eq_refl).
Defined.

(** The table the loader hands on for the sheet a.xlsx. *)
Definition demo_loaded_a : DataFrame :=
  match load_file demo_str_of_timestamp demo_read_excel "in/a.xlsx" with
  | inl df => df
  | inr _ => {| columns := []; rows := [] |}
  end.

Lemma load_file_aliases_are_copies_demo :
  read_with_auto_header demo_str_of_timestamp demo_read_excel "in/a.xlsx"
  = Some sheet_a /\
  load_file demo_str_of_timestamp demo_read_excel "in/a.xlsx"
  = inl demo_loaded_a /\
  exists cid cb ct,
    best_match_column (columns sheet_a) (possible "id") = Some cid /\
    best_match_column (columns sheet_a) (possible "begin") = Some cb /\
    best_match_column (columns sheet_a) (possible "term") = Some ct /\
    column demo_loaded_a "ID" = column sheet_a cid /\
    column demo_loaded_a "BeginDate" = column sheet_a cb /\
    column demo_loaded_a "TermDate" = column sheet_a ct /\
    (forall ce,
        best_match_column (columns sheet_a) (possible "entity") = Some ce ->
        column demo_loaded_a "EntityName" = column sheet_a ce) /\
    (forall cp,
        best_match_column (columns sheet_a) (possible "pharmacy") = Some cp ->
        column demo_loaded_a "PharmacyName" = column sheet_a cp) /\
    Forall (fun c => c ∈ columns demo_loaded_a)
           ["ID"; "BeginDate"; "TermDate"; "source_file"].
Proof.
  assert (H1 : read_with_auto_header demo_str_of_timestamp demo_read_excel
                 "in/a.xlsx" = Some sheet_a) by (vm_compute; reflexivity).
  assert (H2 : load_file demo_str_of_timestamp demo_read_excel "in/a.xlsx"
               = inl demo_loaded_a) by (vm_compute; reflexivity).
  split; [exact H1|]. split; [exact H2|].
  exact (load_file_aliases_are_copies demo_str_of_timestamp demo_read_excel
           "in/a.xlsx" sheet_a demo_loaded_a H1 H2).
Defined.

Lemma reference_date_is_midnight_demo :
  reference_date demo_parse_datetime 19875 (Some "2024-06-01")
  = inr (naive (19875 * DAY_NS)) /\
  (wall (naive (19875 * DAY_NS)) mod DAY_NS = 0 /\
   (forall t : timestamp,
       ts_ge (wall (naive (19875 * DAY_NS))) (CTs t)
       = (wall (naive (19875 * DAY_NS)) / DAY_NS <=? wall t / DAY_NS)) /\
   reference_date demo_parse_datetime 19875 (Some "")
   = reference_date demo_parse_datetime 19875 None).
Proof.
  assert (H : reference_date demo_parse_datetime 19875 (Some "2024-06-01")
              = inr (naive (19875 * DAY_NS))) by (vm_compute; reflexivity).
  split; [exact H|].
  exact (reference_date_is_midnight demo_parse_datetime 19875 _ _ H).
Defined.

Lemma demo_run_returns :
  snd (process_folder demo_str_of_timestamp demo_parse_datetime demo_to_datetime
         demo_read_excel demo_listdir 19875
         "in" ["DSH"; "PED"] "latest-begin" (Some "2024-06-01") false)
  = inr demo_out.
Proof. vm_compute. reflexivity. Defined.

(** The run over the directory "in" with every column kept. *)
Definition demo_out_full : DataFrame :=
  match snd (demo_process_folder "in" ["DSH"; "PED"] "latest-begin"
               (Some "2024-06-01") true) with
  | inr out => out
  | inl _ => {| columns := []; rows := [] |}
  end.

Example demo_out_full_columns :
  columns demo_out_full
  = ["RootID"; "ID"; "EntityName"; "PharmacyName"; "BeginDate"; "TermDate";
     "340B ID"; "Entity Name"; "Contract Begin Date"; "Contract Term Date";
     "source_file"; "340BID"; "Pharmacy"; "Begin Date"; "Term Date"].
Proof. vm_compute. reflexivity. Qed.

Lemma process_folder_columns_demo :
  snd (process_folder demo_str_of_timestamp demo_parse_datetime
         demo_to_datetime demo_read_excel demo_listdir 19875
         "in" ["DSH"; "PED"] "latest-begin" (Some "2024-06-01") true)
  = inr demo_out_full /\
  exists labels,
    labels = concat_columns
               (omap (frame_of demo_str_of_timestamp demo_read_excel)
                     (input_files demo_listdir "in")) /\
    (forall c, c ∈ labels <->
       exists f df, f ∈ input_files demo_listdir "in" /\
                    load_file demo_str_of_timestamp demo_read_excel f = inl df /\
                    c ∈ columns df) /\
    Forall (fun c => c ∈ labels) ["ID"; "BeginDate"; "TermDate"; "source_file"] /\
    columns demo_out_full
    = ["RootID"; "ID"]
      ++ filter (fun c => c ∈ labels) ["EntityName"; "PharmacyName"]
      ++ ["BeginDate"; "TermDate"]
      ++ filter (fun c => c ∉ KEY_FIRST) labels.
Proof.
  assert (Hrun :
    snd (process_folder demo_str_of_timestamp demo_parse_datetime
           demo_to_datetime demo_read_excel demo_listdir 19875
           "in" ["DSH"; "PED"] "latest-begin" (Some "2024-06-01") true)
    = inr demo_out_full) by (vm_compute; reflexivity).
  split; [exact Hrun|].
  exact (process_folder_columns demo_str_of_timestamp demo_parse_datetime
           demo_to_datetime demo_read_excel demo_listdir 19875 "in"
           ["DSH"; "PED"] "latest-begin" (Some "2024-06-01") true
           demo_out_full Hrun).
Defined.

Lemma process_folder_root_of_id_demo :
  snd (process_folder demo_str_of_timestamp demo_parse_datetime demo_to_datetime
         demo_read_excel demo_listdir 19875
         "in" ["DSH"; "PED"] "latest-begin" (Some "2024-06-01") false)
  = inr demo_out /\
  forall r, r ∈ rows demo_out ->
    exists root digits,
      rget r "RootID" = CStr root /\
      extract_root_id demo_str_of_timestamp
        (CStr (strip (upper (py_str demo_str_of_timestamp (rget r "ID")))))
      = Some root /\
      digits <> "" /\ all_digits digits = true /\
      (root = "DSH" +:+ digits \/ root = "PED" +:+ digits).
Proof.
  split; [exact demo_run_returns|].
  exact (process_folder_root_of_id demo_str_of_timestamp demo_parse_datetime demo_to_datetime
           demo_read_excel demo_listdir 19875 "in" ["DSH"; "PED"]
           "latest-begin" (Some "2024-06-01") false demo_out
           demo_run_returns).
Defined.

Lemma latest_begin_output_ascending_demo :
  snd (process_folder demo_str_of_timestamp demo_parse_datetime demo_to_datetime
         demo_read_excel demo_listdir 19875
         "in" ["DSH"; "PED"] "latest-begin" (Some "2024-06-01") false)
  = inr demo_out /\
  StronglySorted
    (fun a b => exists x y, rget a "RootID" = CStr x /\
                            rget b "RootID" = CStr y /\
                            String.compare x y = Lt)
    (rows demo_out).
Proof.
  split; [exact demo_run_returns|].
  exact (latest_begin_output_ascending demo_str_of_timestamp
           demo_parse_datetime demo_to_datetime demo_read_excel demo_listdir 19875 "in"
           ["DSH"; "PED"] (Some "2024-06-01") false demo_out
           demo_run_returns).
Defined.

Lemma path_basename_of_join_demo :
  contains "/" "a.xlsx" = false /\
  path_basename (path_join "exports/2024/" "a.xlsx") = "a.xlsx".
Proof.
  assert (H : contains "/" "a.xlsx" = false) by reflexivity.
  split; [exact H|].
  exact (path_basename_of_join "exports/2024/" "a.xlsx" H).
Defined.
